(** * International Fantasy 2025: match cache, scoring rulebook and day aggregation

    A shallow embedding of the Cloud Functions of the repository:

    - [functions/src/scoring.ts] (module [ScoringTs]): the first rulebook,
      used by the pipeline of [scoreDay.ts];
    - [functions/src/index.ts] (module [IndexTs]): cache, poller, scoring and
      aggregation, lock gate;
    - the revised copy of [index.ts] with the slim projection, the roster
      breakdown and the sorted leaderboard (module [SlimTs]);
    - the stand-alone [submitLineup] callable (module [LineupTs]).

    Conventions of the embedding.

    - Telemetry is duck-typed in the source ([m: any]); it is a [JsVal] here,
      read with [prop] as the source reads it with [.] and [?.].
    - JavaScript numbers that count things are integers, hence [Z]; the
      coercions ([String], [parseInt], [>>], [&]) are written out.  Strings
      are sequences of ASCII characters.
    - Points are kept in hundredths of a point ([cpts]): every weight of the
      rulebook is a whole number of hundredths, so sums are exact.  The
      captain multiplier 1.5 is applied as [* 3 / 2] with the rounding of
      [toFixed(2)]. *)

From Stdlib Require Import ZArith Lia Bool List Ascii String Sorting.Sorted
  Sorting.Permutation.
From stdpp Require Import base option list strings gmap.

Local Open Scope string_scope.
Local Open Scope Z_scope.

Set Warnings "-register-all".

(** ** JavaScript values *)

Inductive JsVal : Type :=
| JUndefined
| JNull
| JBool (b : bool)
| JNum (n : Z)
| JStr (s : string)
| JArr (xs : list JsVal)
| JObj (fields : list (string * JsVal)).

(** [!v] is [negb (truthy v)]. *)
Definition truthy (v : JsVal) : bool :=
  match v with
  | JUndefined | JNull => false
  | JBool b => b
  | JNum n => negb (n =? 0)
  | JStr s => negb (String.eqb s "")
  | JArr _ | JObj _ => true
  end.

(** [a ?? b] *)
Definition nullish (a b : JsVal) : JsVal :=
  match a with
  | JUndefined | JNull => b
  | _ => a
  end.

(** [a || b] *)
Definition orElse (a b : JsVal) : JsVal := if truthy a then a else b.

Fixpoint assoc (k : string) (fs : list (string * JsVal)) : JsVal :=
  match fs with
  | [] => JUndefined
  | (k', v) :: fs' => if String.eqb k k' then v else assoc k fs'
  end.

(** [v?.k]; it is also [v.k] wherever the source has already established
    that [v] is neither [null] nor [undefined]. *)
Definition prop (k : string) (v : JsVal) : JsVal :=
  match v with
  | JObj fs => assoc k fs
  | _ => JUndefined
  end.

(** [Array.isArray(v) ? v : []] *)
Definition arrayOr (v : JsVal) : list JsVal :=
  match v with
  | JArr xs => xs
  | _ => []
  end.

Definition isArray (v : JsVal) : bool :=
  match v with
  | JArr _ => true
  | _ => false
  end.

(** [v === "literal"] *)
Definition strictEqStr (v : JsVal) (s : string) : bool :=
  match v with
  | JStr t => String.eqb t s
  | _ => false
  end.

(** [v?.k === true] *)
Definition strictEqBool (v : JsVal) (k : string) : bool :=
  match prop k v with
  | JBool true => true
  | _ => false
  end.

(** [v === n] for a number literal *)
Definition strictEqNum (v : JsVal) (n : Z) : bool :=
  match v with
  | JNum k => k =? n
  | _ => false
  end.

(** The key comparison of a [Map] (SameValueZero): primitives by value,
    objects and arrays by identity, and two documents never share one. *)
Definition sameValueZero (a b : JsVal) : bool :=
  match a, b with
  | JUndefined, JUndefined => true
  | JNull, JNull => true
  | JBool x, JBool y => Bool.eqb x y
  | JNum x, JNum y => x =? y
  | JStr x, JStr y => String.eqb x y
  | _, _ => false
  end.

(** *** [String(v)] *)

Definition digitChar (d : Z) : ascii := ascii_of_nat (48 + Z.to_nat d).

Fixpoint digitsOf (fuel : nat) (n : Z) (acc : string) : string :=
  match fuel with
  | O => acc
  | S fuel' =>
      let acc' := String (digitChar (n mod 10)) acc in
      if n / 10 =? 0 then acc' else digitsOf fuel' (n / 10) acc'
  end.

(** Decimal image of an integer, as [Number.prototype.toString] prints it
    below 1e21. *)
Definition stringOfZ (n : Z) : string :=
  if n <? 0
  then String "-" (digitsOf (S (Z.to_nat (Z.log2 (- n)))) (- n) "")
  else digitsOf (S (Z.to_nat (Z.log2 n))) n "".

Fixpoint joinComma (parts : list string) : string :=
  match parts with
  | [] => ""
  | [p] => p
  | p :: rest => String.append p (String.append "," (joinComma rest))
  end.

Fixpoint toStr (v : JsVal) : string :=
  match v with
  | JUndefined => "undefined"
  | JNull => "null"
  | JBool true => "true"
  | JBool false => "false"
  | JNum n => stringOfZ n
  | JStr s => s
  | JArr xs =>
      joinComma
        (List.map (fun x => match x with
                            | JUndefined | JNull => ""
                            | _ => toStr x
                            end) xs)
  | JObj _ => "[object Object]"
  end.

(** *** [parseInt(s, 10)] and [toInt] *)

Definition isWhite (c : ascii) : bool :=
  let n := nat_of_ascii c in
  ((9 <=? n) && (n <=? 13) || (n =? 32))%nat.

Definition isDigit (c : ascii) : bool :=
  let n := nat_of_ascii c in ((48 <=? n) && (n <=? 57))%nat.

Definition digitVal (c : ascii) : Z := Z.of_nat (nat_of_ascii c) - 48.

Fixpoint skipWhite (s : string) : string :=
  match s with
  | String c r => if isWhite c then skipWhite r else s
  | EmptyString => s
  end.

(** The longest prefix of digits; [None] when there is none. *)
Fixpoint readDigits (s : string) (acc : option Z) : option Z :=
  match s with
  | String c r =>
      if isDigit c
      then readDigits r (Some (10 * default 0 acc + digitVal c))
      else acc
  | EmptyString => acc
  end.

(** [None] stands for [NaN]. *)
Definition parseInt (s : string) : option Z :=
  match skipWhite s with
  | String "-" r => Z.opp <$> readDigits r None
  | String "+" r => readDigits r None
  | r => readDigits r None
  end.

(** [const toInt = (v) => Number.parseInt(String(v ?? 0), 10) || 0] *)
Definition toInt (v : JsVal) : Z :=
  default 0 (parseInt (toStr (nullish v (JNum 0)))).

(** [ToInt32], applied by [>>] and [&] to their operands. *)
Definition toInt32 (n : Z) : Z := (n + 2 ^ 31) mod 2 ^ 32 - 2 ^ 31.

(** [n >>> 0] *)
Definition toUint32 (n : Z) : Z := n mod 2 ^ 32.

(** *** Points *)

(** Hundredths of a point. *)
Definition cpts := Z.

Definition pt (whole : Z) : cpts := whole * 100.

(** [Number(x.toFixed(2))] of a value given in two-hundredths of a point:
    the nearest hundredth, the larger in magnitude on a tie. *)
Definition toFixed2 (halves : Z) : cpts :=
  if halves <? 0 then - ((- halves + 1) / 2) else (halves + 1) / 2.

(** ** Shared shapes *)

Inductive Side : Type := Radiant | Dire.

(** The [{ radiant: 0, dire: 0 }] accumulators of the source. *)
Record PerSide : Type := mkPerSide { radiant : Z; dire : Z }.

(** [xs.filter(f).length] *)
Definition countIf {A} (f : A -> bool) (xs : list A) : Z :=
  Z.of_nat (length (List.filter f xs)).

(** [xs.reduce((sum, x) => sum + f(x), 0)] *)
Definition sumOver {A} (f : A -> Z) (xs : list A) : Z :=
  fold_left (fun sum x => sum + f x) xs 0.

(** ** [Array.prototype.sort]

    The standard requires a stable sort; for a consistent comparator the
    result is the one an insertion sort yields.  [cmp a b < 0] places [a]
    before [b]. *)
Section JsSort.
Context {A : Type} (cmp : A -> A -> Z).

Fixpoint insertBy (x : A) (l : list A) : list A :=
  match l with
  | [] => [x]
  | y :: l' => if cmp x y <=? 0 then x :: y :: l' else y :: insertBy x l'
  end.

Fixpoint jsSort (l : list A) : list A :=
  match l with
  | [] => []
  | x :: l' => insertBy x (jsSort l')
  end.
End JsSort.

(** [(a, b) => b.totalPoints - a.totalPoints] *)
Definition byTotalDesc {A} (total : A -> Z) : A -> A -> Z :=
  fun a b => total b - total a.

(** ** [functions/src/scoring.ts] *)
Module ScoringTs.

Record PlayerStats : Type := mkPlayerStats {
  kills : Z;
  assists : Z;
  deaths : Z;
  last_hits : Z;
  denies : Z;
  obs_placed : option Z;
  sen_placed : option Z;
  camps_stacked : option Z;
  win : bool
}.

Definition scorePlayerMatch (p : PlayerStats) (durationSeconds : Z) : cpts :=
  let wards := default 0 (obs_placed p) + default 0 (sen_placed p) in
  let pts := 0 in
  let pts := pts + kills p * pt 3 in
  let pts := pts + assists p * pt 2 in
  let pts := pts + deaths p * pt (-1) in
  let pts := pts + last_hits p * 2 (* 0.02 *) in
  let pts := pts + denies p * 2 (* 0.02 *) in
  let pts := pts + wards * 20 (* 0.2 *) in
  let pts := pts + default 0 (camps_stacked p) * 50 (* 0.5 *) in
  let pts :=
    if win p then
      let pts := pts + pt 15 in
      if durationSeconds <? 25 * 60 then pts + pt 15 else pts
    else pts in
  let pts := if kills p + assists p >? 20 then pts + pt 2 else pts in
  pts.

(** [while (x) { x &= x - 1; c++; }]: [None] when the fuel runs out. *)
Fixpoint popcountLoop (fuel : nat) (x c : Z) : option Z :=
  match fuel with
  | O => None
  | S fuel' =>
      if x =? 0 then Some c
      else popcountLoop fuel'
             (Z.land (toInt32 x) (toInt32 (x - 1))) (c + 1)
  end.

Definition popcount (n : Z) : option Z := popcountLoop 40 (toUint32 n) 0.

Definition towersDestroyedBy (side : Side) (tr td : Z) : option Z :=
  c ← popcount (match side with Radiant => tr | Dire => td end);
  Some (11 - c).

Definition raxDestroyedBy (side : Side) (br bd : Z) : option Z :=
  c ← popcount (match side with Radiant => br | Dire => bd end);
  Some (6 - c).

Definition teamCode (side : Side) : Z :=
  match side with Radiant => 2 | Dire => 3 end.

Definition roshansForSide (objectives : option (list JsVal)) (side : Side) : Z :=
  let t := teamCode side in
  countIf (fun o => strictEqStr (prop "type" o) "CHAT_MESSAGE_ROSHAN_KILL"
                    && strictEqNum (prop "team" o) t)
          (default [] objectives).

Definition firstBloodForSide (objectives : option (list JsVal)) (side : Side) : bool :=
  let t := teamCode side in
  existsb (fun o => strictEqStr (prop "type" o) "CHAT_MESSAGE_FIRSTBLOOD"
                    && strictEqNum (prop "team" o) t)
          (default [] objectives).

Record TeamArgs : Type := mkTeamArgs {
  side : Side;
  tower_status_radiant : Z;
  tower_status_dire : Z;
  barracks_status_radiant : Z;
  barracks_status_dire : Z;
  objectives : option (list JsVal);
  radiant_win : bool
}.

Definition scoreTeamMatch (a : TeamArgs) : option cpts :=
  let teamWon :=
    match side a with
    | Radiant => radiant_win a
    | Dire => negb (radiant_win a)
    end in
  let pts := 0 in
  towers ← towersDestroyedBy (side a) (tower_status_radiant a) (tower_status_dire a);
  let pts := pts + towers * pt 1 in
  rax ← raxDestroyedBy (side a) (barracks_status_radiant a) (barracks_status_dire a);
  let pts := pts + rax * pt 1 in
  let pts := pts + roshansForSide (objectives a) (side a) * pt 3 in
  let pts := if firstBloodForSide (objectives a) (side a) then pts + pt 2 else pts in
  let pts := if teamWon then pts + pt 2 else pts in
  Some pts.

(** [sweepBonus]: the bonus of one series, per side. *)
Definition sweepBonus (seriesType radiantWins direWins : Z) : PerSide :=
  let out := mkPerSide 0 0 in
  let out :=
    if (seriesType =? 1) && ((radiantWins =? 2) || (direWins =? 2)) then
      if radiantWins =? 2
      then mkPerSide (radiant out + pt 15) (dire out)
      else mkPerSide (radiant out) (dire out + pt 15)
    else out in
  let out :=
    if (seriesType =? 2) && ((radiantWins =? 3) || (direWins =? 3)) then
      if radiantWins =? 3
      then mkPerSide (radiant out + pt 15) (dire out)
      else mkPerSide (radiant out) (dire out + pt 15)
    else out in
  out.

(** [applyCaptainDailyMultiplier = n => n * 1.5], in two-hundredths. *)
Definition applyCaptainDailyMultiplier (n : cpts) : Z := n * 3.

(** Step 4 of the pipeline of [scoreDay.ts]: the leaderboard of the day is
    the list of the day's manager totals, sorted. *)
Record ManagerDay : Type := mkManagerDay { md_mid : JsVal; md_totalPoints : Z }.

Definition leaderboardOfDay (daySnaps : list ManagerDay) : list ManagerDay :=
  jsSort (byTotalDesc md_totalPoints) daySnaps.

End ScoringTs.

(** ** Calendar arithmetic of [Date] *)

Definition msPerDay : Z := 86400000.
Definition msPerHour : Z := 3600000.
Definition maxTime : Z := 8640000000000000.

(** Day number (days since 1970-01-01) of a proleptic Gregorian date,
    [month] in 1..12. *)
Definition daysFromCivil (year month day : Z) : Z :=
  let y := if month <=? 2 then year - 1 else year in
  let era := y / 400 in
  let yoe := y - era * 400 in
  let mp := if month >? 2 then month - 3 else month + 9 in
  let doy := (153 * mp + 2) / 5 + day - 1 in
  let doe := yoe * 365 + yoe / 4 - yoe / 100 + doy in
  era * 146097 + doe - 719468.

(** Year, month (1..12) and day of the month of a day number. *)
Definition civilFromDays (z : Z) : Z * Z * Z :=
  let z := z + 719468 in
  let era := z / 146097 in
  let doe := z - era * 146097 in
  let yoe := (doe - doe / 1460 + doe / 36524 - doe / 146096) / 365 in
  let y := yoe + era * 400 in
  let doy := doe - (365 * yoe + yoe / 4 - yoe / 100) in
  let mp := (5 * doy + 2) / 153 in
  let d := doy - (153 * mp + 2) / 5 + 1 in
  let m := if mp <? 10 then mp + 3 else mp - 9 in
  (if m <=? 2 then y + 1 else y, m, d).

(** [Date.UTC(y, m, d, h, 0, 0)]: months count from 0 and overflow into the
    year, days overflow into the month, years 0..99 mean 1900..1999; [None]
    is [NaN] (outside the time range). *)
Definition DateUTC (y m d h : Z) : option Z :=
  let yr := if (0 <=? y) && (y <=? 99) then 1900 + y else y in
  let ym := yr + m / 12 in
  let mn := m mod 12 in
  let day := daysFromCivil ym (mn + 1) 1 + d - 1 in
  let t := day * msPerDay + h * msPerHour in
  if Z.abs t <=? maxTime then Some t else None.

Definition padStart2 (s : string) : string :=
  if (String.length s <? 2)%nat then "0" +:+ s else s.

(** [yyyymmddFromUTC(new Date(ms))] *)
Definition yyyymmddFromUTC (ms : Z) : string :=
  if Z.abs ms <=? maxTime then
    let '(y, m, d) := civilFromDays (ms / msPerDay) in
    stringOfZ y +:+ padStart2 (stringOfZ m) +:+ padStart2 (stringOfZ d)
  else "NaNNaNNaN".

(** [new Date(ms).getUTCHours()] *)
Definition getUTCHours (ms : Z) : Z := (ms / msPerHour) mod 24.

(** [/^\d+$/.test(s)] *)
Fixpoint allDigits (s : string) : bool :=
  match s with
  | EmptyString => true
  | String c r => isDigit c && allDigits r
  end.

Definition isDigitString (s : string) : bool :=
  negb (String.eqb s "") && allDigits s.

(** [/^\d{8}$/.test(s)] *)
Definition isDateKey (s : string) : bool :=
  (String.length s =? 8)%nat && allDigits s.

(** [Number(s)] for a slice of a date key: its decimal value, 0 for the empty
    slice, [None] ([NaN]) when another character occurs.  Every caller has
    tested the key against [/^\d{8}$/] before. *)
Definition NumberOfSlice (s : string) : option Z :=
  if allDigits s then Some (default 0 (readDigits s None)) else None.

(** [s.slice(a, b)] for [0 <= a <= b] *)
Definition slice (a b : nat) (s : string) : string := substring a (b - a) s.

(** [function lockTimestamp(dateKey, lockHourUTC)] of [index.ts] *)
Definition lockTimestamp (dateKey : string) (lockHourUTC : Z) : option Z :=
  y ← NumberOfSlice (slice 0 4 dateKey);
  m ← (fun m => m - 1) <$> NumberOfSlice (slice 4 6 dateKey);
  d ← NumberOfSlice (slice 6 8 dateKey);
  DateUTC y m d lockHourUTC.

(** [now >= t], false against [NaN]. *)
Definition geTime (now : Z) (t : option Z) : bool :=
  match t with
  | Some t => t <=? now
  | None => false
  end.

(** ** [Map] keyed by JavaScript values, in insertion order *)
Section JsMap.
Context {V : Type}.

Definition mapGet (k : JsVal) (m : list (JsVal * V)) : option V :=
  snd <$> List.find (fun e => sameValueZero (fst e) k) m.

Definition mapHas (k : JsVal) (m : list (JsVal * V)) : bool :=
  bool_decide (is_Some (mapGet k m)).

(** [m.set(k, v)]: a present key keeps its place. *)
Fixpoint mapSet (k : JsVal) (v : V) (m : list (JsVal * V)) : list (JsVal * V) :=
  match m with
  | [] => [(k, v)]
  | (k', v') :: r =>
      if sameValueZero k' k then (k', v) :: r else (k', v') :: mapSet k v r
  end.

(** [f(m.get(k)!)] for an [f] that updates the entry in place. *)
Definition mapUpdate (k : JsVal) (f : V -> V) (m : list (JsVal * V)) : list (JsVal * V) :=
  match mapGet k m with
  | Some v => mapSet k (f v) m
  | None => m
  end.
End JsMap.

(** ** The rulebook configuration [SCORING] *)

Module Players.
Record t : Type := mk {
  kill : cpts; assist : cpts; death : cpts;
  lastHits : cpts; denies : cpts;
  wardsPlaced : cpts; campsStacked : cpts;
  winUnder25 : cpts; kaOver20 : cpts; winGame : cpts; sweep : cpts
}.
End Players.

Module Team.
Record t : Type := mk {
  towers : cpts; barracks : cpts; roshans : cpts;
  firstBlood : cpts; teamWin : cpts; sweep : cpts
}.
End Team.

(** [captainMultiplierX2] is twice the multiplier (3 for 1.5). *)
Record Scoring : Type := mkScoring {
  players : Players.t;
  team : Team.t;
  captainMultiplierX2 : Z
}.

(** ** Documents *)

(** [interface LineupDoc]: the role lists are arrays, as every
    [submitLineup] stores them. *)
Record LineupDoc : Type := mkLineup {
  tid : JsVal;
  dateKey : JsVal;
  ownerUid : JsVal;
  mid : JsVal;
  managerName : JsVal;
  captain : JsVal;
  cores : list JsVal;
  supports : list JsVal;
  teamCard : JsVal;
  locked : JsVal;
  updatedAt : JsVal
}.

(** [cfg.roles], read by the stand-alone [submitLineup]. *)
Record Roles : Type := mkRoles { r_cores : Z; r_supports : Z }.

(** [interface TournamentDoc] *)
Record TournamentDoc : Type := mkTournament {
  t_name : option string;
  leagueIds : option (list Z);
  lockHourUTC : option Z;
  roles : option Roles
}.

(** What a callable does: return, throw an [HttpsError], or throw a plain
    [Error]. *)
Inductive ErrorCode : Type :=
| unauthenticated | invalid_argument | failed_precondition | permission_denied.

Inductive Outcome (A : Type) : Type :=
| Returns (a : A)
| ThrowsHttps (code : ErrorCode) (message : string)
| ThrowsError (message : string).
Arguments Returns {A} a.
Arguments ThrowsHttps {A} code message.
Arguments ThrowsError {A} message.

(** The rows of [summarizePlayers].  (The revised copy stores one more
    field, [roshans_killed], which no function reads.) *)
Record Row : Type := mkRow {
  id : string;
  kills : Z; deaths : Z; assists : Z;
  last_hits : Z; denies : Z;
  obs_placed : Z; camps_stacked : Z;
  player_slot : Z; isRadiant : bool
}.

Record SideWins : Type := mkSideWins { team_id : JsVal; wins : Z }.
Record SeriesWins : Type := mkSeriesWins { sw_radiant : SideWins; sw_dire : SideWins }.

Record SweepBonuses : Type := mkSweeps {
  playerSweeps : gmap string cpts;
  teamSweep : cpts
}.

(** ** Functions shared by [index.ts] and its revised copy *)

Definition DEFAULT_LOCK_HOUR_UTC : Z := 8.

(** [bitCount(n, bits)]: [(n >> i) & 1] for [i < bits]. *)
Definition bitCount (n : JsVal) (bits : nat) : Z :=
  let n := toInt n in
  fold_left
    (fun c i =>
       if negb (Z.land (Z.shiftr (toInt32 n) (Z.of_nat i mod 32)) 1 =? 0)
       then c + 1 else c)
    (seq 0 bits) 0.

Definition towersDestroyedByRadiant (m : JsVal) : Z :=
  11 - bitCount (prop "tower_status_dire" m) 11.
Definition towersDestroyedByDire (m : JsVal) : Z :=
  11 - bitCount (prop "tower_status_radiant" m) 11.
Definition barracksDestroyedByRadiant (m : JsVal) : Z :=
  6 - bitCount (prop "barracks_status_dire" m) 6.
Definition barracksDestroyedByDire (m : JsVal) : Z :=
  6 - bitCount (prop "barracks_status_radiant" m) 6.

Definition sideOfSlot (slot : Z) : Side :=
  if slot <? 128 then Radiant else Dire.

Definition firstBloodTeam (m : JsVal) : option Side :=
  let objs := arrayOr (prop "objectives" m) in
  match List.find (fun o => strictEqStr (prop "type" o) "CHAT_MESSAGE_FIRST_BLOOD") objs with
  | None => None
  | Some fb => Some (sideOfSlot (toInt (prop "player_slot" fb)))
  end.

Definition rowOf (id : string) (p : JsVal) : Row :=
  {| id := id;
     kills := toInt (prop "kills" p); deaths := toInt (prop "deaths" p);
     assists := toInt (prop "assists" p);
     last_hits := toInt (prop "last_hits" p); denies := toInt (prop "denies" p);
     obs_placed := toInt (prop "obs_placed" p);
     camps_stacked := toInt (prop "camps_stacked" p);
     player_slot := toInt (prop "player_slot" p);
     isRadiant := toInt (prop "player_slot" p) <? 128 |}.

(** [String(p?.account_id ?? "")] *)
Definition accountKey (p : JsVal) : string :=
  toStr (nullish (prop "account_id" p) (JStr "")).

Definition summarizePlayers (m : JsVal) : gmap string Row :=
  let arr := arrayOr (prop "players" m) in
  fold_left
    (fun (map : gmap string Row) p =>
       let id := accountKey p in
       if String.eqb id "" then map          (* continue *)
       else <[id := rowOf id p]> map)
    arr ∅.

(** [m.series_id || m.match_id] *)
Definition seriesKey (m : JsVal) : JsVal :=
  orElse (prop "series_id" m) (prop "match_id" m).

Definition winRadiant (w : SeriesWins) : SeriesWins :=
  mkSeriesWins (mkSideWins (team_id (sw_radiant w)) (wins (sw_radiant w) + 1)) (sw_dire w).
Definition winDire (w : SeriesWins) : SeriesWins :=
  mkSeriesWins (sw_radiant w) (mkSideWins (team_id (sw_dire w)) (wins (sw_dire w) + 1)).

(** Series keys are the numbers [upsertMatchDoc] stores. *)
Definition seriesWinsForDay (matches : list JsVal) : list (JsVal * SeriesWins) :=
  fold_left
    (fun map m =>
       let sid := seriesKey m in
       let map :=
         if mapHas sid map then map
         else mapSet sid
                (mkSeriesWins (mkSideWins (prop "radiant_team_id" m) 0)
                              (mkSideWins (prop "dire_team_id" m) 0)) map in
       if truthy (prop "radiant_win" m)
       then mapUpdate sid winRadiant map
       else mapUpdate sid winDire map)
    matches [].

(** The grouping loop at the head of [addSweepBonuses]. *)
Definition groupBySeries (matches : list JsVal) : list (JsVal * list JsVal) :=
  fold_left
    (fun bySeries m =>
       let sid := seriesKey m in
       let bySeries := if mapHas sid bySeries then bySeries else mapSet sid [] bySeries in
       mapUpdate sid (fun pack => (pack ++ [m])%list) bySeries)
    matches [].

(** *** Team selection *)

Fixpoint trimEnd (s : string) : string :=
  match s with
  | EmptyString => EmptyString
  | String c r =>
      let r' := trimEnd r in
      if isWhite c && String.eqb r' "" then EmptyString else String c r'
  end.

Definition trim (s : string) : string := trimEnd (skipWhite s).

Definition lowerChar (c : ascii) : ascii :=
  let n := nat_of_ascii c in
  if ((65 <=? n) && (n <=? 90))%nat then ascii_of_nat (n + 32) else c.

Fixpoint toLowerCase (s : string) : string :=
  match s with
  | EmptyString => EmptyString
  | String c r => String (lowerChar c) (toLowerCase r)
  end.

(** [s.replace(/\s+/g, "_")]; [inRun] holds inside a run of white space. *)
Fixpoint replaceWhite (inRun : bool) (s : string) : string :=
  match s with
  | EmptyString => EmptyString
  | String c r =>
      if isWhite c
      then (if inRun then replaceWhite true r else String "_" (replaceWhite true r))
      else String c (replaceWhite false r)
  end.

Definition teamKey (x : JsVal) : string :=
  replaceWhite false (toLowerCase (trim (toStr (nullish x (JStr ""))))).

Definition nonEmpty (s : string) : bool := negb (String.eqb s "").

(** [Some true] is radiant, [Some false] dire, [None] is [null]. *)
Definition isRadiantForTeam (match_ teamSel : JsVal) : option bool :=
  if negb (truthy teamSel) then None
  else
    let byId :=
      if isDigitString (toStr teamSel) then
        let id := toInt teamSel in
        if toInt (prop "radiant_team_id" match_) =? id then Some true
        else if toInt (prop "dire_team_id" match_) =? id then Some false
        else None
      else None in
    match byId with
    | Some r => Some r
    | None =>
        let rName := teamKey (orElse (prop "radiant_name" match_) (JStr "")) in
        let dName := teamKey (orElse (prop "dire_name" match_) (JStr "")) in
        let sel := teamKey teamSel in
        if nonEmpty rName && nonEmpty sel && String.eqb rName sel then Some true
        else if nonEmpty dName && nonEmpty sel && String.eqb dName sel then Some false
        else None
    end.

(** *** Completeness *)

Definition looksComplete (m : JsVal) : bool :=
  if negb (truthy m) then false
  else
    let hasPlayers :=
      isArray (prop "players" m)
      && (length (arrayOr (prop "players" m)) =? 10)%nat in
    let hasDuration := toInt (prop "duration" m) >? 0 in
    hasPlayers && hasDuration.

(** *** Scoring, for a rulebook and a roshan attribution *)
Module Rules.
Section Rulebook.
Variable SCORING : Scoring.
Variable roshansByTeam : JsVal -> PerSide.

Definition scorePlayerInMatch (steam32 m : JsVal) : cpts :=
  match summarizePlayers m !! toStr steam32 with
  | None => 0
  | Some row =>
      let isWin :=
        (isRadiant row && truthy (prop "radiant_win" m))
        || (negb (isRadiant row) && negb (truthy (prop "radiant_win" m))) in
      let P := players SCORING in
      let pts := 0 in
      let pts := pts + (kills row * Players.kill P + assists row * Players.assist P
                        + deaths row * Players.death P) in
      let pts := pts + (last_hits row * Players.lastHits P
                        + denies row * Players.denies P) in
      let pts := pts + (obs_placed row * Players.wardsPlaced P
                        + camps_stacked row * Players.campsStacked P) in
      let pts := if isWin && (toInt (prop "duration" m) <? 25 * 60)
                 then pts + Players.winUnder25 P else pts in
      let pts := if kills row + assists row >=? 20
                 then pts + Players.kaOver20 P else pts in
      let pts := if isWin then pts + Players.winGame P else pts in
      pts
  end.

Definition scoreTeamCardInMatch (teamId m : JsVal) : cpts :=
  match isRadiantForTeam m teamId with
  | None => 0
  | Some side =>
      let T := team SCORING in
      let pts := 0 in
      let pts := pts + (if side then towersDestroyedByRadiant m
                        else towersDestroyedByDire m) * Team.towers T in
      let pts := pts + (if side then barracksDestroyedByRadiant m
                        else barracksDestroyedByDire m) * Team.barracks T in
      let ros := roshansByTeam m in
      let pts := pts + (if side then radiant ros else dire ros) * Team.roshans T in
      let fb := firstBloodTeam m in
      let pts :=
        if match fb with
           | Some Radiant => side
           | Some Dire => negb side
           | None => false
           end
        then pts + Team.firstBlood T else pts in
      let pts :=
        if (side && truthy (prop "radiant_win" m))
           || (negb side && negb (truthy (prop "radiant_win" m)))
        then pts + Team.teamWin T else pts in
      pts
  end.

(** The sweeping team of a series, [null] when there is none. *)
Definition sweepTeamOf (w : SeriesWins) : JsVal :=
  let sweepTeamId := JNull in
  let sweepTeamId :=
    if (wins (sw_radiant w) >=? 2) && (wins (sw_dire w) =? 0)
    then team_id (sw_radiant w) else sweepTeamId in
  let sweepTeamId :=
    if (wins (sw_dire w) >=? 2) && (wins (sw_radiant w) =? 0)
    then team_id (sw_dire w) else sweepTeamId in
  sweepTeamId.

(** [pack.some(m => ...)] of [addSweepBonuses] *)
Definition playedSweep (pid : string) (sweepTeamId : JsVal) (pack : list JsVal) : bool :=
  existsb
    (fun m =>
       match summarizePlayers m !! pid with
       | None => false
       | Some row =>
           let tid := if isRadiant row
                      then toInt (prop "radiant_team_id" m)
                      else toInt (prop "dire_team_id" m) in
           toInt (JNum tid) =? toInt sweepTeamId
       end)
    pack.

Definition rosterIds (lineup : LineupDoc) : list string :=
  List.map toStr (captain lineup :: (cores lineup ++ supports lineup)%list).

Definition addSweepBonuses (lineup : LineupDoc) (matches : list JsVal) : SweepBonuses :=
  let series := seriesWinsForDay matches in
  let teamId := if truthy (teamCard lineup)
                then JNum (toInt (teamCard lineup)) else JNull in
  let bySeries := groupBySeries matches in
  fold_left
    (fun acc entry =>
       let '(sid, pack) := entry in
       match mapGet sid series with
       | None => acc                                       (* continue *)
       | Some w =>
           let sweepTeamId := sweepTeamOf w in
           if negb (truthy sweepTeamId) then acc           (* continue *)
           else
             let teamSweep :=
               if truthy teamId && (toInt teamId =? toInt sweepTeamId)
               then teamSweep acc + Team.sweep (team SCORING)
               else teamSweep acc in
             let playerSweeps :=
               fold_left
                 (fun (ps : gmap string cpts) pid =>
                    if playedSweep pid sweepTeamId pack
                    then <[pid := default 0 (ps !! pid) + Players.sweep (players SCORING)]> ps
                    else ps)
                 (rosterIds lineup) (playerSweeps acc) in
             mkSweeps playerSweeps teamSweep
       end)
    bySeries (mkSweeps ∅ 0).

(** [playerSweeps.get(pid) || 0] *)
Definition sweepOf (s : SweepBonuses) (pid : string) : cpts :=
  default 0 (playerSweeps s !! pid).

(** [SCORING.captainMultiplier || 1], doubled. *)
Definition captainMultiplierOr1 : Z :=
  if captainMultiplierX2 SCORING =? 0 then 2 else captainMultiplierX2 SCORING.

End Rulebook.
End Rules.

(** ** Firestore documents and [set(doc, { merge: true })] *)

Fixpoint setField (k : string) (v : JsVal) (fs : list (string * JsVal)) : list (string * JsVal) :=
  match fs with
  | [] => [(k, v)]
  | (k', v') :: r =>
      if String.eqb k k' then (k', v) :: r else (k', v') :: setField k v r
  end.

(** Top-level fields of the written document replace the stored ones (arrays
    and scalars are replaced whole); stored fields it lacks survive. *)
Definition mergeFields (old new : list (string * JsVal)) : list (string * JsVal) :=
  fold_left (fun acc kv => setField (fst kv) (snd kv) acc) new old.

Definition setMerge (docId : string) (doc : list (string * JsVal))
    (coll : gmap string JsVal) : gmap string JsVal :=
  match coll !! docId with
  | Some (JObj old) => <[docId := JObj (mergeFields old doc)]> coll
  | _ => <[docId := JObj doc]> coll
  end.

Record UpsertResult : Type := mkUpsert {
  u_dateKey : string;
  u_match_id : Z;
  u_complete : bool
}.

(** The state of one run of the poller: the [matches] collection and the
    days that gained a complete match. *)
Record PollState : Type := mkPoll {
  matchesColl : gmap string JsVal;
  completedDates : gset string
}.

(** ** [functions/src/index.ts] *)
Module IndexTs.

Definition SCORING : Scoring :=
  {| players := Players.mk (pt 3) (pt 2) (pt (-1)) 2 2 20 50 (pt 15) (pt 2) (pt 15) (pt 15);
     team := Team.mk (pt 1) (pt 1) (pt 3) (pt 2) (pt 2) (pt 15);
     captainMultiplierX2 := 3 |}.

Definition roshansByTeam (m : JsVal) : PerSide :=
  let out := mkPerSide 0 0 in
  let objs := arrayOr (prop "objectives" m) in
  fold_left
    (fun out o =>
       if strictEqStr (prop "type" o) "CHAT_MESSAGE_ROSHAN_KILL" then
         let slot := toInt (prop "player_slot" o) in
         if slot <? 128 then mkPerSide (radiant out + 1) (dire out)
         else mkPerSide (radiant out) (dire out + 1)
       else out)
    objs out.

Definition scorePlayerInMatch := Rules.scorePlayerInMatch SCORING.
Definition scoreTeamCardInMatch := Rules.scoreTeamCardInMatch SCORING roshansByTeam.
Definition addSweepBonuses := Rules.addSweepBonuses SCORING.

(** The document [upsertMatchDoc] builds; [stamp] is what the server
    stores for [FieldValue.serverTimestamp()]. *)
Definition matchDoc (tid : string) (match_ stamp : JsVal) : list (string * JsVal) :=
  let date := toInt (orElse (prop "start_time" match_) (prop "startTime" match_)) * 1000 in
  let dateKey := yyyymmddFromUTC date in
  let complete := looksComplete match_ in
  [ ("match_id", JNum (toInt (nullish (prop "match_id" match_) (prop "matchId" match_))));
    ("series_id", JNum (toInt (nullish (prop "series_id" match_) (prop "seriesId" match_))));
    ("series_type", JNum (toInt (nullish (prop "series_type" match_) (prop "seriesType" match_))));
    ("radiant_team_id", JNum (toInt (prop "radiant_team_id" match_)));
    ("dire_team_id", JNum (toInt (prop "dire_team_id" match_)));
    ("radiant_win", JBool (truthy (prop "radiant_win" match_)));
    ("duration", JNum (toInt (prop "duration" match_)));
    ("tower_status_radiant", JNum (toInt (prop "tower_status_radiant" match_)));
    ("tower_status_dire", JNum (toInt (prop "tower_status_dire" match_)));
    ("barracks_status_radiant", JNum (toInt (prop "barracks_status_radiant" match_)));
    ("barracks_status_dire", JNum (toInt (prop "barracks_status_dire" match_)));
    ("objectives", JArr (arrayOr (prop "objectives" match_)));
    ("players", JArr (arrayOr (prop "players" match_)));
    ("start_time", JNum (toInt (prop "start_time" match_)));
    ("radiant_name", orElse (prop "radiant_name" match_) (JStr ""));
    ("dire_name", orElse (prop "dire_name" match_) (JStr ""));
    ("tid", JStr tid);
    ("dateKey", JStr dateKey);
    ("complete", JBool complete);
    ("updatedAt", stamp) ].

(** [None]: reading a property of [null] or [undefined] throws. *)
Definition upsertMatchDoc (tid : string) (match_ stamp : JsVal)
    (coll : gmap string JsVal) : option (gmap string JsVal * UpsertResult) :=
  match match_ with
  | JUndefined | JNull => None
  | _ =>
      let doc := matchDoc tid match_ stamp in
      let match_id := toInt (nullish (prop "match_id" match_) (prop "matchId" match_)) in
      let dateKey :=
        yyyymmddFromUTC
          (toInt (orElse (prop "start_time" match_) (prop "startTime" match_)) * 1000) in
      Some (setMerge (stringOfZ match_id) doc coll,
            mkUpsert dateKey match_id (looksComplete match_))
  end.

(** The body of the loop [for (const row of list)] of [pollOpenDota];
    [fetchMatchDetail] answers [None] when the request fails. *)
Definition pollRow (fetchMatchDetail : Z -> option JsVal) (tid : string)
    (now : Z) (stamp : JsVal) (st : PollState) (row : JsVal) : PollState :=
  let matchId := toInt (orElse (prop "match_id" row) (prop "matchId" row)) in
  if matchId =? 0 then st                                   (* continue *)
  else
    let snap := matchesColl st !! stringOfZ matchId in
    let skip :=
      match snap with
      | Some existing =>
          if strictEqBool existing "complete" || looksComplete existing then true
          else
            let startSec :=
              toInt (orElse (prop "start_time" existing) (prop "start_time" row)) in
            now - startSec * 1000 <? 15 * 60 * 1000
      | None =>
          let startSec := toInt (prop "start_time" row) in
          now - startSec * 1000 <? 10 * 60 * 1000
      end in
    if skip then st                                         (* continue *)
    else
      match fetchMatchDetail matchId with
      | None => st                                          (* caught *)
      | Some det =>
          let beforeComplete :=
            match snap with
            | Some existing => truthy (prop "complete" existing)
            | None => false
            end in
          match upsertMatchDoc tid det stamp (matchesColl st) with
          | None => st                                      (* caught *)
          | Some (coll, r) =>
              mkPoll coll
                (if u_complete r && negb beforeComplete
                 then {[ u_dateKey r ]} ∪ completedDates st
                 else completedDates st)
          end
      end.


(** [interface LeaderboardEntry] *)
Record LeaderboardEntry : Type := mkEntry {
  e_mid : JsVal;
  e_managerName : JsVal;
  totalPoints : cpts
}.

(** The body of the loop [for (const L of lineups)] of [scoreDay]. *)
Definition entryOf (matches : list JsVal) (L : LineupDoc) : LeaderboardEntry :=
  let cap := toStr (orElse (captain L) (JStr "")) in
  let cores := List.map toStr (cores L) in
  let sups := List.map toStr (supports L) in
  let teamCard := teamCard L in
  let sw := addSweepBonuses L matches in
  let capPts :=
    sumOver (fun m => scorePlayerInMatch (JStr cap) m) matches
    + Rules.sweepOf sw cap in
  let corePts :=
    sumOver (fun pid => sumOver (fun m => scorePlayerInMatch (JStr pid) m) matches
                        + Rules.sweepOf sw pid) cores in
  let supPts :=
    sumOver (fun pid => sumOver (fun m => scorePlayerInMatch (JStr pid) m) matches
                        + Rules.sweepOf sw pid) sups in
  let teamPts :=
    sumOver (fun m => scoreTeamCardInMatch teamCard m) matches + teamSweep sw in
  (* total, in two-hundredths *)
  let total :=
    capPts * Rules.captainMultiplierOr1 SCORING + 2 * (corePts + supPts + teamPts) in
  {| e_mid := orElse (orElse (ownerUid L) (mid L)) (JStr "unknown");
     e_managerName := nullish (managerName L) JNull;
     totalPoints := toFixed2 total |}.

(** [.where("tid", "==", tid).where("dateKey", "==", dateKey)] *)
Definition matchesOfDay (tid dateKey : string) (coll : list JsVal) : list JsVal :=
  List.filter (fun d => sameValueZero (prop "tid" d) (JStr tid)
                        && sameValueZero (prop "dateKey" d) (JStr dateKey)) coll.

Definition lineupsOfDay (tid_ dateKey_ : string) (coll : list LineupDoc) : list LineupDoc :=
  List.filter (fun d => sameValueZero (tid d) (JStr tid_)
                        && sameValueZero (dateKey d) (JStr dateKey_)) coll.

(** [scoreDay]: the entries of the leaderboard document it writes.  The
    collections are given as the lists of their documents, in the order the
    queries return them. *)
Definition scoreDay (tid dateKey : string) (matchesColl : list JsVal)
    (lineupsColl : list LineupDoc) : list LeaderboardEntry :=
  let matches := matchesOfDay tid dateKey matchesColl in
  let lineups := lineupsOfDay tid dateKey lineupsColl in
  let entries := List.map (entryOf matches) lineups in
  entries.

(** [getTournament(tid).lockHourUTC] *)
Definition lockHourOf (t : option TournamentDoc) : Z :=
  match t with
  | Some t => default DEFAULT_LOCK_HOUR_UTC (lockHourUTC t)
  | None => DEFAULT_LOCK_HOUR_UTC
  end.

(** [request.auth] holds the uid; [request.data] the payload. *)
Record CallableRequest : Type := mkRequest { auth : option string; data : JsVal }.

(** [submitLineup]; [stamp] as in [upsertMatchDoc].  The answer is the
    lineups collection after the call and the id returned. *)
Definition submitLineup (request : CallableRequest)
    (tournaments : gmap string TournamentDoc) (now : Z) (stamp : JsVal)
    (lineups : gmap string LineupDoc) : Outcome (gmap string LineupDoc * string) :=
  match auth request with
  | None => ThrowsHttps unauthenticated "Sign in first."
  | Some uid =>
      let d := orElse (data request) (JObj []) in
      let tid := prop "tid" d in
      let dateKey := prop "dateKey" d in
      if negb (truthy tid) || negb (isDateKey (toStr (orElse dateKey (JStr ""))))
      then ThrowsHttps invalid_argument "Missing tid/dateKey."
      else
        match tid with
        | JStr tidS =>
            let lockHour := lockHourOf (tournaments !! tidS) in
            if geTime now (lockTimestamp (toStr dateKey) lockHour)
            then ThrowsHttps failed_precondition "Lineups for this day are locked."
            else
              let docId := tidS +:+ "_" +:+ toStr dateKey +:+ "_" +:+ uid in
              let payload :=
                {| tid := tid; dateKey := dateKey;
                   ownerUid := JStr uid; mid := JStr uid;
                   managerName := nullish (prop "managerName" d) JNull;
                   captain := JStr (toStr (orElse (prop "captain" d) (JStr "")));
                   cores := List.map (fun x => JStr (toStr x)) (arrayOr (prop "cores" d));
                   supports := List.map (fun x => JStr (toStr x)) (arrayOr (prop "supports" d));
                   teamCard := JStr (toStr (orElse (prop "teamCard" d) (JStr "")));
                   locked := JBool false;
                   updatedAt := stamp |} in
              Returns (<[docId := payload]> lineups, docId)
        | _ => ThrowsError "Value for argument documentPath is not a valid resource path."
        end
  end.

End IndexTs.

(** ** The revised copy of [index.ts] (slim projection, roster, sorted board) *)
Module SlimTs.

Definition SCORING : Scoring :=
  {| players := Players.mk (pt 3) (pt 2) (pt (-1)) 2 2 20 50 (pt 15) (pt 2) (pt 15) (pt 30);
     team := Team.mk (pt 1) (pt 1) (pt 3) (pt 2) (pt 2) (pt 15);
     captainMultiplierX2 := 3 |}.

(** The first loop of [roshansByTeam]: the counts and [sawObjective]. *)
Definition roshanObjectives (m : JsVal) : PerSide * bool :=
  let objs := arrayOr (prop "objectives" m) in
  fold_left
    (fun '(out, sawObjective) o =>
       if strictEqStr (prop "type" o) "CHAT_MESSAGE_ROSHAN_KILL" then
         let slot := toInt (prop "player_slot" o) in
         (if slot <? 128 then mkPerSide (radiant out + 1) (dire out)
          else mkPerSide (radiant out) (dire out + 1), true)
       else (out, sawObjective))
    objs (mkPerSide 0 0, false).

(** [toInt(p?.roshans_killed ?? p?.roshan_kills ?? 0)] *)
Definition roshanCounter (p : JsVal) : Z :=
  toInt (nullish (nullish (prop "roshans_killed" p) (prop "roshan_kills" p)) (JNum 0)).

Definition roshansByTeam (m : JsVal) : PerSide :=
  let '(out, sawObjective) := roshanObjectives m in
  if sawObjective then out
  else
    let players := arrayOr (prop "players" m) in
    fold_left
      (fun out p =>
         let rk := roshanCounter p in
         if rk >? 0 then
           let slot := toInt (prop "player_slot" p) in
           if slot <? 128 then mkPerSide (radiant out + rk) (dire out)
           else mkPerSide (radiant out) (dire out + rk)
         else out)
      players out.

Definition scorePlayerInMatch := Rules.scorePlayerInMatch SCORING.
Definition scoreTeamCardInMatch := Rules.scoreTeamCardInMatch SCORING roshansByTeam.
Definition addSweepBonuses := Rules.addSweepBonuses SCORING.

Definition slimObjective (o : JsVal) : JsVal :=
  JObj [ ("type", prop "type" o);
         ("player_slot", JNum (toInt (prop "player_slot" o)));
         ("time", JNum (toInt (prop "time" o))) ].

(** [None]: [p.account_id] throws on a [null] row. *)
Definition slimPlayer (p : JsVal) : option JsVal :=
  match p with
  | JUndefined | JNull => None
  | _ =>
      Some (JObj [ ("account_id", JNum (toInt (prop "account_id" p)));
                   ("player_slot", JNum (toInt (prop "player_slot" p)));
                   ("kills", JNum (toInt (prop "kills" p)));
                   ("deaths", JNum (toInt (prop "deaths" p)));
                   ("assists", JNum (toInt (prop "assists" p)));
                   ("last_hits", JNum (toInt (prop "last_hits" p)));
                   ("denies", JNum (toInt (prop "denies" p)));
                   ("obs_placed", JNum (toInt (prop "obs_placed" p)));
                   ("camps_stacked", JNum (toInt (prop "camps_stacked" p))) ])
  end.

Definition toSlimMatch (tid : string) (match_ stamp : JsVal) : option (list (string * JsVal)) :=
  match match_ with
  | JUndefined | JNull => None
  | _ =>
      let startSecs := toInt (nullish (prop "start_time" match_) (prop "startTime" match_)) in
      let dateKey := yyyymmddFromUTC (startSecs * 1000) in
      let objectives :=
        List.map slimObjective
          (List.filter
             (fun o => truthy o
                       && (strictEqStr (prop "type" o) "CHAT_MESSAGE_ROSHAN_KILL"
                           || strictEqStr (prop "type" o) "CHAT_MESSAGE_FIRST_BLOOD"))
             (arrayOr (prop "objectives" match_))) in
      players ← mapM slimPlayer (arrayOr (prop "players" match_));
      Some
        [ ("match_id", JNum (toInt (nullish (prop "match_id" match_) (prop "matchId" match_))));
          ("series_id", JNum (toInt (nullish (prop "series_id" match_) (prop "seriesId" match_))));
          ("series_type", JNum (toInt (nullish (prop "series_type" match_) (prop "seriesType" match_))));
          ("radiant_team_id", JNum (toInt (prop "radiant_team_id" match_)));
          ("dire_team_id", JNum (toInt (prop "dire_team_id" match_)));
          ("radiant_win", JBool (truthy (prop "radiant_win" match_)));
          ("duration", JNum (toInt (prop "duration" match_)));
          ("tower_status_radiant", JNum (toInt (prop "tower_status_radiant" match_)));
          ("tower_status_dire", JNum (toInt (prop "tower_status_dire" match_)));
          ("barracks_status_radiant", JNum (toInt (prop "barracks_status_radiant" match_)));
          ("barracks_status_dire", JNum (toInt (prop "barracks_status_dire" match_)));
          ("objectives", JArr objectives);
          ("players", JArr players);
          ("start_time", JNum startSecs);
          ("radiant_name", JStr (toStr (orElse (prop "radiant_name" match_) (JStr ""))));
          ("dire_name", JStr (toStr (orElse (prop "dire_name" match_) (JStr ""))));
          ("tid", JStr tid);
          ("dateKey", JStr dateKey);
          ("complete",
           JBool (looksComplete
                    (JObj [ ("players", JArr players);
                            ("duration", JNum (toInt (prop "duration" match_))) ])));
          ("updatedAt", stamp) ]
  end.

Definition upsertMatchDoc (tid : string) (match_ stamp : JsVal)
    (coll : gmap string JsVal) : option (gmap string JsVal * UpsertResult) :=
  doc ← toSlimMatch tid match_ stamp;
  let match_id := toInt (nullish (prop "match_id" match_) (prop "matchId" match_)) in
  Some (setMerge (stringOfZ match_id) doc coll,
        mkUpsert (toStr (assoc "dateKey" doc)) match_id (truthy (assoc "complete" doc))).

Inductive Role : Type := Captain | Core | Support | TeamRole.

(** [type RosterItem]: [r_key] is [steam32], or [teamId] for the team. *)
Record RosterItem : Type := mkItem {
  role : Role;
  r_key : string;
  r_name : option string;
  points : cpts
}.

Record LeaderboardEntry : Type := mkEntry {
  e_mid : JsVal;
  e_managerName : JsVal;
  totalPoints : cpts;
  roster : list RosterItem
}.

(** The body of the loop over the lineups; [resolveTeamPrettyName] reads
    the [teams] collection. *)
Definition entryOf (resolveTeamPrettyName : string -> option string)
    (matches : list JsVal) (L : LineupDoc) : LeaderboardEntry :=
  let cap := toStr (orElse (captain L) (JStr "")) in
  let cores := List.map toStr (cores L) in
  let sups := List.map toStr (supports L) in
  let teamCard := toStr (orElse (teamCard L) (JStr "")) in
  let sw := addSweepBonuses L matches in
  let raw pid := sumOver (fun m => scorePlayerInMatch (JStr pid) m) matches
                 + Rules.sweepOf sw pid in
  let capRaw := raw cap in
  let coreRaw := List.map raw cores in
  let supRaw := List.map raw sups in
  let teamRaw :=
    sumOver (fun m => scoreTeamCardInMatch (JStr teamCard) m) matches + teamSweep sw in
  (* captain slot, in two-hundredths *)
  let capPts := capRaw * Rules.captainMultiplierOr1 SCORING in
  let roster :=
    ([mkItem Captain cap None (toFixed2 capPts)]
     ++ List.map (fun '(pid, r) => mkItem Core pid None (toFixed2 (2 * r)))
          (combine cores coreRaw)
     ++ List.map (fun '(pid, r) => mkItem Support pid None (toFixed2 (2 * r)))
          (combine sups supRaw)
     ++ (if nonEmpty teamCard
         then [mkItem TeamRole teamCard (resolveTeamPrettyName teamCard)
                 (toFixed2 (2 * teamRaw))]
         else []))%list in
  let total := sumOver points roster in
  {| e_mid := orElse (orElse (ownerUid L) (mid L)) (JStr "unknown");
     e_managerName := nullish (managerName L) JNull;
     totalPoints := toFixed2 (2 * total);
     roster := roster |}.

(** [.where("complete", "==", true)] on top of the day filter *)
Definition matchesOfDay (tid dateKey : string) (coll : list JsVal) : list JsVal :=
  List.filter (fun d => sameValueZero (prop "tid" d) (JStr tid)
                        && sameValueZero (prop "dateKey" d) (JStr dateKey)
                        && sameValueZero (prop "complete" d) (JBool true)) coll.

(** [scoreDay]: the entries of the leaderboard document it writes. *)
Definition scoreDay (resolveTeamPrettyName : string -> option string)
    (tid dateKey : string) (matchesColl : list JsVal)
    (lineupsColl : list LineupDoc) : list LeaderboardEntry :=
  let matches := matchesOfDay tid dateKey matchesColl in
  let lineups := IndexTs.lineupsOfDay tid dateKey lineupsColl in
  let entries := List.map (entryOf resolveTeamPrettyName matches) lineups in
  (* sort & write *)
  jsSort (byTotalDesc totalPoints) entries.

End SlimTs.

(** ** The stand-alone [submitLineup] callable *)
Module LineupTs.

Definition defaultRoles : Roles := mkRoles 3 2.

(** The answer [{ ok: true, locked }] and the lineups collection. *)
Definition submitLineup (request : IndexTs.CallableRequest)
    (tournaments : gmap string TournamentDoc) (now : Z)
    (lineups : gmap string LineupDoc) : Outcome (gmap string LineupDoc * bool) :=
  match IndexTs.auth request with
  | None => ThrowsError "auth required"
  | Some uid =>
      if String.eqb uid "" then ThrowsError "auth required"
      else
        let d := nullish (IndexTs.data request) (JObj []) in
        let tid_ := prop "tid" d in
        let dateKey_ := prop "dateKey" d in
        let captain_ := prop "captain" d in
        let cores_ := prop "cores" d in
        let supports_ := prop "supports" d in
        let teamCard_ := prop "teamCard" d in
        if negb (truthy tid_) || negb (truthy dateKey_)
        then ThrowsError "tid & dateKey required"
        else
          match tournaments !! toStr tid_ with
          | None => ThrowsError "tournament not found"
          | Some cfg =>
              let roles := default defaultRoles (roles cfg) in
              if negb (match captain_ with JNum _ => true | _ => false end)
              then ThrowsError "captain steam32 required"
              else if negb (isArray cores_)
                      || negb (Z.of_nat (length (arrayOr cores_)) =? r_cores roles)
              then ThrowsError ("need " +:+ stringOfZ (r_cores roles) +:+ " cores")
              else if negb (isArray supports_)
                      || negb (Z.of_nat (length (arrayOr supports_)) =? r_supports roles)
              then ThrowsError ("need " +:+ stringOfZ (r_supports roles) +:+ " supports")
              else if negb (match teamCard_ with JStr _ => true | _ => false end)
              then ThrowsError "teamCard orgId required"
              else
                (* respect lock: if current UTC hour >= lockHourUTC, block *)
                let locked_ := getUTCHours now >=? default 12 (lockHourUTC cfg) in
                let docId := toStr tid_ +:+ "_" +:+ uid +:+ "_" +:+ toStr dateKey_ in
                let old := lineups !! docId in
                let payload :=
                  {| tid := tid_; dateKey := dateKey_;
                     ownerUid := from_option ownerUid JUndefined old;
                     mid := JStr uid;
                     managerName := from_option managerName JUndefined old;
                     captain := captain_;
                     cores := arrayOr cores_;
                     supports := arrayOr supports_;
                     teamCard := teamCard_;
                     locked := JBool locked_;
                     updatedAt := from_option updatedAt JUndefined old |} in
                Returns (<[docId := payload]> lineups, locked_)
          end
  end.

End LineupTs.

(** ** The admin callables of [index.ts] *)
Module AdminTs.

(** [request.auth]: the uid and the [admin] claim of its token. *)
Record AuthData : Type := mkAuth { uid : string; tokenAdmin : JsVal }.

Record CallableRequest : Type := mkRequest { auth : option AuthData; data : JsVal }.

(** [assertAdmin]: [!!auth?.token?.admin] decides. *)
Definition isAdmin (a : option AuthData) : bool :=
  match a with
  | Some a => truthy (tokenAdmin a)
  | None => false
  end.

(** [s.includes("@")] *)
Fixpoint includesAt (s : string) : bool :=
  match s with
  | EmptyString => false
  | String c r => Ascii.eqb c "@" || includesAt r
  end.

(** [adminSetLineup]: the lineups collection after the call and the message
    returned.  [managerName] is not part of the payload, so the merge keeps
    the stored one. *)
Definition adminSetLineup (request : CallableRequest)
    (tournaments : gmap string TournamentDoc) (now : Z) (stamp : JsVal)
    (lineups : gmap string LineupDoc) : Outcome (gmap string LineupDoc * string) :=
  if negb (isAdmin (auth request)) then ThrowsHttps permission_denied "Admins only."
  else
    match data request with
    | JUndefined | JNull => ThrowsError "Cannot destructure 'request.data'."
    | d =>
        let tid_ := prop "tid" d in
        let dateKey_ := prop "dateKey" d in
        let uid_ := prop "uid" d in
        let overrideLock := prop "overrideLock" d in
        if negb (truthy tid_)
           || negb (isDateKey (toStr (orElse dateKey_ (JStr ""))))
           || negb (truthy uid_)
        then ThrowsHttps invalid_argument "Provide tid, dateKey, uid."
        else
          match tid_ with
          | JStr tidS =>
              let nowLocked :=
                geTime now (lockTimestamp (toStr dateKey_)
                              (IndexTs.lockHourOf (tournaments !! tidS))) in
              if nowLocked && negb (truthy overrideLock)
              then ThrowsHttps failed_precondition "Locked; check Override."
              else
                let docId := tidS +:+ "_" +:+ toStr dateKey_ +:+ "_" +:+ toStr uid_ in
                let old := lineups !! docId in
                let payload :=
                  {| tid := tid_; dateKey := dateKey_;
                     ownerUid := uid_; mid := uid_;
                     managerName := from_option managerName JUndefined old;
                     captain := JStr (toStr (orElse (prop "captain" d) (JStr "")));
                     cores := List.map (fun x => JStr (toStr x)) (arrayOr (prop "cores" d));
                     supports := List.map (fun x => JStr (toStr x)) (arrayOr (prop "supports" d));
                     teamCard := JStr (toStr (orElse (prop "teamCard" d) (JStr "")));
                     locked := JBool nowLocked;
                     updatedAt := stamp |} in
                Returns (<[docId := payload]> lineups,
                         if nowLocked then "Saved to a locked day." else "Saved.")
          | _ => ThrowsError "Value for argument documentPath is not a valid resource path."
          end
    end.

(** What [adminGetLineup] answers for a resolved user. *)
Record LineupView : Type := mkView {
  v_uid : string;
  v_email : JsVal;
  v_locked : bool;
  v_captain : JsVal;
  v_cores : list JsVal;
  v_supports : list JsVal;
  v_teamCard : JsVal
}.

(** [adminGetLineup]; [getUserByEmail] and [getUser] are the lookups of the
    identity provider ([None] when they throw), answering the uid and the
    [email] field.  [None] is the answer [{ uid: null }]. *)
Definition adminGetLineup (getUserByEmail : string -> option (string * JsVal))
    (getUser : string -> option JsVal) (request : CallableRequest)
    (tournaments : gmap string TournamentDoc) (now : Z)
    (lineups : gmap string LineupDoc) : Outcome (option LineupView) :=
  if negb (isAdmin (auth request)) then ThrowsHttps permission_denied "Admins only."
  else
    match data request with
    | JUndefined | JNull => ThrowsError "Cannot destructure 'request.data'."
    | d =>
        let tid_ := prop "tid" d in
        let dateKey_ := prop "dateKey" d in
        let user := prop "user" d in
        if negb (truthy tid_)
           || negb (isDateKey (toStr (orElse dateKey_ (JStr ""))))
           || negb (truthy user)
        then ThrowsHttps invalid_argument "Provide tid, dateKey, user."
        else
          let '(uid_, email) :=
            if includesAt (toStr user) then
              match getUserByEmail (toStr user) with
              | Some (u, e) => (Some u, orElse e JNull)
              | None => (None, JNull)
              end
            else
              (Some (toStr user),
               match getUser (toStr user) with
               | Some e => orElse e JNull
               | None => JNull
               end) in
          match uid_ with
          | None => Returns None
          | Some u =>
              if String.eqb u "" then Returns None
              else
                let docId := toStr tid_ +:+ "_" +:+ toStr dateKey_ +:+ "_" +:+ u in
                let L := lineups !! docId in
                match tid_ with
                | JStr tidS =>
                    let locked_ :=
                      geTime now (lockTimestamp (toStr dateKey_)
                                    (IndexTs.lockHourOf (tournaments !! tidS)))
                      || from_option (fun l => truthy (locked l)) false L in
                    Returns
                      (Some
                         {| v_uid := u; v_email := email; v_locked := locked_;
                            v_captain := orElse (from_option captain JUndefined L) (JStr "");
                            v_cores := from_option cores [] L;
                            v_supports := from_option supports [] L;
                            v_teamCard := orElse (from_option teamCard JUndefined L) (JStr "") |})
                | _ => ThrowsError "Value for argument documentPath is not a valid resource path."
                end
          end
    end.

End AdminTs.

(** ** The purge of old matches (revised copy of [index.ts]) *)
Module PurgeTs.

(** [Date.UTC(now.getUTCFullYear(), now.getUTCMonth(), now.getUTCDate() - 2, 0, 0, 0)] *)
Definition cutoffUTC (now : Z) : option Z :=
  if Z.abs now <=? maxTime then
    let '(y, m, d) := civilFromDays (now / msPerDay) in
    DateUTC y (m - 1) (d - 2) 0
  else None.

(** [yyyymmddFromUTC(new Date(cutoffUTC))] *)
Definition cutoffKey (now : Z) : string :=
  match cutoffUTC now with
  | Some t => yyyymmddFromUTC t
  | None => "NaNNaNNaN"
  end.

(** [.where("dateKey", "<", cutoffKey)]: only string fields compare. *)
Definition isOld (cutoff : string) (d : JsVal) : bool :=
  match prop "dateKey" d with
  | JStr k => String.ltb k cutoff
  | _ => false
  end.

(** The order of the query: by [dateKey], then by document id. *)
Definition queryOrder (a b : string * JsVal) : Z :=
  match String.compare (toStr (prop "dateKey" (snd a))) (toStr (prop "dateKey" (snd b))) with
  | Lt => -1
  | Gt => 1
  | Eq => match String.compare (fst a) (fst b) with
          | Lt => -1
          | Gt => 1
          | Eq => 0
          end
  end.

(** The documents of the query, at most 500. *)
Definition oldMatches (now : Z) (coll : gmap string JsVal) : list (string * JsVal) :=
  firstn 500
    (jsSort queryOrder
       (List.filter (fun e => isOld (cutoffKey now) (snd e)) (map_to_list coll))).

(** [purgeOldMatches]: the [matches] collection after the batch. *)
Definition purgeOldMatches (now : Z) (coll : gmap string JsVal) : gmap string JsVal :=
  fold_left (fun c e => delete (fst e) c) (oldMatches now coll) coll.

End PurgeTs.

(** ** The hourly lock job ([lockLineupsHourly]) *)
Module LockJobTs.

Definition ACTIVE_DAYS_ET : list Z := [4; 5; 6; 7; 11; 12; 13; 14].

(** [computeLockUTC]: 11:00 UTC of the day of the key. *)
Definition computeLockUTC (dateKey : string) : option Z :=
  y ← NumberOfSlice (slice 0 4 dateKey);
  m ← (fun m => m - 1) <$> NumberOfSlice (slice 4 6 dateKey);
  d ← NumberOfSlice (slice 6 8 dateKey);
  DateUTC y m d 11.

(** [todayDateKeyET]: the UTC date of four hours ago. *)
Definition todayDateKeyET (now : Z) : string :=
  yyyymmddFromUTC (now - 4 * 3600 * 1000).

Definition isActiveDay (dateKey : string) : bool :=
  match NumberOfSlice (slice 0 4 dateKey),
        NumberOfSlice (slice 4 6 dateKey),
        NumberOfSlice (slice 6 8 dateKey) with
  | Some y, Some m, Some d =>
      (y =? 2025) && (m =? 9) && existsb (Z.eqb d) ACTIVE_DAYS_ET
  | _, _, _ => false
  end.

(** The query of the job: the unlocked lineups of [ti2025] for the day. *)
Definition toLock (dk : string) (d : JsVal) : bool :=
  sameValueZero (prop "tid" d) (JStr "ti2025")
  && sameValueZero (prop "dateKey" d) (JStr dk)
  && sameValueZero (prop "locked" d) (JBool false).

(** [batch.set(ref, { locked: true, lockedAt }, { merge: true })] *)
Definition lockDoc (stamp : JsVal) (d : JsVal) : JsVal :=
  match d with
  | JObj old => JObj (mergeFields old [("locked", JBool true); ("lockedAt", stamp)])
  | _ => JObj [("locked", JBool true); ("lockedAt", stamp)]
  end.

(** The collections [lineups] and [locks]. *)
Record JobState : Type := mkJob {
  lineupsColl : gmap string JsVal;
  locksColl : gmap string JsVal
}.

Definition lockLineupsHourly (now : Z) (stamp : JsVal) (st : JobState) : JobState :=
  let dk := todayDateKeyET now in
  if negb (isActiveDay dk) then st
  else
    let lockAt := computeLockUTC dk in
    (* [now < lockAt] is false against [NaN] *)
    if match lockAt with Some t => now <? t | None => false end then st
    else
      let tid_ := "ti2025" in
      mkJob
        ((fun d => if toLock dk d then lockDoc stamp d else d) <$> lineupsColl st)
        (setMerge (tid_ +:+ "_" +:+ dk)
           [("tid", JStr tid_); ("dateKey", JStr dk); ("lockedAt", stamp)]
           (locksColl st)).

End LockJobTs.

(** ** Player names ([players.ts]) *)
Module PlayersTs.

(** [getPlayerDisplay]: the name and the [players] collection after the call.
    [fetchPlayer] is the provider ([None] when the request or its JSON fails);
    [now] is [Date.now()]. *)
Definition getPlayerDisplay (fetchPlayer : Z -> option JsVal) (steam32 : Z)
    (now : Z) (coll : gmap string JsVal) : JsVal * gmap string JsVal :=
  if steam32 =? 0 then (JStr (toStr (JNum steam32)), coll)
  else
    let docId := toStr (JNum steam32) in
    let cached :=
      match coll !! docId with
      | Some d => prop "display" d
      | None => JUndefined
      end in
    if truthy cached then (cached, coll)
    else
      let display :=
        match fetchPlayer steam32 with
        | Some js =>
            nullish (nullish (prop "personaname" (prop "profile" js)) (prop "name" js))
                    (JStr (toStr (JNum steam32)))
        | None => JStr (toStr (JNum steam32))
        end in
      (display,
       setMerge docId
         [("steam32", JNum steam32); ("display", display); ("updatedAt", JNum now)]
         coll).

(** [nameFromMatchPlayer]: [undefined] when the row has neither name. *)
Definition nameFromMatchPlayer (p : JsVal) : JsVal :=
  nullish (nullish (prop "name" p) (prop "personaname" p)) JUndefined.

End PlayersTs.

(** ** The day range of the pipeline ([scoreDay.ts]) *)
Module PipelineTs.

(** [Date.UTC(y, m, d, h, min, s)] through [DateUTC]: minutes and seconds add
    to the time of the day. *)
Definition DateUTCTime (y m d h mi sec : Z) : option Z :=
  let yr := if (0 <=? y) && (y <=? 99) then 1900 + y else y in
  let ym := yr + m / 12 in
  let mn := m mod 12 in
  let day := daysFromCivil ym (mn + 1) 1 + d - 1 in
  let t := day * msPerDay + h * msPerHour + mi * 60000 + sec * 1000 in
  if Z.abs t <=? maxTime then Some t else None.

(** [dayRangeUTC]: the first and the last second of the day, in seconds.  The
    quotient by 1000 is exact. *)
Definition dayRangeUTC (dateKey : string) : option (Z * Z) :=
  y ← NumberOfSlice (slice 0 4 dateKey);
  m ← (fun m => m - 1) <$> NumberOfSlice (slice 4 6 dateKey);
  d ← NumberOfSlice (slice 6 8 dateKey);
  start ← DateUTCTime y m d 0 0 0;
  end_ ← DateUTCTime y m d 23 59 59;
  Some (start / 1000, end_ / 1000).

End PipelineTs.

(** * Specification-side notions *)

(** The number a string of digits denotes, read after the digits of [v]. *)
Fixpoint digitsValue (s : string) (v : Z) : Z :=
  match s with
  | EmptyString => v
  | String c r => digitsValue r (10 * v + digitVal c)
  end.

(** What a call returned, if it returned. *)
Definition returned {A} (o : Outcome A) : option A :=
  match o with
  | Returns a => Some a
  | _ => None
  end.

(** The player of a row won the match. *)
Definition rowWon (row : Row) (m : JsVal) : bool :=
  Bool.eqb (isRadiant row) (truthy (prop "radiant_win" m)).

(** A rulebook with one player weight set to zero. *)
Definition noFastWin (S : Scoring) : Scoring :=
  let P := players S in
  mkScoring
    (Players.mk (Players.kill P) (Players.assist P) (Players.death P)
       (Players.lastHits P) (Players.denies P) (Players.wardsPlaced P)
       (Players.campsStacked P) 0 (Players.kaOver20 P) (Players.winGame P)
       (Players.sweep P))
    (team S) (captainMultiplierX2 S).

Definition noCombo (S : Scoring) : Scoring :=
  let P := players S in
  mkScoring
    (Players.mk (Players.kill P) (Players.assist P) (Players.death P)
       (Players.lastHits P) (Players.denies P) (Players.wardsPlaced P)
       (Players.campsStacked P) (Players.winUnder25 P) 0 (Players.winGame P)
       (Players.sweep P))
    (team S) (captainMultiplierX2 S).

(** The linear part of [scorePlayerMatch]. *)
Definition statPoints (p : ScoringTs.PlayerStats) : cpts :=
  ScoringTs.kills p * pt 3 + ScoringTs.assists p * pt 2 - ScoringTs.deaths p * pt 1
  + ScoringTs.last_hits p * 2 + ScoringTs.denies p * 2
  + (default 0 (ScoringTs.obs_placed p) + default 0 (ScoringTs.sen_placed p)) * 20
  + default 0 (ScoringTs.camps_stacked p) * 50.

(** The selection names the team of the side whose id is stored under
    [idField] and whose name under [nameField]: by numeric team id, or by
    normalized team name. *)
Definition selectsById (m teamSel : JsVal) (idField : string) : Prop :=
  isDigitString (toStr teamSel) = true /\ toInt teamSel = toInt (prop idField m).

Definition selectsByName (m teamSel : JsVal) (nameField : string) : Prop :=
  teamKey teamSel <> "" /\ teamKey teamSel = teamKey (orElse (prop nameField m) (JStr "")).

Definition selectsRadiant (m teamSel : JsVal) : Prop :=
  selectsById m teamSel "radiant_team_id" \/ selectsByName m teamSel "radiant_name".

Definition selectsDire (m teamSel : JsVal) : Prop :=
  selectsById m teamSel "dire_team_id" \/ selectsByName m teamSel "dire_name".

(** The player rows of a match, as [summarizePlayers] reads them. *)
Definition playerRows (m : JsVal) : list JsVal := arrayOr (prop "players" m).

(** No row of the match carries the account id [pid]; a row whose account id
    is missing or empty carries none. *)
Definition absentFrom (pid : string) (m : JsVal) : Prop :=
  Forall (fun p => accountKey p = "" \/ accountKey p <> pid) (playerRows m).

(** Bits [0 .. bits-1] of [n] that are set. *)
Definition popcountOver (bits : nat) (n : Z) : Z :=
  countIf (fun i => Z.testbit n (Z.of_nat i)) (seq 0 bits).

Definition geTotal {A} (total : A -> Z) : A -> A -> Prop :=
  fun a b => total a >= total b.

(** Descending order of the totals. *)
Definition descending {A} (total : A -> Z) (l : list A) : Prop :=
  forall i a b, l !! i = Some a -> l !! S i = Some b -> total a >= total b.

(** The roshan-kill objective events of a match record. *)
Definition isRoshanKill (o : JsVal) : bool :=
  strictEqStr (prop "type" o) "CHAT_MESSAGE_ROSHAN_KILL".

Definition roshanEvents (m : JsVal) : list JsVal :=
  List.filter isRoshanKill (arrayOr (prop "objectives" m)).

(** The player slot of [x] lies on [side]: below 128 is radiant. *)
Definition onSide (side : Side) (x : JsVal) : bool :=
  match side with
  | Radiant => toInt (prop "player_slot" x) <? 128
  | Dire => negb (toInt (prop "player_slot" x) <? 128)
  end.

Definition eventsOf (side : Side) (m : JsVal) : Z :=
  countIf (onSide side) (roshanEvents m).

(** The per-player counters of a side; a counter that is not positive adds
    nothing. *)
Definition countersOf (side : Side) (m : JsVal) : Z :=
  sumOver (fun p => if onSide side p then Z.max 0 (SlimTs.roshanCounter p) else 0)
          (playerRows m).

(** The last row of a match that carries the account id [pid]. *)
Definition lastRowOf (pid : string) (m : JsVal) : option JsVal :=
  last (List.filter (fun p => String.eqb (accountKey p) pid) (playerRows m)).

(** The field names of [interface MatchDoc]. *)
Definition matchDocFields : list string :=
  [ "match_id"; "series_id"; "series_type"; "radiant_team_id"; "dire_team_id";
    "radiant_win"; "duration"; "tower_status_radiant"; "tower_status_dire";
    "barracks_status_radiant"; "barracks_status_dire"; "objectives"; "players";
    "start_time"; "radiant_name"; "dire_name"; "tid"; "dateKey"; "complete";
    "updatedAt" ].


(** A string without white space and without capital letters. *)
Fixpoint isKeyShaped (s : string) : bool :=
  match s with
  | EmptyString => true
  | String c r =>
      negb (isWhite c) && Ascii.eqb (lowerChar c) c && isKeyShaped r
  end.

(** The games of a day that carry the series key [sid]. *)
Definition gamesOf (sid : JsVal) (matches : list JsVal) : list JsVal :=
  List.filter (fun m => sameValueZero (seriesKey m) sid) matches.

Definition radiantWon (m : JsVal) : bool := truthy (prop "radiant_win" m).
Definition direWon (m : JsVal) : bool := negb (radiantWon m).

(** The tally of a series: the team ids of its first game, and the games won
    on each side. *)
Definition tally (games : list JsVal) : option SeriesWins :=
  match games with
  | [] => None
  | first :: _ =>
      Some (mkSeriesWins
              (mkSideWins (prop "radiant_team_id" first) (countIf radiantWon games))
              (mkSideWins (prop "dire_team_id" first) (countIf direWon games)))
  end.

(** Neither side of the games won two of them while the other won none. *)
Definition noCleanSweep (games : list JsVal) : bool :=
  let r := countIf radiantWon games in
  let d := countIf direWon games in
  negb ((2 <=? r) && (d =? 0)) && negb ((2 <=? d) && (r =? 0)).

(** * Sample documents *)

Definition playerRow (account slot kills deaths assists : Z) : JsVal :=
  JObj [ ("account_id", JNum account); ("player_slot", JNum slot);
         ("kills", JNum kills); ("deaths", JNum deaths); ("assists", JNum assists);
         ("last_hits", JNum 0); ("denies", JNum 0);
         ("obs_placed", JNum 0); ("camps_stacked", JNum 0) ].

(** A row of a player whose account is private. *)
Definition anonymousRow (slot kills : Z) : JsVal :=
  JObj [ ("account_id", JNull); ("player_slot", JNum slot);
         ("kills", JNum kills); ("deaths", JNum 0); ("assists", JNum 0) ].

Definition tenRows : list JsVal :=
  [ playerRow 101 0 4 1 6; playerRow 102 1 2 2 8; playerRow 103 2 10 0 10;
    playerRow 104 3 0 3 12; playerRow 105 4 1 2 9;
    playerRow 201 128 3 4 2; playerRow 202 129 1 3 4; playerRow 203 130 2 4 1;
    playerRow 204 131 0 3 5; anonymousRow 132 2 ].

(** A stored match of tournament [ti2025], day [20250911], team 11 (radiant)
    against team 22 (dire). *)
Definition gameDoc (match_id series_id series_type : Z) (radiant_win : bool)
    (objectives players : list JsVal) : JsVal :=
  JObj [ ("match_id", JNum match_id); ("series_id", JNum series_id);
         ("series_type", JNum series_type);
         ("radiant_team_id", JNum 11); ("dire_team_id", JNum 22);
         ("radiant_win", JBool radiant_win); ("duration", JNum 2400);
         ("tower_status_radiant", JNum 2047); ("tower_status_dire", JNum 0);
         ("barracks_status_radiant", JNum 63); ("barracks_status_dire", JNum 0);
         ("objectives", JArr objectives); ("players", JArr players);
         ("start_time", JNum 1757580000);
         ("radiant_name", JStr "Team Alpha"); ("dire_name", JStr "Beta");
         ("tid", JStr "ti2025"); ("dateKey", JStr "20250911");
         ("complete", JBool true) ].

Definition lineupOf (owner captain : string) (cores supports : list string)
    (teamCard : string) : LineupDoc :=
  {| tid := JStr "ti2025"; dateKey := JStr "20250911";
     ownerUid := JStr owner; mid := JStr owner; managerName := JNull;
     captain := JStr captain;
     cores := List.map JStr cores; supports := List.map JStr supports;
     teamCard := JStr teamCard; locked := JBool true; updatedAt := JNull |}.

Definition lineupDire : LineupDoc :=
  lineupOf "u1" "201" ["202"; "203"] ["204"; "205"] "22".
Definition lineupRadiant : LineupDoc :=
  lineupOf "u2" "101" ["102"; "103"] ["104"; "105"] "11".

(** A best-of-three won 2-0 by radiant, one won 2-1, and the first two games
    of a best-of-five, both won by radiant. *)
Definition bo3_2_0 : list JsVal :=
  [ gameDoc 1 500 1 true [] tenRows; gameDoc 2 500 1 true [] tenRows ].
Definition bo3_2_1 : list JsVal :=
  [ gameDoc 1 500 1 true [] tenRows; gameDoc 2 500 1 false [] tenRows;
    gameDoc 3 500 1 true [] tenRows ].
Definition bo5_2_0 : list JsVal :=
  [ gameDoc 1 600 2 true [] tenRows; gameDoc 2 600 2 true [] tenRows ].

(** A match whose record has no roshan objective but per-player counters. *)
Definition countersOnly : JsVal :=
  gameDoc 4 0 0 true
    [ JObj [("type", JStr "CHAT_MESSAGE_FIRST_BLOOD"); ("player_slot", JNum 1)] ]
    [ JObj [("account_id", JNum 101); ("player_slot", JNum 0); ("roshan_kills", JNum 2)];
      JObj [("account_id", JNum 201); ("player_slot", JNum 128); ("roshans_killed", JNum 1)] ].

(** A raw payload of the provider for match 7: complete, and the same match
    as the provider serves it half-written. *)
Definition rawComplete : JsVal :=
  JObj [ ("match_id", JNum 7); ("start_time", JNum 1757580000);
         ("duration", JNum 2400); ("radiant_win", JBool true);
         ("players", JArr tenRows) ].
Definition rawPartial : JsVal :=
  JObj [ ("match_id", JNum 7); ("start_time", JNum 1757580000);
         ("duration", JNum 0); ("players", JArr []) ].

Definition ti2025 : gmap string TournamentDoc :=
  {[ "ti2025" := mkTournament (Some "TI 2025") (Some [18324]) (Some 8) None ]}.

(** 2025-09-11T08:00:00Z, in milliseconds. *)
Definition lockInstant : Z := 1757577600000.

Definition lineupRequest : IndexTs.CallableRequest :=
  IndexTs.mkRequest (Some "u1")
    (JObj [ ("tid", JStr "ti2025"); ("dateKey", JStr "20250911");
            ("captain", JNum 101);
            ("cores", JArr [JNum 102; JNum 103; JNum 104]);
            ("supports", JArr [JNum 105; JNum 201]);
            ("teamCard", JStr "11") ]).

(** An admin's token, and an admin's write for manager [u1] with the override
    set. *)
Definition adminCaller : AdminTs.AuthData := AdminTs.mkAuth "admin1" (JBool true).

Definition adminWrite : AdminTs.CallableRequest :=
  AdminTs.mkRequest (Some adminCaller)
    (JObj [ ("tid", JStr "ti2025"); ("dateKey", JStr "20250911");
            ("uid", JStr "u1"); ("captain", JStr "101");
            ("cores", JArr [JStr "102"; JStr "103"; JStr "104"]);
            ("supports", JArr [JStr "105"; JStr "201"]);
            ("teamCard", JStr "11"); ("overrideLock", JBool true) ]).

(** The listing row of match 7, and an instant some hours after its start. *)
Definition listedRow : JsVal :=
  JObj [("match_id", JNum 7); ("start_time", JNum 1757580000)].

Definition afterMatch : Z := 1757590000000.

(** The answer of the provider for a player, and the collections the lock
    job meets at 2025-09-11T10:00:00Z: one unlocked lineup, no marker. *)
Definition providerProfile : JsVal :=
  JObj [("profile", JObj [("personaname", JStr "Ace")])].

Definition tenOClock : Z := 1757584800000.

Definition beforeLock : LockJobTs.JobState :=
  LockJobTs.mkJob
    {[ "ti2025_20250911_u1" :=
         JObj [ ("tid", JStr "ti2025"); ("dateKey", JStr "20250911");
                ("locked", JBool false) ] ]}
    ∅.

(** The cache after the complete payload of match 7 was stored. *)
Definition cachedMatch7 : gmap string JsVal :=
  setMerge "7" (IndexTs.matchDoc "ti2025" rawComplete JNull) ∅.

(** * Results *)

(** ** Coercions *)

Lemma digitChar_digit (d : Z) :
  0 <= d <= 9 -> isDigit (digitChar d) = true /\ digitVal (digitChar d) = d.
Proof.
  intros H.
  assert (E : d = 0 \/ d = 1 \/ d = 2 \/ d = 3 \/ d = 4 \/ d = 5 \/ d = 6
              \/ d = 7 \/ d = 8 \/ d = 9) by lia.
  repeat (destruct E as [->|E]; [split; reflexivity|]). subst. split; reflexivity.
Qed.

Lemma readDigits_value (s : string) :
  forall v, allDigits s = true -> readDigits s (Some v) = Some (digitsValue s v).
Proof.
  induction s as [|c r IH]; intros v H; simpl in *; [reflexivity|].
  apply andb_prop in H as [Hc Hr]. rewrite Hc. now apply IH.
Qed.

Lemma readDigits_from_none (c : ascii) (r : string) :
  allDigits (String c r) = true ->
  readDigits (String c r) None = Some (digitsValue (String c r) 0).
Proof.
  intros H. simpl in *. apply andb_prop in H as [Hc Hr]. rewrite Hc.
  now apply readDigits_value.
Qed.

Lemma digitsOf_shape (fuel : nat) :
  forall n acc,
    0 <= n < 2 ^ Z.of_nat fuel ->
    allDigits acc = true ->
    allDigits (digitsOf fuel n acc) = true
    /\ (acc <> "" \/ fuel <> O -> digitsOf fuel n acc <> "")
    /\ digitsValue (digitsOf fuel n acc) 0 = digitsValue acc n.
Proof.
  induction fuel as [|fuel IH]; intros n acc Hn Hacc.
  - change (2 ^ Z.of_nat 0) with 1 in Hn. assert (n = 0) as -> by lia.
    cbn [digitsOf]. split; [exact Hacc|]. split; [|reflexivity].
    intros [H|H]; [exact H|congruence].
  - assert (Hd : 0 <= n mod 10 <= 9) by (pose proof (Z.mod_pos_bound n 10); lia).
    destruct (digitChar_digit _ Hd) as [Hdig Hval].
    assert (Hacc' : allDigits (String (digitChar (n mod 10)) acc) = true).
    { cbn [allDigits]. now rewrite Hdig, Hacc. }
    pose proof (Z.div_mod n 10 ltac:(lia)) as Hdm.
    cbn [digitsOf].
    destruct (n / 10 =? 0) eqn:Eq.
    + apply Z.eqb_eq in Eq.
      split; [exact Hacc'|]. split; [intros _; discriminate|].
      cbn [digitsValue]. rewrite Hval. f_equal. lia.
    + assert (Hq : 0 <= n / 10 < 2 ^ Z.of_nat fuel).
      { split; [apply Z.div_pos; lia|].
        apply Z.div_lt_upper_bound; [lia|].
        rewrite Nat2Z.inj_succ, Z.pow_succ_r in Hn by lia.
        assert (0 < 2 ^ Z.of_nat fuel) by (apply Z.pow_pos_nonneg; lia). lia. }
      destruct (IH (n / 10) _ Hq Hacc') as (H1 & H2 & H3).
      split; [exact H1|]. split; [intros _; apply H2; left; discriminate|].
      rewrite H3. cbn [digitsValue]. rewrite Hval. f_equal. lia.
Qed.

Lemma parseInt_digits (c : ascii) (r : string) :
  isDigit c = true -> parseInt (String c r) = readDigits (String c r) None.
Proof.
  destruct c as [[] [] [] [] [] [] [] []]; intros H;
    try (vm_compute in H; discriminate); reflexivity.
Qed.

Lemma parseInt_stringOfNonneg (n : Z) :
  0 <= n ->
  exists c r, digitsOf (S (Z.to_nat (Z.log2 n))) n "" = String c r
              /\ isDigit c = true
              /\ readDigits (String c r) None = Some n.
Proof.
  intros Hn.
  assert (Hb : 0 <= n < 2 ^ Z.of_nat (S (Z.to_nat (Z.log2 n)))).
  { split; [exact Hn|].
    rewrite Nat2Z.inj_succ, Z2Nat.id by apply Z.log2_nonneg.
    destruct (Z.eq_dec n 0) as [->|]; [reflexivity|].
    apply Z.log2_spec. lia. }
  destruct (digitsOf_shape _ n "" Hb eq_refl) as (Hall & Hne & Hval).
  destruct (digitsOf (S (Z.to_nat (Z.log2 n))) n "") as [|c r] eqn:E.
  - exfalso. apply Hne; [right; discriminate|reflexivity].
  - exists c, r. split; [reflexivity|].
    split; [cbn [allDigits] in Hall; now apply andb_prop in Hall|].
    rewrite (readDigits_from_none c r Hall), Hval. reflexivity.
Qed.

(** [toInt] gives back an integer: printing it with [String] and reading it
    with [parseInt] is the identity. *)
Lemma toInt_JNum (n : Z) : toInt (JNum n) = n.
Proof.
  unfold toInt. cbn [nullish toStr]. unfold stringOfZ.
  destruct (n <? 0) eqn:E.
  - apply Z.ltb_lt in E.
    destruct (parseInt_stringOfNonneg (- n)) as (c & r & -> & _ & Hr); [lia|].
    change (parseInt (String "-" (String c r)))
      with (Z.opp <$> readDigits (String c r) None).
    rewrite Hr. simpl. lia.
  - apply Z.ltb_ge in E.
    destruct (parseInt_stringOfNonneg n E) as (c & r & -> & Hc & Hr).
    now rewrite (parseInt_digits c r Hc), Hr.
Qed.

(** ** Player rows *)

Lemma nonEmpty_false (s : string) : String.eqb s "" = true <-> s = "".
Proof. apply String.eqb_eq. Qed.

Lemma summarize_fold_absent (arr : list JsVal) (key : string) :
  forall map0 : gmap string Row,
    map0 !! key = None ->
    Forall (fun p => accountKey p = "" \/ accountKey p <> key) arr ->
    fold_left
      (fun (map : gmap string Row) p =>
         let id := accountKey p in
         if String.eqb id "" then map else <[id := rowOf id p]> map)
      arr map0 !! key = None.
Proof.
  induction arr as [|p arr IH]; intros map0 Hnone Hall; simpl; [exact Hnone|].
  inversion Hall as [|? ? Hp Hrest]; subst.
  apply IH; [|exact Hrest].
  destruct (String.eqb (accountKey p) "") eqn:E; [exact Hnone|].
  destruct Hp as [Hp|Hp].
  - apply nonEmpty_false in Hp. congruence.
  - rewrite lookup_insert_ne; [exact Hnone | exact Hp].
Qed.

Lemma summarizePlayers_absent (pid : string) (m : JsVal) :
  absentFrom pid m -> summarizePlayers m !! pid = None.
Proof.
  intros H. unfold summarizePlayers.
  apply summarize_fold_absent; [apply lookup_empty | exact H].
Qed.

(** C10. A player id that no row of the match carries scores exactly 0 in
    that match, under either rulebook; rows whose account id is missing or
    empty are dropped and so never count as a row of anybody. *)
Theorem scorePlayerInMatch_absent_is_zero :
  forall (S : Scoring) (steam32 m : JsVal),
    absentFrom (toStr steam32) m ->
    Rules.scorePlayerInMatch S steam32 m = 0
    /\ IndexTs.scorePlayerInMatch steam32 m = 0
    /\ SlimTs.scorePlayerInMatch steam32 m = 0.
Proof.
  intros S steam32 m H.
  unfold IndexTs.scorePlayerInMatch, SlimTs.scorePlayerInMatch,
    Rules.scorePlayerInMatch.
  rewrite (summarizePlayers_absent _ _ H). auto.
Qed.

(** ** Team selection *)

Lemma isRadiantForTeam_none (m teamSel : JsVal) :
  ~ selectsRadiant m teamSel -> ~ selectsDire m teamSel ->
  isRadiantForTeam m teamSel = None.
Proof.
  intros HR HD. unfold isRadiantForTeam.
  destruct (truthy teamSel); simpl; [|reflexivity].
  assert (Hid :
    (if isDigitString (toStr teamSel)
     then if toInt (prop "radiant_team_id" m) =? toInt teamSel then Some true
          else if toInt (prop "dire_team_id" m) =? toInt teamSel then Some false
               else None
     else None) = None).
  { destruct (isDigitString (toStr teamSel)) eqn:Edig; [|reflexivity].
    destruct (toInt (prop "radiant_team_id" m) =? toInt teamSel) eqn:Er.
    - exfalso. apply HR. left. split; [exact Edig|]. symmetry. now apply Z.eqb_eq.
    - destruct (toInt (prop "dire_team_id" m) =? toInt teamSel) eqn:Ed; [|reflexivity].
      exfalso. apply HD. left. split; [exact Edig|]. symmetry. now apply Z.eqb_eq. }
  rewrite Hid.
  destruct (nonEmpty (teamKey (orElse (prop "radiant_name" m) (JStr "")))
            && nonEmpty (teamKey teamSel)
            && String.eqb (teamKey (orElse (prop "radiant_name" m) (JStr "")))
                 (teamKey teamSel)) eqn:Er.
  - exfalso. apply HR. right.
    apply andb_prop in Er as [Er1 Er2]. apply andb_prop in Er1 as [_ Er1].
    apply String.eqb_eq in Er2. split; [|now symmetry].
    intros Hempty. unfold nonEmpty in Er1. rewrite Hempty in Er1. discriminate.
  - destruct (nonEmpty (teamKey (orElse (prop "dire_name" m) (JStr "")))
              && nonEmpty (teamKey teamSel)
              && String.eqb (teamKey (orElse (prop "dire_name" m) (JStr "")))
                   (teamKey teamSel)) eqn:Ed; [|reflexivity].
    exfalso. apply HD. right.
    apply andb_prop in Ed as [Ed1 Ed2]. apply andb_prop in Ed1 as [_ Ed1].
    apply String.eqb_eq in Ed2. split; [|now symmetry].
    intros Hempty. unfold nonEmpty in Ed1. rewrite Hempty in Ed1. discriminate.
Qed.

(** C9. A team card whose selection names neither side of a match (neither
    by numeric team id nor by normalized team name) scores exactly 0 in that
    match, whatever the rulebook weights and the roshan attribution; so no
    structure, roshan, first-blood or win point accrues from it. *)
Theorem scoreTeamCardInMatch_foreign_is_zero :
  forall (S : Scoring) (roshans : JsVal -> PerSide) (teamSel m : JsVal),
    ~ selectsRadiant m teamSel ->
    ~ selectsDire m teamSel ->
    Rules.scoreTeamCardInMatch S roshans teamSel m = 0
    /\ IndexTs.scoreTeamCardInMatch teamSel m = 0
    /\ SlimTs.scoreTeamCardInMatch teamSel m = 0.
Proof.
  intros S roshans teamSel m HR HD.
  unfold IndexTs.scoreTeamCardInMatch, SlimTs.scoreTeamCardInMatch,
    Rules.scoreTeamCardInMatch.
  rewrite (isRadiantForTeam_none _ _ HR HD). auto.
Qed.

(** ** Player bonuses *)

Lemma scorePlayerMatch_eq (p : ScoringTs.PlayerStats) (d : Z) :
  ScoringTs.scorePlayerMatch p d
  = statPoints p
    + (if ScoringTs.win p then pt 15 else 0)
    + (if ScoringTs.win p && (d <? 1500) then pt 15 else 0)
    + (if ScoringTs.kills p + ScoringTs.assists p >? 20 then pt 2 else 0).
Proof.
  unfold ScoringTs.scorePlayerMatch, statPoints, pt.
  change (25 * 60) with 1500.
  destruct (ScoringTs.win p); destruct (d <? 1500);
    destruct (ScoringTs.kills p + ScoringTs.assists p >? 20); simpl; lia.
Qed.

(** C6. The fast-win bonus of 15 points is added exactly when the player won
    and the match lasted strictly less than 1500 seconds: in [scoring.ts]
    the score differs from the score at 1500 seconds by that amount, and in
    [index.ts] (and its revised copy) from the score under the rulebook
    without the fast-win weight.  A win at 1500 seconds earns the win bonus
    only, a win at 1499 seconds both, a loss neither. *)
Theorem fast_win_bonus_boundary :
  (forall p d,
     ScoringTs.scorePlayerMatch p d
     = ScoringTs.scorePlayerMatch p 1500
       + (if ScoringTs.win p && (d <? 1500) then pt 15 else 0))
  /\ (forall p,
        ScoringTs.scorePlayerMatch p 1500
        = statPoints p + (if ScoringTs.win p then pt 15 else 0)
          + (if ScoringTs.kills p + ScoringTs.assists p >? 20 then pt 2 else 0))
  /\ (forall p,
        ScoringTs.scorePlayerMatch p 1499
        = ScoringTs.scorePlayerMatch p 1500 + (if ScoringTs.win p then pt 15 else 0))
  /\ (forall S steam32 m,
        Rules.scorePlayerInMatch S steam32 m
        = Rules.scorePlayerInMatch (noFastWin S) steam32 m
          + match summarizePlayers m !! toStr steam32 with
            | Some row =>
                if rowWon row m && (toInt (prop "duration" m) <? 1500)
                then Players.winUnder25 (players S) else 0
            | None => 0
            end)
  /\ Players.winUnder25 (players IndexTs.SCORING) = pt 15
  /\ Players.winUnder25 (players SlimTs.SCORING) = pt 15.
Proof.
  repeat split.
  - intros p d. rewrite !scorePlayerMatch_eq. change (1500 <? 1500) with false.
    rewrite andb_false_r. lia.
  - intros p. rewrite scorePlayerMatch_eq. change (1500 <? 1500) with false.
    rewrite andb_false_r. lia.
  - intros p. rewrite !scorePlayerMatch_eq. destruct (ScoringTs.win p); simpl; lia.
  - intros S steam32 m. unfold Rules.scorePlayerInMatch.
    destruct (summarizePlayers m !! toStr steam32) as [row|]; [|reflexivity].
    unfold rowWon. change (25 * 60) with 1500. simpl.
    destruct (isRadiant row); destruct (truthy (prop "radiant_win" m));
      destruct (toInt (prop "duration" m) <? 1500);
      destruct (kills row + assists row >=? 20); simpl; lia.
Qed.

(** C8, as stated, fails for [scorePlayerMatch] of [scoring.ts]: a losing row
    with 10 kills and 10 assists scores its statistics only (50 points), the
    combo bonus being paid from 21 on. *)
Lemma combo_bonus_not_paid_at_20 :
  let p20 := ScoringTs.mkPlayerStats 10 10 0 0 0 None None None false in
  let p21 := ScoringTs.mkPlayerStats 10 11 0 0 0 None None None false in
  ScoringTs.kills p20 + ScoringTs.assists p20 = 20
  /\ ScoringTs.scorePlayerMatch p20 2400 = statPoints p20
  /\ ScoringTs.scorePlayerMatch p20 2400 = pt 50
  /\ ScoringTs.scorePlayerMatch p21 2400 = statPoints p21 + pt 2.
Proof. repeat split; vm_compute; reflexivity. Qed.

(** C8 (as amended). The combo bonus of 2 points is added by
    [scorePlayerInMatch] ([index.ts] and its revised copy) exactly when
    kills plus assists is at least 20, and by [scorePlayerMatch]
    ([scoring.ts]) exactly when it is more than 20. *)
Theorem combo_bonus_thresholds :
  (forall S steam32 m,
     Rules.scorePlayerInMatch S steam32 m
     = Rules.scorePlayerInMatch (noCombo S) steam32 m
       + match summarizePlayers m !! toStr steam32 with
         | Some row =>
             if kills row + assists row >=? 20
             then Players.kaOver20 (players S) else 0
         | None => 0
         end)
  /\ Players.kaOver20 (players IndexTs.SCORING) = pt 2
  /\ Players.kaOver20 (players SlimTs.SCORING) = pt 2
  /\ (forall p d,
        ScoringTs.scorePlayerMatch p d
        = statPoints p
          + (if ScoringTs.win p then pt 15 else 0)
          + (if ScoringTs.win p && (d <? 1500) then pt 15 else 0)
          + (if ScoringTs.kills p + ScoringTs.assists p >? 20 then pt 2 else 0)).
Proof.
  repeat split.
  - intros S steam32 m. unfold Rules.scorePlayerInMatch.
    destruct (summarizePlayers m !! toStr steam32) as [row|]; [|reflexivity].
    simpl.
    destruct (isRadiant row); destruct (truthy (prop "radiant_win" m));
      destruct (toInt (prop "duration" m) <? 25 * 60);
      destruct (kills row + assists row >=? 20); simpl; lia.
  - apply scorePlayerMatch_eq.
Qed.

(** ** Structures *)

Lemma land_shiftr_one (x i : Z) :
  0 <= i -> Z.land (Z.shiftr x i) 1 = Z.b2z (Z.testbit x i).
Proof.
  intros Hi. change 1 with (Z.ones 1) at 1.
  rewrite Z.land_ones by lia. change (2 ^ 1) with 2.
  rewrite <- Z.bit0_mod, Z.shiftr_spec by lia. now rewrite Z.add_0_l.
Qed.

Lemma toInt32_mod (n : Z) : toInt32 n mod 2 ^ 32 = n mod 2 ^ 32.
Proof.
  unfold toInt32. rewrite Zminus_mod_idemp_l. f_equal. lia.
Qed.

Lemma toInt32_testbit (n i : Z) :
  0 <= i < 32 -> Z.testbit (toInt32 n) i = Z.testbit n i.
Proof.
  intros Hi.
  rewrite <- (Z.mod_pow2_bits_low (toInt32 n) 32 i) by lia.
  rewrite toInt32_mod. apply Z.mod_pow2_bits_low. lia.
Qed.

Lemma fold_count {A} (f : A -> bool) (l : list A) :
  forall c0, fold_left (fun c i => if f i then c + 1 else c) l c0 = c0 + countIf f l.
Proof.
  unfold countIf.
  induction l as [|x l IH]; intros c0; simpl; [lia|].
  rewrite IH. destruct (f x); simpl length; lia.
Qed.

Lemma bitCount_popcount (v : JsVal) (bits : nat) :
  (bits <= 32)%nat -> bitCount v bits = popcountOver bits (toInt v).
Proof.
  intros Hb. unfold bitCount, popcountOver.
  rewrite fold_count, Z.add_0_l. unfold countIf. do 2 f_equal.
  apply filter_ext_in. intros i Hi. apply in_seq in Hi.
  rewrite Z.mod_small by lia.
  rewrite land_shiftr_one by lia.
  rewrite toInt32_testbit by lia.
  now destruct (Z.testbit (toInt v) (Z.of_nat i)).
Qed.

(** A mask stored as a number is read back as that number. *)
Lemma bitCount_stored (n : Z) (bits : nat) :
  (bits <= 32)%nat -> bitCount (JNum n) bits = popcountOver bits n.
Proof. intros Hb. now rewrite bitCount_popcount, toInt_JNum. Qed.

(** X3. In [index.ts] and its revised copy, a side's towers and barracks are
    counted from the opponent's status masks, over 11 and 6 bits. *)
Lemma structures_counted_from_opponent (m : JsVal) :
  towersDestroyedByRadiant m = 11 - popcountOver 11 (toInt (prop "tower_status_dire" m))
  /\ towersDestroyedByDire m = 11 - popcountOver 11 (toInt (prop "tower_status_radiant" m))
  /\ barracksDestroyedByRadiant m = 6 - popcountOver 6 (toInt (prop "barracks_status_dire" m))
  /\ barracksDestroyedByDire m = 6 - popcountOver 6 (toInt (prop "barracks_status_radiant" m)).
Proof.
  unfold towersDestroyedByRadiant, towersDestroyedByDire,
    barracksDestroyedByRadiant, barracksDestroyedByDire.
  rewrite !bitCount_popcount by lia. auto.
Qed.

(** The loop of [popcount] ends within its fuel on every 11-bit mask and
    counts the set bits. *)
Lemma scoring_popcount_mask (n : Z) :
  0 <= n < 2048 -> ScoringTs.popcount n = Some (popcountOver 11 n).
Proof.
  intros Hn.
  assert (Hall :
    forallb
      (fun k => match ScoringTs.popcount (Z.of_nat k) with
                | Some c => c =? popcountOver 11 (Z.of_nat k)
                | None => false
                end)
      (seq 0 2048) = true) by (vm_compute; reflexivity).
  rewrite forallb_forall in Hall.
  specialize (Hall (Z.to_nat n)). rewrite Z2Nat.id in Hall by lia.
  assert (Hin : In (Z.to_nat n) (seq 0 2048)) by (apply in_seq; lia).
  specialize (Hall Hin).
  destruct (ScoringTs.popcount n) as [c|]; [|discriminate].
  apply Z.eqb_eq in Hall. now subst.
Qed.

Lemma popcountOver_low (n : Z) :
  0 <= n < 64 -> popcountOver 6 n = popcountOver 11 n.
Proof.
  intros Hn.
  assert (Hall :
    forallb (fun k => popcountOver 6 (Z.of_nat k) =? popcountOver 11 (Z.of_nat k))
      (seq 0 64) = true) by (vm_compute; reflexivity).
  rewrite forallb_forall in Hall.
  specialize (Hall (Z.to_nat n)). rewrite Z2Nat.id in Hall by lia.
  apply Z.eqb_eq, Hall, in_seq. lia.
Qed.

(** In [scoring.ts], for all masks of 11 and 6 bits, a side is credited the
    structures missing from its own masks. *)
Lemma scoring_structures_from_own_mask (side : Side) (tr td br bd : Z) :
  0 <= tr < 2048 -> 0 <= td < 2048 -> 0 <= br < 64 -> 0 <= bd < 64 ->
  ScoringTs.towersDestroyedBy side tr td
  = Some (11 - popcountOver 11 (match side with Radiant => tr | Dire => td end))
  /\ ScoringTs.raxDestroyedBy side br bd
     = Some (6 - popcountOver 6 (match side with Radiant => br | Dire => bd end)).
Proof.
  intros Htr Htd Hbr Hbd.
  unfold ScoringTs.towersDestroyedBy, ScoringTs.raxDestroyedBy.
  destruct side.
  - rewrite (popcountOver_low br), !scoring_popcount_mask by lia. split; reflexivity.
  - rewrite (popcountOver_low bd), !scoring_popcount_mask by lia. split; reflexivity.
Qed.

(** C4. [scoring.ts] counts a side's own missing structures: with every
    radiant tower and barracks standing and every dire one destroyed, radiant
    is credited 0 towers and 0 barracks (the claim: 11 and 6), dire 11 and 6
    (the claim: 0 and 0); [index.ts] credits the opponent's losses there. *)
Theorem scoring_ts_counts_own_structures :
  ScoringTs.towersDestroyedBy Radiant 2047 0 = Some 0
  /\ ScoringTs.raxDestroyedBy Radiant 63 0 = Some 0
  /\ ScoringTs.towersDestroyedBy Dire 2047 0 = Some 11
  /\ ScoringTs.raxDestroyedBy Dire 63 0 = Some 6
  /\ 11 - popcountOver 11 0 = 11
  /\ 6 - popcountOver 6 0 = 6
  /\ ScoringTs.scoreTeamMatch (ScoringTs.mkTeamArgs Radiant 2047 0 63 0 None true)
     = Some (pt 2)
  /\ towersDestroyedByRadiant
       (JObj [("tower_status_radiant", JNum 2047); ("tower_status_dire", JNum 0)]) = 11.
Proof. repeat split; vm_compute; reflexivity. Qed.

(** ** Sweeps *)

Lemma sweepBonus_cases (seriesType radiantWins direWins : Z) :
  ScoringTs.sweepBonus seriesType radiantWins direWins
  = mkPerSide
      (if (seriesType =? 1) && (radiantWins =? 2)
          || (seriesType =? 2) && (radiantWins =? 3) then pt 15 else 0)
      (if (seriesType =? 1) && negb (radiantWins =? 2) && (direWins =? 2)
          || (seriesType =? 2) && negb (radiantWins =? 3) && (direWins =? 3)
       then pt 15 else 0).
Proof.
  unfold ScoringTs.sweepBonus.
  destruct (seriesType =? 1) eqn:E1; destruct (seriesType =? 2) eqn:E2;
    destruct (radiantWins =? 2) eqn:R2; destruct (radiantWins =? 3) eqn:R3;
    destruct (direWins =? 2); destruct (direWins =? 3); simpl; try reflexivity;
    apply Z.eqb_eq in E1; apply Z.eqb_eq in E2; lia.
Qed.

(** [addSweepBonuses] names a sweeping team only for a side with at least two
    wins whose opponent has none; the series type is not consulted. *)
Lemma sweepTeamOf_sweep (w : SeriesWins) :
  truthy (Rules.sweepTeamOf w) = true ->
  (wins (sw_radiant w) >= 2 /\ wins (sw_dire w) = 0)
  \/ (wins (sw_dire w) >= 2 /\ wins (sw_radiant w) = 0).
Proof.
  unfold Rules.sweepTeamOf.
  destruct ((wins (sw_dire w) >=? 2) && (wins (sw_radiant w) =? 0)) eqn:Ed.
  - intros _. right. apply andb_prop in Ed as [H1 H2]. lia.
  - destruct ((wins (sw_radiant w) >=? 2) && (wins (sw_dire w) =? 0)) eqn:Er.
    + intros _. left. apply andb_prop in Er as [H1 H2]. lia.
    + simpl. discriminate.
Qed.

(** In [index.ts], a best-of-three won 2-0 by radiant gives the team card of
    the radiant team one sweep bonus and the dire one none; a 2-1 result gives
    neither any. *)
Lemma addSweepBonuses_bo3 :
  teamSweep (IndexTs.addSweepBonuses lineupRadiant bo3_2_0) = pt 15
  /\ teamSweep (IndexTs.addSweepBonuses lineupDire bo3_2_0) = 0
  /\ teamSweep (IndexTs.addSweepBonuses lineupRadiant bo3_2_1) = 0
  /\ teamSweep (IndexTs.addSweepBonuses lineupDire bo3_2_1) = 0.
Proof. repeat split; vm_compute; reflexivity. Qed.

(** C1. [sweepBonus] of [scoring.ts] pays the sweep bonus on a best-of-three
    that ends 2-1 (to radiant at 2-1, to dire at 1-2): it tests the winner's
    count only.  [addSweepBonuses] of [index.ts] pays it on a best-of-five
    that stands at 2-0. *)
Theorem sweep_bonus_paid_without_sweep :
  ScoringTs.sweepBonus 1 2 1 = mkPerSide (pt 15) 0
  /\ ScoringTs.sweepBonus 1 1 2 = mkPerSide 0 (pt 15)
  /\ ScoringTs.sweepBonus 2 3 2 = mkPerSide (pt 15) 0
  /\ teamSweep (IndexTs.addSweepBonuses lineupRadiant bo5_2_0) = pt 15.
Proof. repeat split; vm_compute; reflexivity. Qed.

(** ** Roshans *)

Lemma sumOver_cons {A} (f : A -> Z) (x : A) (l : list A) :
  sumOver f (x :: l) = f x + sumOver f l.
Proof.
  unfold sumOver. simpl.
  assert (H : forall l a, fold_left (fun sum x => sum + f x) l a
                          = a + fold_left (fun sum x => sum + f x) l 0).
  { clear. induction l as [|y l IH]; intros a; simpl; [lia|].
    rewrite (IH (a + f y)), (IH (0 + f y)). lia. }
  rewrite H. lia.
Qed.

Lemma countIf_cons {A} (f : A -> bool) (x : A) (l : list A) :
  countIf f (x :: l) = (if f x then 1 else 0) + countIf f l.
Proof. unfold countIf. simpl. destruct (f x); simpl length; lia. Qed.

Lemma index_roshans_fold (objs : list JsVal) :
  forall out,
    fold_left
      (fun out o =>
         if strictEqStr (prop "type" o) "CHAT_MESSAGE_ROSHAN_KILL" then
           let slot := toInt (prop "player_slot" o) in
           if slot <? 128 then mkPerSide (radiant out + 1) (dire out)
           else mkPerSide (radiant out) (dire out + 1)
         else out)
      objs out
    = mkPerSide
        (radiant out + countIf (onSide Radiant) (List.filter isRoshanKill objs))
        (dire out + countIf (onSide Dire) (List.filter isRoshanKill objs)).
Proof.
  induction objs as [|o objs IH]; intros [r d]; cbn [fold_left List.filter].
  - unfold countIf. simpl. f_equal; lia.
  - rewrite IH.
    change (strictEqStr (prop "type" o) "CHAT_MESSAGE_ROSHAN_KILL")
      with (isRoshanKill o).
    destruct (isRoshanKill o); [|reflexivity].
    rewrite !countIf_cons. cbn [onSide].
    destruct (toInt (prop "player_slot" o) <? 128); simpl; f_equal; lia.
Qed.

(** [roshansByTeam] of [index.ts] counts the roshan-kill objective events by
    the side of their player slot, and nothing else. *)
Lemma index_roshans_by_slot (m : JsVal) :
  IndexTs.roshansByTeam m = mkPerSide (eventsOf Radiant m) (eventsOf Dire m).
Proof.
  unfold IndexTs.roshansByTeam. rewrite index_roshans_fold. reflexivity.
Qed.

Lemma slim_objectives_fold (objs : list JsVal) :
  forall out saw,
    fold_left
      (fun '(out, sawObjective) o =>
         if strictEqStr (prop "type" o) "CHAT_MESSAGE_ROSHAN_KILL" then
           let slot := toInt (prop "player_slot" o) in
           (if slot <? 128 then mkPerSide (radiant out + 1) (dire out)
            else mkPerSide (radiant out) (dire out + 1), true)
         else (out, sawObjective))
      objs (out, saw)
    = (mkPerSide
         (radiant out + countIf (onSide Radiant) (List.filter isRoshanKill objs))
         (dire out + countIf (onSide Dire) (List.filter isRoshanKill objs)),
       saw || existsb isRoshanKill objs).
Proof.
  induction objs as [|o objs IH]; intros [r d] saw; cbn [fold_left List.filter existsb].
  - unfold countIf. simpl. rewrite orb_false_r. do 2 f_equal; lia.
  - change (strictEqStr (prop "type" o) "CHAT_MESSAGE_ROSHAN_KILL")
      with (isRoshanKill o).
    destruct (isRoshanKill o).
    + rewrite IH, !countIf_cons. cbn [onSide].
      destruct (toInt (prop "player_slot" o) <? 128); simpl;
        rewrite orb_true_r; do 2 f_equal; lia.
    + rewrite IH. reflexivity.
Qed.

Lemma slim_counters_fold (rows : list JsVal) :
  forall out,
    fold_left
      (fun out p =>
         let rk := SlimTs.roshanCounter p in
         if rk >? 0 then
           let slot := toInt (prop "player_slot" p) in
           if slot <? 128 then mkPerSide (radiant out + rk) (dire out)
           else mkPerSide (radiant out) (dire out + rk)
         else out)
      rows out
    = mkPerSide
        (radiant out
         + sumOver (fun p => if onSide Radiant p
                             then Z.max 0 (SlimTs.roshanCounter p) else 0) rows)
        (dire out
         + sumOver (fun p => if onSide Dire p
                             then Z.max 0 (SlimTs.roshanCounter p) else 0) rows).
Proof.
  induction rows as [|p rows IH]; intros [r d]; cbn [fold_left].
  - unfold sumOver. simpl. f_equal; lia.
  - rewrite IH, !sumOver_cons. cbn [onSide radiant dire].
    destruct (SlimTs.roshanCounter p >? 0) eqn:Erk;
      destruct (toInt (prop "player_slot" p) <? 128); simpl; f_equal; lia.
Qed.

Lemma existsb_filter_nil {A} (f : A -> bool) (l : list A) :
  List.filter f l = [] -> existsb f l = false.
Proof.
  induction l as [|x l IH]; simpl; [reflexivity|].
  destruct (f x); [discriminate | exact IH].
Qed.

Lemma existsb_filter_cons {A} (f : A -> bool) (l : list A) x r :
  List.filter f l = x :: r -> existsb f l = true.
Proof.
  induction l as [|y l IH]; simpl; [discriminate|].
  destruct (f y); [reflexivity | exact IH].
Qed.

(** [roshansByTeam] of the revised copy: the roshan-kill objective events by
    the side of their player slot, and, when the record has none, the sums of
    the per-player counters by the same rule. *)
Lemma slim_roshans_with_fallback (m : JsVal) :
  SlimTs.roshansByTeam m
  = match roshanEvents m with
    | [] => mkPerSide (countersOf Radiant m) (countersOf Dire m)
    | _ :: _ => mkPerSide (eventsOf Radiant m) (eventsOf Dire m)
    end.
Proof.
  unfold SlimTs.roshansByTeam, SlimTs.roshanObjectives.
  rewrite slim_objectives_fold. cbn [radiant dire orb].
  unfold eventsOf, countersOf, playerRows, roshanEvents.
  destruct (List.filter isRoshanKill (arrayOr (prop "objectives" m))) as [|o evs] eqn:E.
  - rewrite (existsb_filter_nil _ _ E), slim_counters_fold.
    unfold countIf. simpl. reflexivity.
  - rewrite (existsb_filter_cons _ _ _ _ E). f_equal; lia.
Qed.

(** C7. On a record with no roshan-kill objective event whose player rows
    carry the counters 2 (slot 0) and 1 (slot 128), [roshansByTeam] of
    [index.ts] answers 0 and 0: it has no fallback, which the revised copy
    has (2 and 1).  [roshansForSide] of [scoring.ts] ignores the player slot
    and counts an event for the side its [team] field names. *)
Theorem roshans_without_fallback :
  roshanEvents countersOnly = []
  /\ countersOf Radiant countersOnly = 2
  /\ countersOf Dire countersOnly = 1
  /\ IndexTs.roshansByTeam countersOnly = mkPerSide 0 0
  /\ SlimTs.roshansByTeam countersOnly = mkPerSide 2 1
  /\ ScoringTs.roshansForSide (Some (playerRows countersOnly)) Radiant = 0
  /\ ScoringTs.roshansForSide
       (Some [JObj [("type", JStr "CHAT_MESSAGE_ROSHAN_KILL");
                    ("player_slot", JNum 130); ("team", JNum 2)]]) Radiant = 1.
Proof. repeat split; vm_compute; reflexivity. Qed.

(** ** The leaderboard *)

Section SortedByTotal.
Context {A : Type} (total : A -> Z).

Lemma insertBy_perm (x : A) (l : list A) : Permutation (insertBy (byTotalDesc total) x l) (x :: l).
Proof.
  induction l as [|y l IH]; simpl; [reflexivity|].
  destruct (byTotalDesc total x y <=? 0); [reflexivity|].
  rewrite IH. apply perm_swap.
Qed.

Lemma jsSort_perm (l : list A) : Permutation (jsSort (byTotalDesc total) l) l.
Proof.
  induction l as [|x l IH]; simpl; [reflexivity|].
  rewrite insertBy_perm. now constructor.
Qed.

Lemma insertBy_hd (x y : A) (l : list A) :
  geTotal total y x ->
  HdRel (geTotal total) y l -> HdRel (geTotal total) y (insertBy (byTotalDesc total) x l).
Proof.
  intros Hyx Hhd. destruct l as [|z l]; simpl; [now constructor|].
  destruct (byTotalDesc total x z <=? 0); constructor; [exact Hyx|].
  now inversion Hhd.
Qed.

Lemma insertBy_sorted (x : A) (l : list A) :
  Sorted (geTotal total) l -> Sorted (geTotal total) (insertBy (byTotalDesc total) x l).
Proof.
  induction 1 as [|y l Hs IH Hhd]; simpl.
  - repeat constructor.
  - destruct (byTotalDesc total x y <=? 0) eqn:E.
    + constructor; [now constructor|]. constructor.
      unfold geTotal, byTotalDesc in *. lia.
    + constructor; [exact IH|].
      apply insertBy_hd; [|exact Hhd]. unfold geTotal, byTotalDesc in *. lia.
Qed.

Lemma jsSort_sorted (l : list A) : Sorted (geTotal total) (jsSort (byTotalDesc total) l).
Proof.
  induction l as [|x l IH]; simpl; [constructor|].
  now apply insertBy_sorted.
Qed.

Lemma sorted_descending (l : list A) : Sorted (geTotal total) l -> descending total l.
Proof.
  induction 1 as [|x l Hs IH Hhd]; intros i a b Ha Hb.
  - discriminate.
  - destruct i as [|i]; simpl in Ha, Hb.
    + injection Ha as <-. destruct l as [|y l]; [discriminate|].
      simpl in Hb. injection Hb as <-. now inversion Hhd.
    + exact (IH i a b Ha Hb).
Qed.

Lemma jsSort_descending (l : list A) : descending total (jsSort (byTotalDesc total) l).
Proof. apply sorted_descending, jsSort_sorted. Qed.
End SortedByTotal.

(** X19. The leaderboard the revised copy writes holds every entry of the day, in
    descending order of the totals. *)
Lemma slim_scoreDay_sorted (resolve : string -> option string)
    (tid_ dateKey_ : string) (matchesColl : list JsVal) (lineupsColl : list LineupDoc) :
  let written := SlimTs.scoreDay resolve tid_ dateKey_ matchesColl lineupsColl in
  descending SlimTs.totalPoints written
  /\ Permutation written
       (List.map (SlimTs.entryOf resolve (SlimTs.matchesOfDay tid_ dateKey_ matchesColl))
          (IndexTs.lineupsOfDay tid_ dateKey_ lineupsColl)).
Proof.
  split.
  - apply (jsSort_descending SlimTs.totalPoints).
  - apply (jsSort_perm SlimTs.totalPoints).
Qed.

(** So does the one the pipeline of [scoreDay.ts] writes. *)
Lemma pipeline_leaderboard_sorted (daySnaps : list ScoringTs.ManagerDay) :
  descending ScoringTs.md_totalPoints (ScoringTs.leaderboardOfDay daySnaps)
  /\ Permutation (ScoringTs.leaderboardOfDay daySnaps) daySnaps.
Proof.
  split.
  - apply (jsSort_descending ScoringTs.md_totalPoints).
  - apply (jsSort_perm ScoringTs.md_totalPoints).
Qed.

(** C2. [scoreDay] of [index.ts] writes the entries in the order of the
    lineups: for one match won by radiant and the lineups of [u1] (dire
    players, 32.5 points) and [u2] (radiant players, 248 points), the written
    board lists 32.5 before 248; the revised copy sorts the same entries. *)
Theorem index_scoreDay_unsorted :
  let day := [gameDoc 1 500 1 true [] tenRows] in
  let written := IndexTs.scoreDay "ti2025" "20250911" day [lineupDire; lineupRadiant] in
  List.map IndexTs.totalPoints written = [3250; 24800]
  /\ ~ descending IndexTs.totalPoints written
  /\ List.map SlimTs.totalPoints
       (SlimTs.scoreDay (fun _ => None) "ti2025" "20250911" day
          [lineupDire; lineupRadiant]) = [24800; 3250].
Proof.
  cbv zeta. split; [vm_compute; reflexivity|]. split; [|vm_compute; reflexivity].
  intros H.
  set (w := IndexTs.scoreDay _ _ _ _) in H.
  assert (E : exists a b, w !! 0%nat = Some a /\ w !! 1%nat = Some b
                          /\ IndexTs.totalPoints a = 3250
                          /\ IndexTs.totalPoints b = 24800).
  { vm_compute. eexists _, _. repeat split; reflexivity. }
  destruct E as (a & b & Ha & Hb & Ea & Eb).
  specialize (H 0%nat a b Ha Hb). lia.
Qed.

(** ** The lock gate *)

(** For a year after 99 and a month of the calendar, [Date.UTC] is the instant
    of the given hour on the given civil date. *)
Lemma DateUTC_civil (y m d h : Z) :
  100 <= y -> 1 <= m <= 12 ->
  Z.abs (daysFromCivil y m d * msPerDay + h * msPerHour) <= maxTime ->
  DateUTC y (m - 1) d h = Some (daysFromCivil y m d * msPerDay + h * msPerHour).
Proof.
  intros Hy Hm Hrange. unfold DateUTC.
  replace ((0 <=? y) && (y <=? 99)) with false
    by (symmetry; apply andb_false_iff; right; apply Z.leb_gt; lia).
  rewrite Z.div_small, Z.mod_small, Z.add_0_r by lia.
  replace (m - 1 + 1) with m by lia.
  assert (E : daysFromCivil y m 1 + d - 1 = daysFromCivil y m d)
    by (unfold daysFromCivil; lia).
  rewrite E. apply Z.leb_le in Hrange. now rewrite Hrange.
Qed.

(** X14. [submitLineup] of [index.ts]: a signed-in caller with a tournament id and
    an 8-digit date key is refused from the lock instant on, and is answered
    with the id of the stored lineup before it. *)
Lemma index_submitLineup_lock_gate (uid tidS dk : string) (d stamp : JsVal)
    (tournaments : gmap string TournamentDoc) (now t : Z)
    (lineups : gmap string LineupDoc) :
  truthy d = true ->
  prop "tid" d = JStr tidS -> tidS <> "" ->
  prop "dateKey" d = JStr dk -> isDateKey dk = true ->
  lockTimestamp dk (IndexTs.lockHourOf (tournaments !! tidS)) = Some t ->
  (t <= now ->
   IndexTs.submitLineup (IndexTs.mkRequest (Some uid) d) tournaments now stamp lineups
   = ThrowsHttps failed_precondition "Lineups for this day are locked.")
  /\ (now < t ->
      exists coll,
        IndexTs.submitLineup (IndexTs.mkRequest (Some uid) d) tournaments now stamp lineups
        = Returns (coll, tidS +:+ "_" +:+ dk +:+ "_" +:+ uid)
        /\ is_Some (coll !! (tidS +:+ "_" +:+ dk +:+ "_" +:+ uid))).
Proof.
  intros Hd Htid Hne Hdk Hkey Hlock.
  assert (Htr : truthy (JStr tidS) = true).
  { simpl. destruct (String.eqb_spec tidS ""); [contradiction|reflexivity]. }
  assert (Hor : orElse (JStr dk) (JStr "") = JStr dk).
  { destruct dk; [discriminate|reflexivity]. }
  assert (Hdat : orElse d (JObj []) = d) by (unfold orElse; now rewrite Hd).
  unfold IndexTs.submitLineup. cbn [IndexTs.auth IndexTs.data]. cbv zeta.
  rewrite Hdat, Htid, Hdk, Htr, Hor.
  cbn [toStr negb orb]. rewrite Hkey. cbn [negb]. rewrite Hlock.
  split; intros Hnow.
  - unfold geTime. destruct (Z.leb_spec t now); [reflexivity|lia].
  - unfold geTime. destruct (Z.leb_spec t now); [lia|].
    eexists. split; [reflexivity|]. rewrite lookup_insert_eq. eauto.
Qed.

(** C5. The stand-alone [submitLineup] never refuses a submission: for
    [dateKey] 20250911 and [lockHourUTC] 8, a submission at
    2025-09-11T08:00:00Z is stored and answered [ok] with [locked: true]
    (the claim: precondition-failed), although its own comment says the lock
    blocks.  [submitLineup] of [index.ts] refuses at that instant and accepts
    one second earlier. *)
Theorem standalone_submitLineup_never_blocks :
  lockTimestamp "20250911" 8 = Some lockInstant
  /\ snd <$> returned (LineupTs.submitLineup lineupRequest ti2025 lockInstant ∅)
     = Some true
  /\ (returned (LineupTs.submitLineup lineupRequest ti2025 lockInstant ∅)
        ≫= fun r => captain <$> fst r !! "ti2025_u1_20250911")
     = Some (JNum 101)
  /\ IndexTs.submitLineup lineupRequest ti2025 lockInstant JNull ∅
     = ThrowsHttps failed_precondition "Lineups for this day are locked."
  /\ snd <$> returned (IndexTs.submitLineup lineupRequest ti2025 (lockInstant - 1000) JNull ∅)
     = Some "ti2025_20250911_u1".
Proof. repeat split; vm_compute; reflexivity. Qed.

(** ** The match cache *)

Lemma assoc_setField (k k' : string) (v : JsVal) (fs : list (string * JsVal)) :
  assoc k (setField k' v fs) = if String.eqb k k' then v else assoc k fs.
Proof.
  induction fs as [|[k0 v0] fs IH]; simpl.
  - reflexivity.
  - destruct (String.eqb_spec k' k0) as [->|Hne]; simpl.
    + destruct (String.eqb k k0); reflexivity.
    + rewrite IH. destruct (String.eqb_spec k k0) as [->|Hne'].
      * destruct (String.eqb_spec k0 k'); [congruence|reflexivity].
      * reflexivity.
Qed.

Lemma lookup_setMerge (docId : string) (doc : list (string * JsVal))
    (coll : gmap string JsVal) :
  exists fields,
    setMerge docId doc coll !! docId = Some (JObj fields)
    /\ (fields = doc \/ exists old, fields = mergeFields old doc).
Proof.
  unfold setMerge.
  destruct (coll !! docId) as [stored|] eqn:E.
  - destruct stored as [| |b|n|s|xs|old];
      try (exists doc; rewrite lookup_insert_eq; split; [reflexivity|now left]).
    exists (mergeFields old doc). rewrite lookup_insert_eq.
    split; [reflexivity|]. right. now exists old.
  - exists doc. rewrite lookup_insert_eq. split; [reflexivity|now left].
Qed.

Lemma matchDoc_complete (tid : string) (payload stamp : JsVal)
    (fields : list (string * JsVal)) :
  fields = IndexTs.matchDoc tid payload stamp
  \/ (exists old, fields = mergeFields old (IndexTs.matchDoc tid payload stamp)) ->
  assoc "complete" fields = JBool (looksComplete payload).
Proof.
  intros [->|[old ->]].
  - reflexivity.
  - unfold mergeFields, IndexTs.matchDoc. cbn [fold_left fst snd].
    rewrite !assoc_setField. reflexivity.
Qed.

(** [upsertMatchDoc] stores the completeness of the payload it is given. *)
Lemma upsert_stores_looksComplete (tid : string) (payload stamp : JsVal)
    (coll coll' : gmap string JsVal) (r : UpsertResult) :
  IndexTs.upsertMatchDoc tid payload stamp coll = Some (coll', r) ->
  prop "complete" <$> coll' !! stringOfZ (u_match_id r)
  = Some (JBool (looksComplete payload))
  /\ u_complete r = looksComplete payload.
Proof.
  unfold IndexTs.upsertMatchDoc. intros H.
  assert (E : Some (setMerge
                      (stringOfZ (toInt (nullish (prop "match_id" payload)
                                                  (prop "matchId" payload))))
                      (IndexTs.matchDoc tid payload stamp) coll,
                    mkUpsert
                      (yyyymmddFromUTC
                         (toInt (orElse (prop "start_time" payload)
                                        (prop "startTime" payload)) * 1000))
                      (toInt (nullish (prop "match_id" payload) (prop "matchId" payload)))
                      (looksComplete payload))
              = Some (coll', r)).
  { destruct payload; try discriminate; exact H. }
  clear H. injection E as <- <-. cbn [u_match_id u_complete]. split; [|reflexivity].
  destruct (lookup_setMerge
              (stringOfZ (toInt (nullish (prop "match_id" payload) (prop "matchId" payload))))
              (IndexTs.matchDoc tid payload stamp) coll) as (fields & -> & Hf).
  cbn [fmap option_fmap option_map prop].
  now rewrite (matchDoc_complete tid payload stamp fields Hf).
Qed.

(** The poller leaves a cached match alone once its record is complete. *)
Lemma pollRow_skips_complete (fetch : Z -> option JsVal) (tid : string)
    (now : Z) (stamp : JsVal) (st : PollState) (row existing : JsVal) :
  matchesColl st !! stringOfZ (toInt (orElse (prop "match_id" row) (prop "matchId" row)))
  = Some existing ->
  prop "complete" existing = JBool true ->
  IndexTs.pollRow fetch tid now stamp st row = st.
Proof.
  intros Hsnap Hc. unfold IndexTs.pollRow.
  destruct (toInt (orElse (prop "match_id" row) (prop "matchId" row)) =? 0);
    [reflexivity|].
  rewrite Hsnap. unfold strictEqBool. rewrite Hc. reflexivity.
Qed.

(** C3, as stated, fails: a record cached as complete is reset by a later
    [upsertMatchDoc] of a payload with no player rows and zero duration. *)
Lemma upsert_resets_complete :
  exists coll1 r1 coll2 r2,
    IndexTs.upsertMatchDoc "ti2025" rawComplete JNull ∅ = Some (coll1, r1)
    /\ prop "complete" <$> coll1 !! "7" = Some (JBool true)
    /\ IndexTs.upsertMatchDoc "ti2025" rawPartial JNull coll1 = Some (coll2, r2)
    /\ u_match_id r2 = 7
    /\ prop "complete" <$> coll2 !! "7" = Some (JBool false).
Proof.
  do 4 eexists. repeat split; vm_compute; reflexivity.
Qed.

(** C3 (as amended). For a match id whose cached record has [complete=true],
    the poller makes no upsert and leaves the cache as it is; an
    [upsertMatchDoc] call itself stores [complete] as [looksComplete] of its
    payload (ten player rows and a positive duration), whatever was stored
    before. *)
Theorem complete_guarded_by_poller :
  forall (fetch : Z -> option JsVal) (tid : string) (now : Z) (stamp : JsVal)
         (st : PollState) (row existing payload : JsVal)
         (coll' : gmap string JsVal) (r : UpsertResult),
    matchesColl st !! stringOfZ (toInt (orElse (prop "match_id" row) (prop "matchId" row)))
    = Some existing ->
    prop "complete" existing = JBool true ->
    IndexTs.upsertMatchDoc tid payload stamp (matchesColl st) = Some (coll', r) ->
    IndexTs.pollRow fetch tid now stamp st row = st
    /\ prop "complete" <$> coll' !! stringOfZ (u_match_id r)
       = Some (JBool (looksComplete payload))
    /\ u_complete r = looksComplete payload.
Proof.
  intros fetch tid now stamp st row existing payload coll' r Hsnap Hc Hup.
  split.
  - exact (pollRow_skips_complete fetch tid now stamp st row existing Hsnap Hc).
  - exact (upsert_stores_looksComplete tid payload stamp _ coll' r Hup).
Qed.

(** ** Instances *)

(** Player 205 took part in the match, but the row of slot 132 carries no
    account id: the lineup slot of 205 scores nothing. *)
Lemma scorePlayerInMatch_absent_witness :
  absentFrom (toStr (JStr "205")) (gameDoc 1 500 1 true [] tenRows)
  /\ IndexTs.scorePlayerInMatch (JStr "205") (gameDoc 1 500 1 true [] tenRows) = 0.
Proof.
  assert (H : absentFrom (toStr (JStr "205")) (gameDoc 1 500 1 true [] tenRows)).
  { unfold absentFrom.
    change (playerRows (gameDoc 1 500 1 true [] tenRows)) with tenRows.
    unfold tenRows.
    repeat (apply List.Forall_cons;
            [first [left; vm_compute; reflexivity | right; vm_compute; discriminate]|]).
    apply List.Forall_nil. }
  split; [exact H|].
  exact (proj1 (proj2
           (scorePlayerInMatch_absent_is_zero IndexTs.SCORING (JStr "205")
              (gameDoc 1 500 1 true [] tenRows) H))).
Defined.

(** Team 33 is neither team 11 (Team Alpha) nor team 22 (Beta). *)
Lemma scoreTeamCardInMatch_foreign_witness :
  ~ selectsRadiant (gameDoc 1 500 1 true [] tenRows) (JStr "33")
  /\ ~ selectsDire (gameDoc 1 500 1 true [] tenRows) (JStr "33")
  /\ IndexTs.scoreTeamCardInMatch (JStr "33") (gameDoc 1 500 1 true [] tenRows) = 0.
Proof.
  assert (HR : ~ selectsRadiant (gameDoc 1 500 1 true [] tenRows) (JStr "33")).
  { intros [[_ H]|[_ H]]; vm_compute in H; discriminate. }
  assert (HD : ~ selectsDire (gameDoc 1 500 1 true [] tenRows) (JStr "33")).
  { intros [[_ H]|[_ H]]; vm_compute in H; discriminate. }
  split; [exact HR|]. split; [exact HD|].
  exact (proj1 (proj2
           (scoreTeamCardInMatch_foreign_is_zero IndexTs.SCORING IndexTs.roshansByTeam
              (JStr "33") (gameDoc 1 500 1 true [] tenRows) HR HD))).
Defined.

(** Match 7 is cached complete; the poller, offered the half-written payload,
    does not fetch it, whereas a direct upsert of that payload stores
    [complete=false]. *)
Lemma complete_guarded_by_poller_witness :
  let cached := setMerge "7" (IndexTs.matchDoc "ti2025" rawComplete JNull) ∅ in
  let st := mkPoll cached ∅ in
  let row := JObj [("match_id", JNum 7); ("start_time", JNum 1757580000)] in
  IndexTs.pollRow (fun _ => Some rawPartial) "ti2025" 1757590000000 JNull st row = st
  /\ exists coll' r,
       IndexTs.upsertMatchDoc "ti2025" rawPartial JNull cached = Some (coll', r)
       /\ prop "complete" <$> coll' !! stringOfZ (u_match_id r) = Some (JBool false).
Proof.
  intros cached st row.
  destruct (IndexTs.upsertMatchDoc "ti2025" rawPartial JNull cached)
    as [[coll' r]|] eqn:Hup; [|vm_compute in Hup; discriminate].
  assert (Hsnap :
    matchesColl st !! stringOfZ (toInt (orElse (prop "match_id" row) (prop "matchId" row)))
    = Some (JObj (IndexTs.matchDoc "ti2025" rawComplete JNull)))
    by (vm_compute; reflexivity).
  assert (Hc : prop "complete" (JObj (IndexTs.matchDoc "ti2025" rawComplete JNull))
               = JBool true) by (vm_compute; reflexivity).
  destruct (complete_guarded_by_poller (fun _ => Some rawPartial) "ti2025"
              1757590000000 JNull st row _ rawPartial coll' r Hsnap Hc Hup)
    as (Hpoll & Hstored & _).
  split; [exact Hpoll|].
  exists coll', r. split; [reflexivity|exact Hstored].
Defined.

(** * Further results *)

(** ** Coercions and team selection *)


Lemma stringOfZ_nonempty (n : Z) : stringOfZ n <> "".
Proof.
  unfold stringOfZ. destruct (n <? 0) eqn:E; [discriminate|].
  apply Z.ltb_ge in E.
  destruct (parseInt_stringOfNonneg n E) as (c & r & -> & _). discriminate.
Qed.

(** X9. A team card selects the same side of a match whether the team id is
    stored as a number or as its decimal string. *)
Theorem isRadiantForTeam_number_or_string :
  forall (m : JsVal) (n : Z),
    n <> 0 ->
    isRadiantForTeam m (JNum n) = isRadiantForTeam m (JStr (toStr (JNum n))).
Proof.
  intros m n Hn. unfold isRadiantForTeam.
  assert (H1 : truthy (JNum n) = true).
  { simpl. destruct (Z.eqb_spec n 0); [contradiction|reflexivity]. }
  assert (H2 : truthy (JStr (toStr (JNum n))) = true).
  { simpl. destruct (String.eqb_spec (stringOfZ n) ""); [|reflexivity].
    exfalso. now apply (stringOfZ_nonempty n). }
  rewrite H1, H2. reflexivity.
Qed.

Lemma lowerChar_shape (c : ascii) :
  isWhite c = false -> Ascii.eqb (lowerChar (lowerChar c)) (lowerChar c) = true
                       /\ isWhite (lowerChar c) = false.
Proof.
  destruct c as [[] [] [] [] [] [] [] []]; intros H;
    try (vm_compute in H; discriminate); split; reflexivity.
Qed.

Lemma lowerChar_white (c : ascii) : isWhite c = true -> lowerChar c = c.
Proof.
  destruct c as [[] [] [] [] [] [] [] []]; intros H;
    try (vm_compute in H; discriminate); reflexivity.
Qed.

Lemma replaceWhite_shaped (s : string) :
  forall inRun, isKeyShaped (replaceWhite inRun (toLowerCase s)) = true.
Proof.
  induction s as [|c r IH]; intros inRun; cbn [toLowerCase replaceWhite];
    [reflexivity|].
  destruct (isWhite c) eqn:Ew.
  - rewrite (lowerChar_white c Ew), Ew.
    destruct inRun; [apply IH|]. cbn [isKeyShaped]. rewrite IH. reflexivity.
  - destruct (lowerChar_shape c Ew) as [H1 H2]. rewrite H2.
    cbn [isKeyShaped]. now rewrite H2, H1, IH.
Qed.

Lemma keyShaped_skipWhite (s : string) : isKeyShaped s = true -> skipWhite s = s.
Proof.
  destruct s as [|c r]; [reflexivity|]. cbn [isKeyShaped skipWhite]. intros H.
  apply andb_prop in H as [H _]. apply andb_prop in H as [H _].
  apply negb_true_iff in H. now rewrite H.
Qed.

Lemma keyShaped_fixed (s : string) :
  isKeyShaped s = true ->
  trimEnd s = s /\ toLowerCase s = s /\ replaceWhite false s = s.
Proof.
  induction s as [|c r IH]; [repeat split|].
  cbn [isKeyShaped]. intros H.
  apply andb_prop in H as [H Hr]. apply andb_prop in H as [Hw Hl].
  apply negb_true_iff in Hw. apply Ascii.eqb_eq in Hl.
  destruct (IH Hr) as (E1 & E2 & E3).
  cbn [trimEnd toLowerCase replaceWhite]. rewrite Hw, E1, E2, E3, Hl.
  repeat split.
Qed.

(** X8. [teamKey] is a normal form: normalising a normalised name changes
    nothing, so names are compared modulo case and white space once. *)
Theorem teamKey_idempotent :
  forall x : JsVal, teamKey (JStr (teamKey x)) = teamKey x.
Proof.
  intros x.
  assert (H : isKeyShaped (teamKey x) = true) by apply replaceWhite_shaped.
  unfold teamKey at 1. cbn [nullish toStr]. unfold trim.
  rewrite (keyShaped_skipWhite _ H).
  destruct (keyShaped_fixed _ H) as (E1 & E2 & E3).
  now rewrite E1, E2, E3.
Qed.

(** ** Structures and team points *)

Lemma countIf_bounds {A} (f : A -> bool) (l : list A) :
  0 <= countIf f l <= Z.of_nat (length l).
Proof.
  unfold countIf. pose proof (filter_length_le f l). lia.
Qed.

Lemma bitCount_bounds (v : JsVal) (bits : nat) :
  (bits <= 32)%nat -> 0 <= bitCount v bits <= Z.of_nat bits.
Proof.
  intros Hb. rewrite bitCount_popcount by exact Hb. unfold popcountOver.
  pose proof (countIf_bounds (fun i => Z.testbit (toInt v) (Z.of_nat i)) (seq 0 bits)) as H.
  rewrite length_seq in H. exact H.
Qed.

(** X4. Whatever the stored masks hold, a side is credited between 0 and 11
    towers and between 0 and 6 barracks. *)
Theorem structure_counts_in_range :
  forall m : JsVal,
    0 <= towersDestroyedByRadiant m <= 11
    /\ 0 <= towersDestroyedByDire m <= 11
    /\ 0 <= barracksDestroyedByRadiant m <= 6
    /\ 0 <= barracksDestroyedByDire m <= 6.
Proof.
  intros m.
  unfold towersDestroyedByRadiant, towersDestroyedByDire,
    barracksDestroyedByRadiant, barracksDestroyedByDire.
  pose proof (bitCount_bounds (prop "tower_status_dire" m) 11 ltac:(lia)).
  pose proof (bitCount_bounds (prop "tower_status_radiant" m) 11 ltac:(lia)).
  pose proof (bitCount_bounds (prop "barracks_status_dire" m) 6 ltac:(lia)).
  pose proof (bitCount_bounds (prop "barracks_status_radiant" m) 6 ltac:(lia)).
  lia.
Qed.

Lemma sumOver_nonneg {A} (f : A -> Z) (l : list A) :
  (forall x, 0 <= f x) -> 0 <= sumOver f l.
Proof.
  intros Hf. induction l as [|x l IH].
  - unfold sumOver. simpl. lia.
  - rewrite sumOver_cons. pose proof (Hf x). lia.
Qed.

Lemma roshans_nonneg (m : JsVal) :
  0 <= radiant (IndexTs.roshansByTeam m) /\ 0 <= dire (IndexTs.roshansByTeam m)
  /\ 0 <= radiant (SlimTs.roshansByTeam m) /\ 0 <= dire (SlimTs.roshansByTeam m).
Proof.
  rewrite index_roshans_by_slot, slim_roshans_with_fallback.
  assert (He : forall side, 0 <= eventsOf side m)
    by (intros side; apply countIf_bounds).
  assert (Hc : forall side, 0 <= countersOf side m).
  { intros side. apply sumOver_nonneg. intros p.
    destruct (onSide side p); lia. }
  pose proof (He Radiant). pose proof (He Dire).
  pose proof (Hc Radiant). pose proof (Hc Dire).
  destruct (roshanEvents m); cbn [radiant dire]; lia.
Qed.

(** X10. A team card never scores below zero in a match, and at most
    11 + 6 + 2 + 2 points plus 3 per roshan of its side. *)
Theorem team_card_points_in_range :
  forall teamSel m : JsVal,
    0 <= IndexTs.scoreTeamCardInMatch teamSel m
         <= pt 21 + pt 3 * Z.max (radiant (IndexTs.roshansByTeam m))
                            (dire (IndexTs.roshansByTeam m))
    /\ 0 <= SlimTs.scoreTeamCardInMatch teamSel m
            <= pt 21 + pt 3 * Z.max (radiant (SlimTs.roshansByTeam m))
                               (dire (SlimTs.roshansByTeam m)).
Proof.
  intros teamSel m.
  pose proof (bitCount_bounds (prop "tower_status_dire" m) 11 ltac:(lia)) as H1.
  pose proof (bitCount_bounds (prop "tower_status_radiant" m) 11 ltac:(lia)) as H2.
  pose proof (bitCount_bounds (prop "barracks_status_dire" m) 6 ltac:(lia)) as H3.
  pose proof (bitCount_bounds (prop "barracks_status_radiant" m) 6 ltac:(lia)) as H4.
  destruct (roshans_nonneg m) as (R1 & R2 & R3 & R4).
  unfold IndexTs.scoreTeamCardInMatch, SlimTs.scoreTeamCardInMatch,
    Rules.scoreTeamCardInMatch.
  unfold towersDestroyedByRadiant, towersDestroyedByDire,
    barracksDestroyedByRadiant, barracksDestroyedByDire.
  destruct (isRadiantForTeam m teamSel) as [side|]; [|unfold pt; lia].
  cbn [team IndexTs.SCORING SlimTs.SCORING Team.towers Team.barracks Team.roshans
       Team.firstBlood Team.teamWin].
  unfold pt.
  destruct side; destruct (firstBloodTeam m) as [[]|];
    destruct (truthy (prop "radiant_win" m)); cbn [negb andb orb]; lia.
Qed.

(** ** Player rows *)

Lemma summarize_fold_snoc (arr : list JsVal) (p : JsVal) (map0 : gmap string Row) :
  fold_left
    (fun (map : gmap string Row) p =>
       let id := accountKey p in
       if String.eqb id "" then map else <[id := rowOf id p]> map)
    (arr ++ [p]) map0
  = let map :=
      fold_left
        (fun (map : gmap string Row) p =>
           let id := accountKey p in
           if String.eqb id "" then map else <[id := rowOf id p]> map)
        arr map0 in
    if String.eqb (accountKey p) "" then map
    else <[accountKey p := rowOf (accountKey p) p]> map.
Proof. now rewrite fold_left_app. Qed.

(** X5. [summarizePlayers] keeps, for every account id, the last row that carries
    it; rows without an account id are not kept. *)
Theorem summarizePlayers_keeps_last_row :
  forall (m : JsVal) (pid : string),
    summarizePlayers m !! pid
    = if String.eqb pid "" then None else rowOf pid <$> lastRowOf pid m.
Proof.
  intros m pid. unfold summarizePlayers, lastRowOf, playerRows.
  induction (arrayOr (prop "players" m)) as [|p arr IH] using rev_ind.
  - cbn. rewrite lookup_empty. now destruct (String.eqb pid "").
  - rewrite summarize_fold_snoc. cbv zeta. rewrite List.filter_app. cbn [List.filter].
    destruct (String.eqb_spec (accountKey p) pid) as [<-|Hne].
    + destruct (String.eqb (accountKey p) "") eqn:E.
      * exact IH.
      * rewrite lookup_insert_eq, last_snoc. reflexivity.
    + rewrite app_nil_r.
      destruct (String.eqb (accountKey p) ""); [exact IH|].
      rewrite lookup_insert_ne by exact Hne. exact IH.
Qed.

(** ** Merge writes of the match cache *)

Lemma assoc_app_setField (k k1 : string) (v1 : JsVal) (l old : list (string * JsVal)) :
  assoc k (l ++ setField k1 v1 old) = assoc k (l ++ (k1, v1) :: old).
Proof.
  induction l as [|[k0 v0] l IH]; cbn [app assoc].
  - apply assoc_setField.
  - now rewrite IH.
Qed.

Lemma assoc_mergeFields (k : string) (new : list (string * JsVal)) :
  forall old, assoc k (mergeFields old new) = assoc k (rev new ++ old).
Proof.
  unfold mergeFields.
  induction new as [|[k1 v1] new IH]; intros old; cbn [fold_left rev fst snd].
  - reflexivity.
  - rewrite IH, assoc_app_setField, <- app_assoc. reflexivity.
Qed.

Lemma assoc_app_notin (k : string) (l old : list (string * JsVal)) :
  ~ In k (List.map fst l) -> assoc k (l ++ old) = assoc k old.
Proof.
  induction l as [|[k0 v0] l IH]; cbn [app assoc List.map fst In]; intros H.
  - reflexivity.
  - destruct (String.eqb_spec k k0) as [->|Hne]; [exfalso; apply H; now left|].
    apply IH. intros Hin. apply H. now right.
Qed.

Lemma assoc_app_in (k : string) (l old : list (string * JsVal)) :
  In k (List.map fst l) -> assoc k (l ++ old) = assoc k l.
Proof.
  induction l as [|[k0 v0] l IH]; cbn [app assoc List.map fst In]; intros H.
  - contradiction.
  - destruct (String.eqb_spec k k0) as [->|Hne]; [reflexivity|].
    apply IH. destruct H as [H|H]; [congruence|exact H].
Qed.

Lemma assoc_rev (k : string) (l : list (string * JsVal)) :
  List.NoDup (List.map fst l) -> assoc k (rev l) = assoc k l.
Proof.
  induction l as [|[k0 v0] l IH]; cbn [rev List.map fst]; intros Hnd.
  - reflexivity.
  - apply List.NoDup_cons_iff in Hnd as [Hnotin Hnd].
    destruct (in_dec String.string_dec k (List.map fst (rev l))) as [Hin|Hin].
    + rewrite assoc_app_in by exact Hin. rewrite IH by exact Hnd.
      cbn [assoc]. destruct (String.eqb_spec k k0) as [->|]; [|reflexivity].
      exfalso. apply Hnotin. rewrite List.map_rev in Hin. now apply List.in_rev.
    + rewrite assoc_app_notin by exact Hin. cbn [assoc].
      destruct (String.eqb k k0); [reflexivity|].
      rewrite <- IH by exact Hnd.
      rewrite <- (app_nil_r (rev l)). symmetry. now apply assoc_app_notin.
Qed.

Lemma matchDoc_fields (tid : string) (payload stamp : JsVal) :
  List.map fst (IndexTs.matchDoc tid payload stamp) = matchDocFields.
Proof. reflexivity. Qed.

Lemma matchDocFields_nodup : List.NoDup matchDocFields.
Proof.
  unfold matchDocFields.
  repeat (apply List.NoDup_cons;
          [cbn [In]; intros H; repeat (destruct H as [H|H]; [discriminate H|]); exact H|]).
  apply List.NoDup_nil.
Qed.

Lemma merged_field (k : string) (old doc : list (string * JsVal)) :
  List.NoDup (List.map fst doc) ->
  assoc k (mergeFields old doc)
  = if in_dec String.string_dec k (List.map fst doc) then assoc k doc else assoc k old.
Proof.
  intros Hnd. rewrite assoc_mergeFields.
  destruct (in_dec String.string_dec k (List.map fst doc)) as [Hin|Hin].
  - rewrite assoc_app_in by (rewrite List.map_rev, <- List.in_rev; exact Hin).
    now apply assoc_rev.
  - apply assoc_app_notin. rewrite List.map_rev, <- List.in_rev. exact Hin.
Qed.

Lemma assoc_undefined (k : string) (l : list (string * JsVal)) :
  ~ In k (List.map fst l) -> assoc k l = JUndefined.
Proof.
  intros H. rewrite <- (app_nil_r l). now rewrite assoc_app_notin.
Qed.

(** X11. An upsert touches one document of the cache.  In it every field of
    [MatchDoc] reads as the payload gives it, whatever was stored; a field the
    upsert does not write reads as before. *)
Theorem upsert_merges_fields :
  forall (tid : string) (payload stamp : JsVal)
         (coll coll' : gmap string JsVal) (r : UpsertResult),
    IndexTs.upsertMatchDoc tid payload stamp coll = Some (coll', r) ->
    (forall k, In k matchDocFields ->
               prop k <$> coll' !! stringOfZ (u_match_id r)
               = Some (assoc k (IndexTs.matchDoc tid payload stamp)))
    /\ (forall k, ~ In k matchDocFields ->
                  prop k <$> coll' !! stringOfZ (u_match_id r)
                  = Some (from_option (prop k) JUndefined
                            (coll !! stringOfZ (u_match_id r))))
    /\ (forall id, id <> stringOfZ (u_match_id r) -> coll' !! id = coll !! id).
Proof.
  intros tid payload stamp coll coll' r H. unfold IndexTs.upsertMatchDoc in H.
  assert (E : Some (setMerge
                      (stringOfZ (toInt (nullish (prop "match_id" payload)
                                                  (prop "matchId" payload))))
                      (IndexTs.matchDoc tid payload stamp) coll,
                    mkUpsert
                      (yyyymmddFromUTC
                         (toInt (orElse (prop "start_time" payload)
                                        (prop "startTime" payload)) * 1000))
                      (toInt (nullish (prop "match_id" payload) (prop "matchId" payload)))
                      (looksComplete payload))
              = Some (coll', r)).
  { destruct payload; try discriminate; exact H. }
  clear H. injection E as <- <-. cbn [u_match_id].
  set (docId := stringOfZ _). set (doc := IndexTs.matchDoc tid payload stamp).
  assert (Hnd : List.NoDup (List.map fst doc))
    by (unfold doc; rewrite matchDoc_fields; apply matchDocFields_nodup).
  assert (Hkeys : List.map fst doc = matchDocFields) by apply matchDoc_fields.
  unfold setMerge.
  destruct (coll !! docId) as [stored|] eqn:Es.
  - destruct stored as [| |b|n|s|xs|old]; rewrite ?lookup_insert_eq;
      cbn [fmap option_fmap option_map from_option prop];
      (split; [|split]);
      try (intros k Hk; reflexivity);
      try (intros k Hk; f_equal; apply assoc_undefined; now rewrite Hkeys);
      try (intros id Hid; now rewrite lookup_insert_ne by congruence).
    + intros k Hk. f_equal. rewrite (merged_field k old doc Hnd).
      destruct (in_dec String.string_dec k (List.map fst doc)) as [|Hn];
        [reflexivity|]. exfalso. apply Hn. now rewrite Hkeys.
    + intros k Hk. f_equal. rewrite (merged_field k old doc Hnd).
      destruct (in_dec String.string_dec k (List.map fst doc)) as [Hi|];
        [|reflexivity]. exfalso. apply Hk. now rewrite <- Hkeys.
  - rewrite lookup_insert_eq. cbn [fmap option_fmap option_map from_option prop].
    split; [intros k Hk; reflexivity|].
    split; [intros k Hk; f_equal; apply assoc_undefined; now rewrite Hkeys|].
    intros id Hid. now rewrite lookup_insert_ne by congruence.
Qed.

(** ** The slim projection *)








(** ** The purge *)

Lemma insertBy_perm_any {A} (cmp : A -> A -> Z) (x : A) (l : list A) :
  Permutation (insertBy cmp x l) (x :: l).
Proof.
  induction l as [|y l IH]; simpl; [reflexivity|].
  destruct (cmp x y <=? 0); [reflexivity|].
  rewrite IH. apply perm_swap.
Qed.

Lemma jsSort_perm_any {A} (cmp : A -> A -> Z) (l : list A) :
  Permutation (jsSort cmp l) l.
Proof.
  induction l as [|x l IH]; simpl; [reflexivity|].
  rewrite insertBy_perm_any. now constructor.
Qed.

Lemma in_firstn {A} (n : nat) (x : A) (l : list A) : In x (firstn n l) -> In x l.
Proof.
  intros H. rewrite <- (firstn_skipn n l). apply in_or_app. now left.
Qed.

Lemma oldMatches_old (now : Z) (coll : gmap string JsVal) (id : string) (doc : JsVal) :
  In (id, doc) (PurgeTs.oldMatches now coll) ->
  coll !! id = Some doc /\ PurgeTs.isOld (PurgeTs.cutoffKey now) doc = true.
Proof.
  unfold PurgeTs.oldMatches. intros H. apply in_firstn in H.
  apply (Permutation_in _ (jsSort_perm_any _ _)) in H.
  apply List.filter_In in H as [H Hold]. split; [|exact Hold].
  apply elem_of_map_to_list. now apply list_elem_of_In.
Qed.

Lemma fold_delete_lookup (victims : list (string * JsVal)) (id : string) :
  forall coll : gmap string JsVal,
    fold_left (fun c e => delete (fst e) c) victims coll !! id
    = if in_dec String.string_dec id (List.map fst victims) then None else coll !! id.
Proof.
  induction victims as [|[k v] victims IH]; intros coll; cbn [fold_left List.map fst].
  - reflexivity.
  - rewrite IH.
    destruct (in_dec String.string_dec id (List.map fst victims)) as [Hin|Hin];
      destruct (in_dec String.string_dec id (k :: List.map fst victims)) as [Hin'|Hin'];
      try reflexivity.
    + exfalso. apply Hin'. now right.
    + destruct Hin' as [->|Hin']; [apply lookup_delete_eq|contradiction].
    + apply lookup_delete_ne. intros ->. apply Hin'. now left.
Qed.

Lemma fold_delete_size (victims : list (string * JsVal)) :
  forall coll : gmap string JsVal,
    (size coll <= size (fold_left (fun c e => delete (fst e) c) victims coll)
                  + length victims)%nat.
Proof.
  induction victims as [|[k v] victims IH]; intros coll; cbn [fold_left length fst].
  - lia.
  - specialize (IH (delete k coll)). rewrite map_size_delete in IH.
    destruct (coll !! k); simpl in IH; lia.
Qed.

(** X20. The purge removes documents and changes none.  A document it removes has
    a string [dateKey] before the cutoff key; at most 500 go in one run; and
    when no more than 500 are that old, none of them is left. *)
Theorem purge_removes_only_old_matches :
  forall (now : Z) (coll : gmap string JsVal),
    (forall id, PurgeTs.purgeOldMatches now coll !! id = None
                \/ PurgeTs.purgeOldMatches now coll !! id = coll !! id)
    /\ (forall id doc,
          coll !! id = Some doc ->
          PurgeTs.purgeOldMatches now coll !! id = None ->
          PurgeTs.isOld (PurgeTs.cutoffKey now) doc = true)
    /\ (size coll <= size (PurgeTs.purgeOldMatches now coll) + 500)%nat
    /\ ((length (List.filter (fun e => PurgeTs.isOld (PurgeTs.cutoffKey now) (snd e))
                   (map_to_list coll)) <= 500)%nat ->
        forall id doc,
          coll !! id = Some doc ->
          PurgeTs.isOld (PurgeTs.cutoffKey now) doc = true ->
          PurgeTs.purgeOldMatches now coll !! id = None).
Proof.
  intros now coll. unfold PurgeTs.purgeOldMatches.
  split; [|split; [|split]].
  - intros id. rewrite fold_delete_lookup.
    destruct (in_dec _ _ _); [now left|now right].
  - intros id doc Hdoc. rewrite fold_delete_lookup.
    destruct (in_dec String.string_dec id
                (List.map fst (PurgeTs.oldMatches now coll))) as [Hin|]; [|congruence].
    intros _. apply List.in_map_iff in Hin as ([id' doc'] & <- & Hin).
    destruct (oldMatches_old now coll id' doc' Hin) as [Hl Ho].
    cbn [fst] in Hdoc. congruence.
  - pose proof (fold_delete_size (PurgeTs.oldMatches now coll) coll) as H.
    assert (length (PurgeTs.oldMatches now coll) <= 500)%nat
      by apply firstn_le_length.
    lia.
  - intros Hfew id doc Hdoc Hold. rewrite fold_delete_lookup.
    destruct (in_dec String.string_dec id
                (List.map fst (PurgeTs.oldMatches now coll))) as [|Hn]; [reflexivity|].
    exfalso. apply Hn. apply List.in_map_iff. exists (id, doc). split; [reflexivity|].
    unfold PurgeTs.oldMatches. rewrite firstn_all2.
    + apply (Permutation_in _ (Permutation_sym (jsSort_perm_any _ _))).
      apply List.filter_In. split; [|exact Hold].
      apply list_elem_of_In. now apply elem_of_map_to_list.
    + rewrite (Permutation_length (jsSort_perm_any _ _)). exact Hfew.
Qed.

(** ** The hourly lock job *)

Lemma lockDoc_fields (stamp d : JsVal) (k : string) :
  prop k (LockJobTs.lockDoc stamp d)
  = if String.eqb k "lockedAt" then stamp
    else if String.eqb k "locked" then JBool true
    else prop k d.
Proof.
  unfold LockJobTs.lockDoc.
  destruct d as [| |b|n|s|xs|old]; cbn [prop];
    try (cbn [assoc];
         destruct (String.eqb_spec k "lockedAt") as [E2|E2];
         destruct (String.eqb_spec k "locked") as [E1|E1]; try reflexivity;
         rewrite E1 in E2; discriminate).
  unfold mergeFields. cbn [fold_left fst snd]. now rewrite !assoc_setField.
Qed.

Lemma lockDoc_not_toLock (stamp d : JsVal) (dk : string) :
  LockJobTs.toLock dk (LockJobTs.lockDoc stamp d) = false.
Proof.
  unfold LockJobTs.toLock. rewrite (lockDoc_fields stamp d "locked").
  cbn [String.eqb Ascii.eqb Bool.eqb sameValueZero]. now rewrite andb_false_r.
Qed.

(** X26. Running the lock job again at the same instant changes no lineup: the job
    is idempotent on the lineups collection. *)
Theorem lock_job_idempotent :
  forall (now : Z) (stamp1 stamp2 : JsVal) (st : LockJobTs.JobState),
    LockJobTs.lineupsColl
      (LockJobTs.lockLineupsHourly now stamp2 (LockJobTs.lockLineupsHourly now stamp1 st))
    = LockJobTs.lineupsColl (LockJobTs.lockLineupsHourly now stamp1 st).
Proof.
  intros now stamp1 stamp2 st. unfold LockJobTs.lockLineupsHourly.
  destruct (negb (LockJobTs.isActiveDay (LockJobTs.todayDateKeyET now)));
    [reflexivity|].
  destruct (match LockJobTs.computeLockUTC (LockJobTs.todayDateKeyET now) with
            | Some t => now <? t
            | None => false
            end); [reflexivity|].
  cbn [LockJobTs.lineupsColl]. rewrite <- map_fmap_compose.
  apply map_fmap_ext. intros id d _. cbn [compose].
  destruct (LockJobTs.toLock (LockJobTs.todayDateKeyET now) d) eqn:E.
  - now rewrite lockDoc_not_toLock.
  - now rewrite E.
Qed.

(** X25. The lock job creates and deletes no lineup and never unlocks one: a
    lineup is left as it is, or it was stored with [locked: false] and now
    reads [locked: true], every other field but [lockedAt] unchanged. *)
Theorem lock_job_only_locks :
  forall (now : Z) (stamp : JsVal) (st : LockJobTs.JobState) (id : string),
    match LockJobTs.lineupsColl st !! id,
          LockJobTs.lineupsColl (LockJobTs.lockLineupsHourly now stamp st) !! id with
    | None, None => True
    | Some d, Some d' =>
        d' = d
        \/ (prop "locked" d = JBool false
            /\ prop "locked" d' = JBool true
            /\ forall k, k <> "locked" -> k <> "lockedAt" -> prop k d' = prop k d)
    | _, _ => False
    end.
Proof.
  intros now stamp st id. unfold LockJobTs.lockLineupsHourly.
  destruct (negb (LockJobTs.isActiveDay (LockJobTs.todayDateKeyET now))).
  { destruct (LockJobTs.lineupsColl st !! id); [now left|exact I]. }
  destruct (match LockJobTs.computeLockUTC (LockJobTs.todayDateKeyET now) with
            | Some t => now <? t
            | None => false
            end).
  { destruct (LockJobTs.lineupsColl st !! id); [now left|exact I]. }
  cbn [LockJobTs.lineupsColl]. rewrite lookup_fmap.
  destruct (LockJobTs.lineupsColl st !! id) as [d|]; cbn; [|exact I].
  destruct (LockJobTs.toLock (LockJobTs.todayDateKeyET now) d) eqn:E; [|now left].
  right. split; [|split].
  - unfold LockJobTs.toLock in E. apply andb_prop in E as [_ E].
    destruct (prop "locked" d) as [| |[]| | | |]; try discriminate. reflexivity.
  - now rewrite lockDoc_fields.
  - intros k H1 H2. rewrite lockDoc_fields.
    destruct (String.eqb_spec k "lockedAt"); [contradiction|].
    destruct (String.eqb_spec k "locked"); [contradiction|reflexivity].
Qed.

(** ** Player names *)

Lemma stored_display (docId : string) (steam32 now : Z) (display : JsVal)
    (coll : gmap string JsVal) :
  exists d,
    setMerge docId
      [("steam32", JNum steam32); ("display", display); ("updatedAt", JNum now)] coll
    !! docId = Some d
    /\ prop "display" d = display.
Proof.
  destruct (lookup_setMerge docId
              [("steam32", JNum steam32); ("display", display); ("updatedAt", JNum now)]
              coll) as (fields & Hl & [->|[old ->]]).
  - eexists. split; [exact Hl|reflexivity].
  - eexists. split; [exact Hl|]. cbn [prop]. unfold mergeFields.
    cbn [fold_left fst snd]. now rewrite !assoc_setField.
Qed.

(** X23. Once [getPlayerDisplay] has answered a non-empty name for a player, every
    later call answers that name from the cache: the provider is not asked
    again (not even when the first answer was the fall-back to the id), and
    the collection is left as it is. *)
Theorem getPlayerDisplay_answers_from_cache :
  forall (fetch1 fetch2 : Z -> option JsVal) (steam32 now1 now2 : Z)
         (coll : gmap string JsVal),
    truthy (fst (PlayersTs.getPlayerDisplay fetch1 steam32 now1 coll)) = true ->
    PlayersTs.getPlayerDisplay fetch2 steam32 now2
      (snd (PlayersTs.getPlayerDisplay fetch1 steam32 now1 coll))
    = PlayersTs.getPlayerDisplay fetch1 steam32 now1 coll.
Proof.
  intros fetch1 fetch2 steam32 now1 now2 coll.
  unfold PlayersTs.getPlayerDisplay.
  destruct (steam32 =? 0) eqn:E0; [reflexivity|].
  destruct (truthy match coll !! toStr (JNum steam32) with
                   | Some d => prop "display" d
                   | None => JUndefined
                   end) eqn:Ec.
  { intros _. cbn [fst snd]. now rewrite Ec. }
  cbn [fst snd]. intros Ht.
  set (display := match fetch1 steam32 with
                  | Some js => _
                  | None => _
                  end) in *.
  destruct (stored_display (toStr (JNum steam32)) steam32 now1 display coll)
    as (d & Hl & Hd).
  rewrite Hl, Hd, Ht. reflexivity.
Qed.

(** ** The sweep bonus of [scoring.ts] *)

(** X21. [sweepBonus] pays 15 points or nothing, never to both sides, and only in
    a series of type 1 with a side at two wins or of type 2 with a side at
    three. *)
Theorem sweepBonus_pays_one_side :
  forall seriesType radiantWins direWins : Z,
    let b := ScoringTs.sweepBonus seriesType radiantWins direWins in
    (radiant b = 0 \/ radiant b = pt 15)
    /\ (dire b = 0 \/ dire b = pt 15)
    /\ (radiant b = 0 \/ dire b = 0)
    /\ (radiant b <> 0 ->
        (seriesType = 1 /\ radiantWins = 2) \/ (seriesType = 2 /\ radiantWins = 3))
    /\ (dire b <> 0 ->
        (seriesType = 1 /\ direWins = 2) \/ (seriesType = 2 /\ direWins = 3)).
Proof.
  intros seriesType radiantWins direWins. cbv zeta.
  rewrite sweepBonus_cases. cbn [radiant dire].
  destruct (Z.eqb_spec seriesType 1); destruct (Z.eqb_spec seriesType 2);
    destruct (Z.eqb_spec radiantWins 2); destruct (Z.eqb_spec radiantWins 3);
    destruct (Z.eqb_spec direWins 2); destruct (Z.eqb_spec direWins 3);
    cbn [andb orb negb]; unfold pt; repeat apply conj; lia.
Qed.

(** ** The poller *)

Lemma upsert_stored_day (tid : string) (payload stamp : JsVal)
    (coll coll' : gmap string JsVal) (r : UpsertResult) :
  IndexTs.upsertMatchDoc tid payload stamp coll = Some (coll', r) ->
  exists doc,
    coll' !! stringOfZ (u_match_id r) = Some doc
    /\ prop "complete" doc = JBool (u_complete r)
    /\ prop "dateKey" doc = JStr (u_dateKey r)
    /\ prop "tid" doc = JStr tid
    /\ forall id, is_Some (coll !! id) -> is_Some (coll' !! id).
Proof.
  unfold IndexTs.upsertMatchDoc. intros H.
  assert (E : Some (setMerge
                      (stringOfZ (toInt (nullish (prop "match_id" payload)
                                                  (prop "matchId" payload))))
                      (IndexTs.matchDoc tid payload stamp) coll,
                    mkUpsert
                      (yyyymmddFromUTC
                         (toInt (orElse (prop "start_time" payload)
                                        (prop "startTime" payload)) * 1000))
                      (toInt (nullish (prop "match_id" payload) (prop "matchId" payload)))
                      (looksComplete payload))
              = Some (coll', r)).
  { destruct payload; try discriminate; exact H. }
  clear H. injection E as <- <-. cbn [u_match_id u_complete u_dateKey].
  set (docId := stringOfZ _).
  destruct (lookup_setMerge docId (IndexTs.matchDoc tid payload stamp) coll)
    as (fields & Hl & Hf).
  exists (JObj fields). split; [exact Hl|].
  assert (Hfield : forall k, In k matchDocFields ->
                     assoc k fields = assoc k (IndexTs.matchDoc tid payload stamp)).
  { intros k Hk. destruct Hf as [->|[old ->]]; [reflexivity|].
    rewrite merged_field
      by (rewrite matchDoc_fields; apply matchDocFields_nodup).
    destruct (in_dec _ _ _) as [|Hn]; [reflexivity|].
    exfalso. apply Hn. now rewrite matchDoc_fields. }
  cbn [prop]. rewrite !Hfield by (cbn; tauto).
  repeat split.
  intros id Hid. unfold setMerge.
  destruct (String.eq_dec id docId) as [->|Hne].
  - destruct (coll !! docId) as [[| |b|n|s|xs|old]|];
      rewrite lookup_insert_eq; eauto.
  - destruct (coll !! docId) as [[| |b|n|s|xs|old]|];
      rewrite lookup_insert_ne by congruence; exact Hid.
Qed.

(** A row of the league list either leaves the poller's state as it is, or
    its fetched detail is upserted. *)
Lemma pollRow_cases (fetch : Z -> option JsVal) (tid : string) (now : Z)
    (stamp : JsVal) (st : PollState) (row : JsVal) :
  IndexTs.pollRow fetch tid now stamp st row = st
  \/ exists det coll' r,
       IndexTs.upsertMatchDoc tid det stamp (matchesColl st) = Some (coll', r)
       /\ IndexTs.pollRow fetch tid now stamp st row
          = mkPoll coll'
              (if u_complete r
                  && negb (from_option (fun e => truthy (prop "complete" e)) false
                             (matchesColl st
                              !! stringOfZ (toInt (orElse (prop "match_id" row)
                                                          (prop "matchId" row)))))
               then {[ u_dateKey r ]} ∪ completedDates st
               else completedDates st).
Proof.
  unfold IndexTs.pollRow.
  destruct (toInt (orElse (prop "match_id" row) (prop "matchId" row)) =? 0);
    [now left|].
  set (snap := matchesColl st !! _).
  destruct (match snap with
            | Some existing =>
                if strictEqBool existing "complete" || looksComplete existing
                then true
                else now - toInt (orElse (prop "start_time" existing)
                                         (prop "start_time" row)) * 1000
                     <? 15 * 60 * 1000
            | None => now - toInt (prop "start_time" row) * 1000 <? 10 * 60 * 1000
            end); [now left|].
  destruct (fetch _) as [det|]; [|now left].
  destruct (IndexTs.upsertMatchDoc tid det stamp (matchesColl st))
    as [[coll' r]|] eqn:Hup; [|now left].
  right. exists det, coll', r. split; [exact Hup|].
  destruct snap; reflexivity.
Qed.

(** X12. When the poller marks a day for scoring, the cache holds a record of that
    day and of the tournament that is complete, and the record of the listed
    match was not complete before: days are marked for newly completed
    matches only. *)
Theorem poller_marks_newly_completed_days :
  forall (fetch : Z -> option JsVal) (tid : string) (now : Z) (stamp : JsVal)
         (st : PollState) (row : JsVal) (dk : string),
    dk ∈ completedDates (IndexTs.pollRow fetch tid now stamp st row) ->
    dk ∉ completedDates st ->
    (exists id doc,
       matchesColl (IndexTs.pollRow fetch tid now stamp st row) !! id = Some doc
       /\ prop "complete" doc = JBool true
       /\ prop "dateKey" doc = JStr dk
       /\ prop "tid" doc = JStr tid)
    /\ from_option (fun e => truthy (prop "complete" e)) false
         (matchesColl st
          !! stringOfZ (toInt (orElse (prop "match_id" row) (prop "matchId" row))))
       = false.
Proof.
  intros fetch tid now stamp st row dk Hin Hout.
  destruct (pollRow_cases fetch tid now stamp st row)
    as [E|(det & coll' & r & Hup & E)]; rewrite E in *; [contradiction|].
  cbn [completedDates matchesColl] in *.
  destruct (u_complete r) eqn:Hc; cbn [andb] in Hin; [|contradiction].
  destruct (from_option _ false _) eqn:Hb; cbn [negb] in Hin; [contradiction|].
  split; [|reflexivity].
  apply elem_of_union in Hin as [Hin|Hin]; [|contradiction].
  apply elem_of_singleton in Hin. subst dk.
  destruct (upsert_stored_day tid det stamp _ coll' r Hup)
    as (doc & Hl & H1 & H2 & H3 & _).
  exists (stringOfZ (u_match_id r)), doc. rewrite Hc in H1. auto.
Qed.


(** ** Lineups: submission and the admin calls *)

Lemma orElse_string (s : string) : orElse (JStr s) (JStr "") = JStr s.
Proof. destruct s; reflexivity. Qed.

Lemma truthy_string (s : string) : s <> "" -> truthy (JStr s) = true.
Proof. intros H. destruct s; [contradiction|reflexivity]. Qed.

(** X15. A lineup that [submitLineup] accepted was submitted before the lock
    instant of its day, and [adminGetLineup] asked for that manager by uid
    reads back the submitted captain, cores, supports and team card as
    strings; it reports the day locked from the lock instant on. *)
Theorem admin_reads_submitted_lineup :
  forall (uid : string) (d stamp : JsVal) (tournaments : gmap string TournamentDoc)
         (now now' : Z) (lineups lineups' : gmap string LineupDoc) (id : string)
         (getUserByEmail : string -> option (string * JsVal))
         (getUser : string -> option JsVal) (caller : AdminTs.AuthData),
    IndexTs.submitLineup (IndexTs.mkRequest (Some uid) d) tournaments now stamp lineups
    = Returns (lineups', id) ->
    uid <> "" -> AdminTs.includesAt uid = false ->
    AdminTs.isAdmin (Some caller) = true ->
    geTime now (lockTimestamp (toStr (prop "dateKey" d))
                  (IndexTs.lockHourOf (tournaments !! toStr (prop "tid" d)))) = false
    /\ AdminTs.adminGetLineup getUserByEmail getUser
         (AdminTs.mkRequest (Some caller)
            (JObj [ ("tid", prop "tid" d); ("dateKey", prop "dateKey" d);
                    ("user", JStr uid) ]))
         tournaments now' lineups'
       = Returns
           (Some
              {| AdminTs.v_uid := uid;
                 AdminTs.v_email :=
                   from_option (fun e => orElse e JNull) JNull (getUser uid);
                 AdminTs.v_locked :=
                   geTime now' (lockTimestamp (toStr (prop "dateKey" d))
                                  (IndexTs.lockHourOf
                                     (tournaments !! toStr (prop "tid" d))));
                 AdminTs.v_captain := JStr (toStr (orElse (prop "captain" d) (JStr "")));
                 AdminTs.v_cores :=
                   List.map (fun x => JStr (toStr x)) (arrayOr (prop "cores" d));
                 AdminTs.v_supports :=
                   List.map (fun x => JStr (toStr x)) (arrayOr (prop "supports" d));
                 AdminTs.v_teamCard :=
                   JStr (toStr (orElse (prop "teamCard" d) (JStr ""))) |}).
Proof.
  intros uid d stamp tournaments now now' lineups lineups' id getUserByEmail getUser
         caller H Huid Hat Hadm.
  unfold IndexTs.submitLineup in H. cbn [IndexTs.auth IndexTs.data] in H.
  cbv zeta in H.
  assert (Hd : orElse d (JObj []) = d).
  { unfold orElse in *. destruct (truthy d); [reflexivity|].
    cbn in H. discriminate. }
  rewrite Hd in H.
  destruct (truthy (prop "tid" d)) eqn:Htr; cbn [negb orb] in H; [|discriminate].
  destruct (isDateKey (toStr (orElse (prop "dateKey" d) (JStr "")))) eqn:Hkey;
    cbn [negb] in H; [|discriminate].
  destruct (prop "tid" d) as [| |b|n|tidS|xs|o] eqn:Htid; try discriminate.
  cbn [toStr].
  destruct (geTime now _) eqn:Hlock; [discriminate|].
  split; [reflexivity|].
  injection H as <- <-.
  unfold AdminTs.adminGetLineup. cbn [AdminTs.auth AdminTs.data]. rewrite Hadm.
  cbn [negb prop assoc String.eqb Ascii.eqb Bool.eqb fst snd].
  cbv zeta. cbn [prop assoc String.eqb Ascii.eqb Bool.eqb fst snd].
  rewrite Htr, Hkey, (truthy_string uid Huid). cbn [negb orb toStr].
  rewrite Hat.
  destruct (String.eqb_spec uid "") as [E|_]; [contradiction|].
  rewrite lookup_insert_eq.
  cbn [from_option locked captain cores supports teamCard truthy orb].
  rewrite orb_false_r, !orElse_string.
  destruct (getUser uid); reflexivity.
Qed.

(** X16. Only an admin's [adminSetLineup] writes, and it writes one document: its
    [locked] flag tells whether the write came at or after the lock instant
    (which takes [overrideLock]), the stored manager name is kept, and every
    other lineup is left as it was. *)
Theorem admin_write_records_the_lock :
  forall (request : AdminTs.CallableRequest) (tournaments : gmap string TournamentDoc)
         (now : Z) (stamp : JsVal) (lineups lineups' : gmap string LineupDoc)
         (msg : string),
    AdminTs.adminSetLineup request tournaments now stamp lineups
    = Returns (lineups', msg) ->
    AdminTs.isAdmin (AdminTs.auth request) = true
    /\ exists (tidS : string) (doc : LineupDoc),
         let d := AdminTs.data request in
         let docId := tidS +:+ "_" +:+ toStr (prop "dateKey" d) +:+ "_"
                      +:+ toStr (prop "uid" d) in
         let late := geTime now (lockTimestamp (toStr (prop "dateKey" d))
                                   (IndexTs.lockHourOf (tournaments !! tidS))) in
         prop "tid" d = JStr tidS
         /\ lineups' !! docId = Some doc
         /\ locked doc = JBool late
         /\ late && negb (truthy (prop "overrideLock" d)) = false
         /\ msg = (if late then "Saved to a locked day." else "Saved.")
         /\ managerName doc = from_option managerName JUndefined (lineups !! docId)
         /\ forall other, other <> docId -> lineups' !! other = lineups !! other.
Proof.
  intros request tournaments now stamp lineups lineups' msg H.
  unfold AdminTs.adminSetLineup in H.
  destruct (AdminTs.isAdmin (AdminTs.auth request)); cbn [negb] in H; [|discriminate].
  split; [reflexivity|].
  set (d := AdminTs.data request) in *.
  assert (H' :
    (if negb (truthy (prop "tid" d))
        || negb (isDateKey (toStr (orElse (prop "dateKey" d) (JStr ""))))
        || negb (truthy (prop "uid" d))
     then ThrowsHttps invalid_argument "Provide tid, dateKey, uid."
     else
       match prop "tid" d with
       | JStr tidS =>
           if geTime now (lockTimestamp (toStr (prop "dateKey" d))
                            (IndexTs.lockHourOf (tournaments !! tidS)))
              && negb (truthy (prop "overrideLock" d))
           then ThrowsHttps failed_precondition "Locked; check Override."
           else
             Returns
               (<[tidS +:+ "_" +:+ toStr (prop "dateKey" d) +:+ "_"
                  +:+ toStr (prop "uid" d) :=
                    {| tid := prop "tid" d; dateKey := prop "dateKey" d;
                       ownerUid := prop "uid" d; mid := prop "uid" d;
                       managerName :=
                         from_option managerName JUndefined
                           (lineups !! (tidS +:+ "_" +:+ toStr (prop "dateKey" d)
                                        +:+ "_" +:+ toStr (prop "uid" d)));
                       captain := JStr (toStr (orElse (prop "captain" d) (JStr "")));
                       cores := List.map (fun x => JStr (toStr x))
                                  (arrayOr (prop "cores" d));
                       supports := List.map (fun x => JStr (toStr x))
                                     (arrayOr (prop "supports" d));
                       teamCard := JStr (toStr (orElse (prop "teamCard" d) (JStr "")));
                       locked :=
                         JBool (geTime now
                                  (lockTimestamp (toStr (prop "dateKey" d))
                                     (IndexTs.lockHourOf (tournaments !! tidS))));
                       updatedAt := stamp |}]> lineups,
                if geTime now (lockTimestamp (toStr (prop "dateKey" d))
                                 (IndexTs.lockHourOf (tournaments !! tidS)))
                then "Saved to a locked day." else "Saved.")
       | _ => ThrowsError "Value for argument documentPath is not a valid resource path."
       end) = Returns (lineups', msg)).
  { destruct d; try discriminate; exact H. }
  clear H.
  destruct (_ || _ || _); [discriminate|].
  destruct (prop "tid" d) as [| |b|n|tidS|xs|o] eqn:Htid; try discriminate.
  destruct (geTime now _ && _) eqn:Hgate; [discriminate|].
  injection H' as <- <-.
  eexists tidS, _. cbv zeta.
  split; [exact Htid|]. split; [apply lookup_insert_eq|].
  cbn [locked managerName].
  repeat split; try assumption.
  intros other Hne. now rewrite lookup_insert_ne.
Qed.

(** ** Series of a day *)

Lemma sameValueZero_eq (a b : JsVal) : sameValueZero a b = true -> a = b.
Proof.
  destruct a, b; simpl; try discriminate; intros H; f_equal.
  - now apply Bool.eqb_prop.
  - now apply Z.eqb_eq.
  - now apply String.eqb_eq.
Qed.

Lemma mapGet_cons {V} (k e : JsVal) (v : V) (M : list (JsVal * V)) :
  mapGet k ((e, v) :: M) = if sameValueZero e k then Some v else mapGet k M.
Proof. unfold mapGet. simpl. now destruct (sameValueZero e k). Qed.

Lemma mapGet_mapSet {V} (k k' : JsVal) (v : V) (M : list (JsVal * V)) :
  mapGet k (mapSet k' v M) = if sameValueZero k' k then Some v else mapGet k M.
Proof.
  induction M as [|[e ev] r IH]; simpl.
  - rewrite mapGet_cons. reflexivity.
  - destruct (sameValueZero e k') eqn:E1; rewrite !mapGet_cons.
    + apply sameValueZero_eq in E1. subst e.
      now destruct (sameValueZero k' k).
    + rewrite IH.
      destruct (sameValueZero e k) eqn:E2, (sameValueZero k' k) eqn:E3;
        try reflexivity.
      pose proof (sameValueZero_eq _ _ E2). pose proof (sameValueZero_eq _ _ E3).
      subst. congruence.
Qed.

(** The step both loops over the matches share: make sure the key has an
    entry, then update that entry. *)
Lemma mapGet_upsert {V} (s k : JsVal) (init : V) (f : V -> V) (M : list (JsVal * V)) :
  mapGet k (mapUpdate s f (if mapHas s M then M else mapSet s init M))
  = if sameValueZero s k then Some (f (default init (mapGet k M))) else mapGet k M.
Proof.
  set (M1 := if mapHas s M then M else mapSet s init M).
  assert (H1 : forall k', mapGet k' M1
               = if sameValueZero s k' then Some (default init (mapGet k' M))
                 else mapGet k' M).
  { intros k'. unfold M1, mapHas. case_bool_decide as Hs.
    - destruct (sameValueZero s k') eqn:E; [|reflexivity].
      apply sameValueZero_eq in E. subst k'. now destruct Hs as [x ->].
    - rewrite mapGet_mapSet.
      destruct (sameValueZero s k') eqn:E; [|reflexivity].
      apply sameValueZero_eq in E. subst k'.
      destruct (mapGet s M); [|reflexivity]. exfalso. apply Hs. eauto. }
  unfold mapUpdate. rewrite (H1 s).
  destruct (sameValueZero s s) eqn:Ess.
  - rewrite mapGet_mapSet, H1.
    destruct (sameValueZero s k) eqn:E; [|reflexivity].
    apply sameValueZero_eq in E. now subst k.
  - assert (E : sameValueZero s k = false).
    { destruct (sameValueZero s k) eqn:E; [|reflexivity].
      pose proof (sameValueZero_eq _ _ E). subst k. congruence. }
    destruct (mapGet s M); [rewrite mapGet_mapSet|]; rewrite ?H1, E; reflexivity.
Qed.

Lemma countIf_snoc {A} (f : A -> bool) (l : list A) (x : A) :
  countIf f (l ++ [x])%list = countIf f l + (if f x then 1 else 0).
Proof.
  unfold countIf. rewrite List.filter_app, length_app. simpl.
  destruct (f x); simpl length; lia.
Qed.

Lemma gamesOf_snoc (sid : JsVal) (ms : list JsVal) (m : JsVal) :
  gamesOf sid (ms ++ [m])%list
  = (gamesOf sid ms ++ (if sameValueZero (seriesKey m) sid then [m] else []))%list.
Proof. unfold gamesOf. rewrite List.filter_app. reflexivity. Qed.

Lemma seriesWins_tally (matches : list JsVal) (sid : JsVal) :
  mapGet sid (seriesWinsForDay matches) = tally (gamesOf sid matches).
Proof.
  unfold seriesWinsForDay.
  induction matches as [|m ms IH] using rev_ind; [reflexivity|].
  rewrite fold_left_app, gamesOf_snoc. cbn [fold_left]. cbv zeta.
  match goal with
  | |- mapGet sid (if ?c then mapUpdate ?s ?f ?M else mapUpdate ?s ?g ?M) = _ =>
      replace (if c then mapUpdate s f M else mapUpdate s g M)
        with (mapUpdate s (if c then f else g) M) by (now destruct c)
  end.
  rewrite mapGet_upsert, IH.
  destruct (sameValueZero (seriesKey m) sid); [|now rewrite app_nil_r].
  destruct (gamesOf sid ms) as [|first rest]; cbn [tally app default].
  - unfold countIf, direWon, radiantWon, winRadiant, winDire.
    cbn [List.filter].
    destruct (truthy (prop "radiant_win" m)); reflexivity.
  - change (first :: (rest ++ [m])%list) with ((first :: rest) ++ [m])%list.
    rewrite !countIf_snoc. unfold winRadiant, winDire.
    change (direWon m) with (negb (radiantWon m)).
    change (truthy (prop "radiant_win" m)) with (radiantWon m).
    destruct (radiantWon m);
      cbn [default from_option Datatypes.id negb sw_radiant sw_dire team_id wins];
      rewrite ?Z.add_0_r; reflexivity.
Qed.


(** X7. [addSweepBonuses] pays nothing, to the team card and to every player,
    on a day without a series in which one side won two games or more and
    the other side none. *)
Theorem no_bonus_without_clean_sweep :
  forall (S : Scoring) (lineup : LineupDoc) (matches : list JsVal),
    forallb (fun m => noCleanSweep (gamesOf (seriesKey m) matches)) matches = true ->
    Rules.addSweepBonuses S lineup matches = mkSweeps ∅ 0.
Proof.
  intros S lineup matches H. unfold Rules.addSweepBonuses.
  assert (Hw : forall sid w, mapGet sid (seriesWinsForDay matches) = Some w ->
                 truthy (Rules.sweepTeamOf w) = false).
  { intros sid w Hg.
    rewrite seriesWins_tally in Hg.
    destruct (gamesOf sid matches) as [|first rest] eqn:Eg; [discriminate|].
    assert (Hin : In first (gamesOf sid matches)) by (rewrite Eg; now left).
    apply List.filter_In in Hin as [Hin Hk]. apply sameValueZero_eq in Hk.
    rewrite forallb_forall in H. specialize (H first Hin).
    rewrite Hk, Eg in H. injection Hg as <-.
    destruct (truthy (Rules.sweepTeamOf _)) eqn:Ht; [|reflexivity].
    apply sweepTeamOf_sweep in Ht. cbn [sw_radiant sw_dire wins] in Ht.
    unfold noCleanSweep in H. cbv zeta in H.
    apply andb_prop in H as [Ha Hb].
    apply negb_true_iff, andb_false_iff in Ha, Hb. lia. }
  induction (groupBySeries matches) as [|[sid pack] rest IH]; [reflexivity|].
  cbn [fold_left]. 
  destruct (mapGet sid (seriesWinsForDay matches)) as [w|] eqn:Eg; [|exact IH].
  rewrite (Hw sid w Eg). exact IH.
Qed.

(** ** Date keys *)

Lemma yoe_late (doe : Z) :
  0 <= doe < 36524 ->
  let yoe := (doe - doe / 1460 + doe / 36524 - doe / 146096) / 365 in
  0 <= yoe <= 99 /\ 0 <= doe - (365 * yoe + yoe / 4 - yoe / 100) <= 365.
Proof. intros H. cbv zeta. Z.div_mod_to_equations; lia. Qed.

Lemma yoe_early (doe : Z) :
  135080 <= doe < 146097 ->
  let yoe := (doe - doe / 1460 + doe / 36524 - doe / 146096) / 365 in
  369 <= yoe <= 399 /\ 0 <= doe - (365 * yoe + yoe / 4 - yoe / 100) <= 365.
Proof. intros H. cbv zeta. Z.div_mod_to_equations; lia. Qed.

(** From 1970-01-01 to 2099-12-31 the date of a day number is a calendar
    date, and [daysFromCivil] leads back to the day number. *)
Lemma civilFromDays_inverse (dn : Z) :
  0 <= dn < 47482 ->
  exists y m d,
    civilFromDays dn = (y, m, d)
    /\ 1970 <= y <= 2099 /\ 1 <= m <= 12 /\ 1 <= d <= 31
    /\ daysFromCivil y m d = dn.
Proof.
  intros H. unfold civilFromDays. cbv zeta.
  set (z := dn + 719468).
  set (era := z / 146097).
  set (doe := z - era * 146097).
  set (yoe := (doe - doe / 1460 + doe / 36524 - doe / 146096) / 365).
  set (doy := doe - (365 * yoe + yoe / 4 - yoe / 100)).
  set (mp := (5 * doy + 2) / 153).
  assert (Hera : (era = 4 /\ 135080 <= doe < 146097) \/ (era = 5 /\ 0 <= doe < 36465)).
  { unfold doe, era, z. Z.div_mod_to_equations. lia. }
  assert (Hy : (era = 4 /\ 369 <= yoe <= 399 \/ era = 5 /\ 0 <= yoe <= 99)
               /\ 0 <= doy <= 365).
  { destruct Hera as [[E Hd]|[E Hd]].
    - pose proof (yoe_early doe Hd) as Hq. cbv zeta in Hq.
      fold yoe in Hq. fold doy in Hq. lia.
    - assert (Hd' : 0 <= doe < 36524) by lia.
      pose proof (yoe_late doe Hd') as Hq. cbv zeta in Hq.
      fold yoe in Hq. fold doy in Hq. lia. }
  assert (Hmp : 0 <= mp <= 11 /\ 1 <= doy - (153 * mp + 2) / 5 + 1 <= 31).
  { unfold mp. destruct Hy as [_ Hy]. Z.div_mod_to_equations; lia. }
  assert (Hdoe : doe = dn + 719468 - era * 146097) by reflexivity.
  assert (Hdoy : doy = doe - (365 * yoe + yoe / 4 - yoe / 100)) by reflexivity.
  set (d := doy - (153 * mp + 2) / 5 + 1) in *.
  assert (Hd : d = doy - (153 * mp + 2) / 5 + 1) by reflexivity.
  assert (Hmpdef : mp = (5 * doy + 2) / 153) by reflexivity.
  clearbody d mp doy doe yoe era. clear z.
  destruct Hy as [Hy Hdoyr]. destruct Hmp as [Hmp Hdr].
  assert (Hq : (yoe + era * 400) / 400 = era) by (Z.div_mod_to_equations; lia).
  destruct (Z.ltb_spec mp 10) as [Hlt|Hge].
  - destruct (Z.leb_spec (mp + 3) 2) as [|_]; [lia|].
    eexists _, _, _. split; [reflexivity|].
    unfold daysFromCivil. cbv zeta.
    destruct (Z.leb_spec (mp + 3) 2) as [|_]; [lia|].
    destruct (Z.gtb_spec (mp + 3) 2) as [_|]; [|lia].
    replace (mp + 3 - 3) with mp by lia.
    rewrite Hq.
    replace (yoe + era * 400 - era * 400) with yoe by lia.
    repeat split; try lia; Z.div_mod_to_equations; lia.
  - destruct (Z.leb_spec (mp - 9) 2) as [_|]; [|lia].
    eexists _, _, _. split; [reflexivity|].
    unfold daysFromCivil. cbv zeta.
    destruct (Z.leb_spec (mp - 9) 2) as [_|]; [|lia].
    destruct (Z.gtb_spec (mp - 9) 2) as [|_]; [lia|].
    replace (mp - 9 + 9) with mp by lia.
    replace (yoe + era * 400 + 1 - 1) with (yoe + era * 400) by lia.
    rewrite Hq.
    replace (yoe + era * 400 - era * 400) with yoe by lia.
    repeat split; try lia; Z.div_mod_to_equations; lia.
Qed.

Lemma stringOfZ_digits (n : Z) :
  0 <= n -> NumberOfSlice (stringOfZ n) = Some n.
Proof.
  intros Hn. unfold stringOfZ. destruct (Z.ltb_spec n 0); [lia|].
  assert (Hb : 0 <= n < 2 ^ Z.of_nat (S (Z.to_nat (Z.log2 n)))).
  { split; [exact Hn|].
    rewrite Nat2Z.inj_succ, Z2Nat.id by apply Z.log2_nonneg.
    destruct (Z.eq_dec n 0) as [->|]; [reflexivity|].
    apply Z.log2_spec. lia. }
  destruct (digitsOf_shape _ n "" Hb eq_refl) as (Hall & _ & _).
  destruct (parseInt_stringOfNonneg n Hn) as (c & r & E & _ & Hr).
  unfold NumberOfSlice. rewrite Hall, E, Hr. reflexivity.
Qed.

Lemma year_length (y : Z) : 1000 <= y <= 9999 -> String.length (stringOfZ y) = 4%nat.
Proof.
  intros H. unfold stringOfZ. destruct (Z.ltb_spec y 0); [lia|].
  assert (Hl : 3 <= Z.log2 y).
  { change 3 with (Z.log2 8). apply Z.log2_le_mono. lia. }
  destruct (Z.to_nat (Z.log2 y)) as [|[|[|k]]] eqn:E; try lia.
  cbn [digitsOf].
  destruct (Z.eqb_spec (y / 10) 0) as [E1|_];
    [exfalso; Z.div_mod_to_equations; lia|].
  destruct (Z.eqb_spec (y / 10 / 10) 0) as [E1|_];
    [exfalso; Z.div_mod_to_equations; lia|].
  destruct (Z.eqb_spec (y / 10 / 10 / 10) 0) as [E1|_];
    [exfalso; Z.div_mod_to_equations; lia|].
  destruct (Z.eqb_spec (y / 10 / 10 / 10 / 10) 0) as [_|E1];
    [reflexivity|exfalso; Z.div_mod_to_equations; lia].
Qed.

Lemma two_digits (x : Z) :
  1 <= x <= 31 ->
  String.length (padStart2 (stringOfZ x)) = 2%nat
  /\ NumberOfSlice (padStart2 (stringOfZ x)) = Some x.
Proof.
  intros H.
  assert (E : exists k, (k < 31)%nat /\ x = 1 + Z.of_nat k)
    by (exists (Z.to_nat (x - 1)); lia).
  destruct E as (k & Hk & ->).
  do 31 (destruct k as [|k]; [split; vm_compute; reflexivity|]). lia.
Qed.

Lemma length_append (a b : string) :
  String.length (a +:+ b) = (String.length a + String.length b)%nat.
Proof. induction a as [|c a IH]; simpl; [reflexivity|now rewrite IH]. Qed.

Lemma allDigits_append (a b : string) :
  allDigits (a +:+ b) = allDigits a && allDigits b.
Proof.
  induction a as [|c a IH]; simpl; [reflexivity|].
  now rewrite IH, andb_assoc.
Qed.

Lemma substring_head (a t : string) : substring 0 (String.length a) (a +:+ t) = a.
Proof.
  induction a as [|c a IH]; simpl; [now destruct t|now rewrite IH].
Qed.

Lemma substring_skip (a t : string) (n k : nat) :
  substring (String.length a + n) k (a +:+ t) = substring n k t.
Proof. induction a as [|c a IH]; simpl; [reflexivity|exact IH]. Qed.

Lemma substring_all (a : string) : substring 0 (String.length a) a = a.
Proof. induction a as [|c a IH]; simpl; [reflexivity|now rewrite IH]. Qed.

Lemma NumberOfSlice_digits (s : string) (n : Z) :
  NumberOfSlice s = Some n -> allDigits s = true.
Proof. unfold NumberOfSlice. now destruct (allDigits s). Qed.

(** The three slices of a key built from a year of four digits and a month
    and a day of two. *)
Lemma key_slices (a b c : string) :
  String.length a = 4%nat -> String.length b = 2%nat -> String.length c = 2%nat ->
  String.length (a +:+ b +:+ c) = 8%nat
  /\ slice 0 4 (a +:+ b +:+ c) = a
  /\ slice 4 6 (a +:+ b +:+ c) = b
  /\ slice 6 8 (a +:+ b +:+ c) = c.
Proof.
  intros Ha Hb Hc. unfold slice. repeat split.
  - now rewrite !length_append, Ha, Hb, Hc.
  - change (4 - 0)%nat with 4%nat. rewrite <- Ha. apply substring_head.
  - change (6 - 4)%nat with 2%nat.
    change 4%nat with (4 + 0)%nat. rewrite <- Ha, substring_skip.
    rewrite <- Hb. apply substring_head.
  - change (8 - 6)%nat with 2%nat.
    change 6%nat with (4 + 2)%nat. rewrite <- Ha, substring_skip.
    change 2%nat with (2 + 0)%nat at 1. rewrite <- Hb at 1. rewrite substring_skip.
    rewrite <- Hc. apply substring_all.
Qed.

(** The key of an instant between 1970 and 2099 has eight digits, and its
    slices read back the date of the day of the instant. *)
Lemma key_of_instant (ms : Z) :
  0 <= ms < 4102444800000 ->
  exists y m d,
    isDateKey (yyyymmddFromUTC ms) = true
    /\ NumberOfSlice (slice 0 4 (yyyymmddFromUTC ms)) = Some y
    /\ NumberOfSlice (slice 4 6 (yyyymmddFromUTC ms)) = Some m
    /\ NumberOfSlice (slice 6 8 (yyyymmddFromUTC ms)) = Some d
    /\ 1970 <= y <= 2099 /\ 1 <= m <= 12
    /\ daysFromCivil y m d = ms / msPerDay.
Proof.
  intros H.
  assert (Hdn : 0 <= ms / msPerDay < 47482)
    by (unfold msPerDay; Z.div_mod_to_equations; lia).
  destruct (civilFromDays_inverse _ Hdn) as (y & m & d & E & Hy & Hm & Hd & Hinv).
  exists y, m, d. unfold yyyymmddFromUTC.
  destruct (Z.leb_spec (Z.abs ms) maxTime) as [_|Hbad]; [|unfold maxTime in Hbad; lia].
  rewrite E.
  pose proof (year_length y ltac:(lia)) as Ly.
  pose proof (stringOfZ_digits y ltac:(lia)) as Ny.
  destruct (two_digits m ltac:(lia)) as [Lm Nm].
  destruct (two_digits d Hd) as [Ld Nd].
  destruct (key_slices _ _ _ Ly Lm Ld) as (Lk & S1 & S2 & S3).
  rewrite S1, S2, S3. repeat split; try assumption; try lia.
  unfold isDateKey. rewrite Lk, !allDigits_append.
  now rewrite (NumberOfSlice_digits _ _ Ny), (NumberOfSlice_digits _ _ Nm),
    (NumberOfSlice_digits _ _ Nd).
Qed.

Lemma lockTimestamp_of_key (ms h : Z) :
  0 <= ms < 4102444800000 -> 0 <= h < 24 ->
  lockTimestamp (yyyymmddFromUTC ms) h
  = Some (ms / msPerDay * msPerDay + h * msPerHour).
Proof.
  intros Hms Hh.
  destruct (key_of_instant ms Hms) as (y & m & d & Hk & Ny & Nm & Nd & Hy & Hm & Hinv).
  unfold lockTimestamp. rewrite Ny, Nm, Nd.
  cbn [mbind option_bind fmap option_fmap option_map].
  rewrite DateUTC_civil; [now rewrite Hinv|lia|lia|].
  rewrite Hinv. unfold msPerDay, msPerHour, maxTime.
  Z.div_mod_to_equations; lia.
Qed.

(** X2. The date key of an instant between 1970 and 2099 is an eight-digit key,
    and its lock instant is the start of the UTC day of the instant plus the
    lock hour: [lockTimestamp] reads back what [yyyymmddFromUTC] wrote. *)
Theorem date_key_round_trip :
  forall (ms h : Z),
    0 <= ms < 4102444800000 -> 0 <= h < 24 ->
    isDateKey (yyyymmddFromUTC ms) = true
    /\ lockTimestamp (yyyymmddFromUTC ms) h
       = Some (ms / msPerDay * msPerDay + h * msPerHour).
Proof.
  intros ms h Hms Hh. split; [|now apply lockTimestamp_of_key].
  destruct (key_of_instant ms Hms) as (y & m & d & Hk & _). exact Hk.
Qed.

(** X22. A match whose start, in seconds, lies between 1970 and 2099 falls into
    the range [dayRangeUTC] computes for the date key of that start, and the
    range is the 86400 seconds of that UTC day. *)
Theorem day_range_contains_its_matches :
  forall (sec : Z),
    0 <= sec < 4102444800 ->
    PipelineTs.dayRangeUTC (yyyymmddFromUTC (sec * 1000))
    = Some (sec / 86400 * 86400, sec / 86400 * 86400 + 86399)
    /\ sec / 86400 * 86400 <= sec <= sec / 86400 * 86400 + 86399.
Proof.
  intros sec Hs.
  destruct (key_of_instant (sec * 1000) ltac:(lia))
    as (y & m & d & Hk & Ny & Nm & Nd & Hy & Hm & Hinv).
  split; [|Z.div_mod_to_equations; lia].
  assert (Hday : sec * 1000 / msPerDay = sec / 86400).
  { unfold msPerDay. change 86400000 with (1000 * 86400).
    rewrite <- Z.div_div by lia. now rewrite Z.div_mul by lia. }
  rewrite Hday in Hinv.
  assert (Hdate : forall hh mi ss,
             0 <= hh < 24 -> 0 <= mi < 60 -> 0 <= ss < 60 ->
             PipelineTs.DateUTCTime y (m - 1) d hh mi ss
             = Some (sec / 86400 * msPerDay + hh * msPerHour + mi * 60000 + ss * 1000)).
  { intros hh mi ss Hh Hmi Hss. unfold PipelineTs.DateUTCTime.
    replace ((0 <=? y) && (y <=? 99)) with false
      by (symmetry; apply andb_false_iff; right; apply Z.leb_gt; lia).
    rewrite Z.div_small, Z.mod_small, Z.add_0_r by lia.
    replace (m - 1 + 1) with m by lia.
    assert (E : daysFromCivil y m 1 + d - 1 = daysFromCivil y m d)
      by (unfold daysFromCivil; lia).
    rewrite E, Hinv.
    destruct (Z.leb_spec (Z.abs (sec / 86400 * msPerDay + hh * msPerHour
                                 + mi * 60000 + ss * 1000)) maxTime) as [_|Hbad];
      [reflexivity|].
    exfalso. unfold msPerDay, msPerHour, maxTime in Hbad.
    Z.div_mod_to_equations; lia. }
  unfold PipelineTs.dayRangeUTC. rewrite Ny, Nm, Nd.
  cbn [mbind option_bind fmap option_fmap option_map].
  rewrite !Hdate by lia.
  cbn [mbind option_bind]. f_equal. f_equal.
  - unfold msPerDay, msPerHour. Z.div_mod_to_equations; lia.
  - unfold msPerDay, msPerHour. Z.div_mod_to_equations; lia.
Qed.

(** X24. Before 07:00 of the day at UTC-4 (11:00 UTC) the hourly job locks
    nothing and writes no marker. *)
Theorem lock_job_waits_for_the_lock_hour :
  forall (now : Z) (stamp : JsVal) (st : LockJobTs.JobState),
    4 * msPerHour <= now < 4102444800000 ->
    (now - 4 * msPerHour) mod msPerDay < 7 * msPerHour ->
    LockJobTs.lockLineupsHourly now stamp st = st.
Proof.
  intros now stamp st Hnow Hearly.
  unfold LockJobTs.lockLineupsHourly. cbv zeta.
  destruct (negb (LockJobTs.isActiveDay _)); [reflexivity|].
  unfold LockJobTs.todayDateKeyET.
  change (4 * 3600 * 1000) with (4 * msPerHour).
  assert (Hr : 0 <= now - 4 * msPerHour < 4102444800000)
    by (unfold msPerHour in *; lia).
  pose proof (lockTimestamp_of_key (now - 4 * msPerHour) 11 Hr ltac:(lia)) as Hl.
  change (LockJobTs.computeLockUTC ?k) with (lockTimestamp k 11).
  rewrite Hl.
  destruct (Z.ltb_spec now ((now - 4 * msPerHour) / msPerDay * msPerDay + 11 * msPerHour))
    as [_|Hge]; [reflexivity|].
  exfalso. unfold msPerDay, msPerHour in *. Z.div_mod_to_equations; lia.
Qed.

(** ** The calendar order of date keys, and the purge *)

Lemma monthStart_next_year (y : Z) :
  daysFromCivil y 13 1 = daysFromCivil (y + 1) 1 1.
Proof.
  unfold daysFromCivil. cbn [Z.leb Z.gtb Z.compare Pos.compare Pos.compare_cont].
  cbv zeta. replace (y + 1 - 1) with y by lia. reflexivity.
Qed.

Lemma monthStart_mono_month (y m m' : Z) :
  1970 <= y <= 2100 -> 1 <= m <= m' -> m' <= 13 ->
  daysFromCivil y m 1 <= daysFromCivil y m' 1.
Proof.
  intros Hy Hm Hm'. unfold daysFromCivil. cbv zeta.
  destruct (Z.leb_spec m 2); destruct (Z.leb_spec m' 2);
    destruct (Z.gtb_spec m 2); destruct (Z.gtb_spec m' 2);
    try lia; (Z.div_mod_to_equations; lia).
Qed.

Lemma yearStart_mono (y y' : Z) :
  1970 <= y <= y' -> y' <= 2100 ->
  daysFromCivil y 1 1 <= daysFromCivil y' 1 1.
Proof.
  intros Hy Hy'. unfold daysFromCivil.
  cbn [Z.leb Z.gtb Z.compare Pos.compare Pos.compare_cont]. cbv zeta.
  (Z.div_mod_to_equations; lia).
Qed.

Lemma yoe_late_next (doe : Z) :
  0 <= doe < 36524 ->
  let yoe := (doe - doe / 1460 + doe / 36524 - doe / 146096) / 365 in
  doe < 365 * (yoe + 1) + (yoe + 1) / 4 - (yoe + 1) / 100.
Proof. intros H. cbv zeta. Z.div_mod_to_equations; lia. Qed.

Lemma yoe_early_next (doe : Z) :
  135080 <= doe < 146097 ->
  let yoe := (doe - doe / 1460 + doe / 36524 - doe / 146096) / 365 in
  doe < 365 * (yoe + 1) + (yoe + 1) / 4 - (yoe + 1) / 100 + (yoe + 1) / 400.
Proof. intros H. cbv zeta. Z.div_mod_to_equations; lia. Qed.

Lemma civilFromDays_within_month (dn y m d : Z) :
  0 <= dn < 47482 ->
  civilFromDays dn = (y, m, d) ->
  dn < daysFromCivil y (m + 1) 1.
Proof.
  intros H. unfold civilFromDays. cbv zeta.
  set (z := dn + 719468).
  set (era := z / 146097).
  set (doe := z - era * 146097).
  set (yoe := (doe - doe / 1460 + doe / 36524 - doe / 146096) / 365).
  set (doy := doe - (365 * yoe + yoe / 4 - yoe / 100)).
  set (mp := (5 * doy + 2) / 153).
  assert (Hera : (era = 4 /\ 135080 <= doe < 146097) \/ (era = 5 /\ 0 <= doe < 36465)).
  { unfold doe, era, z. Z.div_mod_to_equations. lia. }
  assert (Hy : (era = 4 /\ 369 <= yoe <= 399
                /\ doe < 365 * (yoe + 1) + (yoe + 1) / 4 - (yoe + 1) / 100 + (yoe + 1) / 400
                \/ era = 5 /\ 0 <= yoe <= 99
                   /\ doe < 365 * (yoe + 1) + (yoe + 1) / 4 - (yoe + 1) / 100)
               /\ 0 <= doy <= 365).
  { destruct Hera as [[E Hd]|[E Hd]].
    - pose proof (yoe_early doe Hd) as Hq. cbv zeta in Hq.
      pose proof (yoe_early_next doe Hd) as Hn. cbv zeta in Hn.
      fold yoe in Hq, Hn. fold doy in Hq. lia.
    - assert (Hd' : 0 <= doe < 36524) by lia.
      pose proof (yoe_late doe Hd') as Hq. cbv zeta in Hq.
      pose proof (yoe_late_next doe Hd') as Hn. cbv zeta in Hn.
      fold yoe in Hq, Hn. fold doy in Hq. lia. }
  assert (Hmp : 0 <= mp <= 11 /\ 5 * doy + 2 < 153 * (mp + 1)).
  { unfold mp. destruct Hy as [_ Hy]. Z.div_mod_to_equations; lia. }
  assert (Hdoe : doe = dn + 719468 - era * 146097) by reflexivity.
  assert (Hdoy : doy = doe - (365 * yoe + yoe / 4 - yoe / 100)) by reflexivity.
  clearbody mp doy doe yoe era. clear z.
  destruct Hy as [Hy Hdoyr]. destruct Hmp as [Hmp Hnext].
  intros E. injection E as <- <- <-.
  destruct (Z.ltb_spec mp 10) as [Hlt|Hge].
  - destruct (Z.leb_spec (mp + 3) 2) as [|_]; [lia|].
    unfold daysFromCivil. cbv zeta.
    destruct (Z.leb_spec (mp + 3 + 1) 2) as [|_]; [lia|].
    destruct (Z.gtb_spec (mp + 3 + 1) 2) as [_|]; [|lia].
    replace (mp + 3 + 1 - 3) with (mp + 1) by lia.
    assert (Hq : (yoe + era * 400) / 400 = era) by (Z.div_mod_to_equations; lia).
    rewrite Hq.
    replace (yoe + era * 400 - era * 400) with yoe by lia.
    Z.div_mod_to_equations; lia.
  - destruct (Z.leb_spec (mp - 9) 2) as [_|]; [|lia].
    unfold daysFromCivil. cbv zeta.
    replace (yoe + era * 400 + 1) with (yoe + 1 + era * 400) by lia.
    destruct (Z.leb_spec (mp - 9 + 1) 2) as [Hjan|Hfeb].
    + (* January: February of the same year follows *)
      destruct (Z.gtb_spec (mp - 9 + 1) 2) as [|_]; [lia|].
      replace (yoe + 1 + era * 400 - 1) with (yoe + era * 400) by lia.
      assert (Hq : (yoe + era * 400) / 400 = era) by (Z.div_mod_to_equations; lia).
      rewrite Hq.
      replace (yoe + era * 400 - era * 400) with yoe by lia.
      Z.div_mod_to_equations; lia.
    + (* February: March opens the next year of the era *)
      destruct (Z.gtb_spec (mp - 9 + 1) 2) as [_|]; [|lia].
      assert (mp = 11) as -> by lia.
      cbn [Z.add Z.sub Z.opp Z.pos_sub Pos.add Pos.succ Z.mul Pos.mul Z.div]. 
      Z.div_mod_to_equations; lia.
Qed.

Lemma daysFromCivil_day (y m d : Z) :
  daysFromCivil y m d = daysFromCivil y m 1 + d - 1.
Proof. unfold daysFromCivil. lia. Qed.

(** Later days have later dates. *)
Lemma civilFromDays_order (d1 d2 y1 m1 e1 y2 m2 e2 : Z) :
  0 <= d1 -> d1 < d2 -> d2 < 47482 ->
  civilFromDays d1 = (y1, m1, e1) -> civilFromDays d2 = (y2, m2, e2) ->
  y1 * 10000 + m1 * 100 + e1 < y2 * 10000 + m2 * 100 + e2.
Proof.
  intros H0 H12 H2 E1 E2.
  destruct (civilFromDays_inverse d1 ltac:(lia))
    as (y & m & e & E & Hy1 & Hm1 & He1 & D1).
  rewrite E1 in E. injection E as <- <- <-.
  destruct (civilFromDays_inverse d2 ltac:(lia))
    as (y & m & e & E & Hy2 & Hm2 & He2 & D2).
  rewrite E2 in E. injection E as <- <- <-.
  pose proof (civilFromDays_within_month d1 y1 m1 e1 ltac:(lia) E1) as W1.
  rewrite daysFromCivil_day in D1, D2.
  destruct (Z.lt_trichotomy y1 y2) as [Hy|[Hy|Hy]]; [lia| |].
  - subst y2.
    destruct (Z.lt_trichotomy m1 m2) as [Hm|[Hm|Hm]]; [lia| |].
    + subst m2. lia.
    + exfalso.
      pose proof (civilFromDays_within_month d2 y1 m2 e2 ltac:(lia) E2) as W2.
      pose proof (monthStart_mono_month y1 (m2 + 1) m1 ltac:(lia) ltac:(lia) ltac:(lia)).
      lia.
  - exfalso.
    pose proof (civilFromDays_within_month d2 y2 m2 e2 ltac:(lia) E2) as W2.
    pose proof (monthStart_mono_month y2 (m2 + 1) 13 ltac:(lia) ltac:(lia) ltac:(lia)).
    pose proof (monthStart_next_year y2).
    pose proof (yearStart_mono (y2 + 1) y1 ltac:(lia) ltac:(lia)).
    pose proof (monthStart_mono_month y1 1 m1 ltac:(lia) ltac:(lia) ltac:(lia)).
    lia.
Qed.

(** *** Strings of digits compare as the numbers they denote *)

Lemma isDigit_value (c : ascii) : isDigit c = true -> 0 <= digitVal c <= 9.
Proof.
  unfold isDigit, digitVal. intros H. apply andb_prop in H as [H1 H2].
  apply Nat.leb_le in H1, H2. lia.
Qed.

Lemma ascii_compare_digitVal (c1 c2 : ascii) :
  Ascii.compare c1 c2 = (digitVal c1 ?= digitVal c2).
Proof.
  unfold Ascii.compare, digitVal, nat_of_ascii.
  rewrite !N_nat_Z, <- N2Z.inj_compare.
  destruct (Z.compare_spec (Z.of_N (N_of_ascii c1)) (Z.of_N (N_of_ascii c2)));
    symmetry; [apply Z.compare_eq_iff|apply Z.compare_lt_iff|apply Z.compare_gt_iff]; lia.
Qed.

Lemma digitsValue_shift (s : string) :
  allDigits s = true ->
  0 <= digitsValue s 0 < 10 ^ Z.of_nat (String.length s)
  /\ forall w, digitsValue s w = w * 10 ^ Z.of_nat (String.length s) + digitsValue s 0.
Proof.
  induction s as [|c r IH]; intros H.
  - simpl. split; [lia|]. intros w. lia.
  - simpl in H. apply andb_prop in H as [Hc Hr].
    destruct (IH Hr) as [Hb Hs]. pose proof (isDigit_value c Hc) as Hd.
    cbn [digitsValue String.length]. rewrite Nat2Z.inj_succ, Z.pow_succ_r by lia.
    set (P := 10 ^ Z.of_nat (String.length r)) in *.
    rewrite (Hs (10 * 0 + digitVal c)). split; [nia|].
    intros w. rewrite (Hs (10 * w + digitVal c)). ring.
Qed.

Lemma compare_digit_strings (s1 : string) :
  forall s2 v,
    String.length s1 = String.length s2 ->
    allDigits s1 = true -> allDigits s2 = true ->
    String.compare s1 s2 = (digitsValue s1 v ?= digitsValue s2 v).
Proof.
  induction s1 as [|c1 r1 IH]; intros [|c2 r2] v Hl H1 H2; try discriminate.
  - simpl. symmetry. apply Z.compare_refl.
  - simpl in H1, H2. apply andb_prop in H1 as [Hc1 Hr1].
    apply andb_prop in H2 as [Hc2 Hr2]. injection Hl as Hl.
    cbn [String.compare digitsValue]. rewrite ascii_compare_digitVal.
    pose proof (isDigit_value c1 Hc1). pose proof (isDigit_value c2 Hc2).
    destruct (digitsValue_shift r1 Hr1) as [B1 S1].
    destruct (digitsValue_shift r2 Hr2) as [B2 S2].
    rewrite (S1 (10 * v + digitVal c1)), (S2 (10 * v + digitVal c2)).
    rewrite <- Hl in *. set (P := 10 ^ Z.of_nat (String.length r1)) in *.
    destruct (Z.compare_spec (digitVal c1) (digitVal c2)) as [E|L|G].
    + rewrite E. rewrite (IH r2 0 Hl Hr1 Hr2).
      destruct (Z.compare_spec (digitsValue r1 0) (digitsValue r2 0));
        symmetry; [apply Z.compare_eq_iff|apply Z.compare_lt_iff|apply Z.compare_gt_iff];
        lia.
    + symmetry. apply Z.compare_lt_iff. nia.
    + symmetry. apply Z.compare_gt_iff. nia.
Qed.

Lemma digitsValue_append (a b : string) (v : Z) :
  digitsValue (a +:+ b) v = digitsValue b (digitsValue a v).
Proof. revert v. induction a as [|c a IH]; intros v; simpl; [reflexivity|apply IH]. Qed.

Lemma NumberOfSlice_value (s : string) (n : Z) :
  NumberOfSlice s = Some n -> digitsValue s 0 = n.
Proof.
  unfold NumberOfSlice. destruct (allDigits s) eqn:H; [|discriminate].
  destruct s as [|c r]; [simpl; congruence|].
  rewrite (readDigits_from_none c r H). simpl. congruence.
Qed.

(** The key of an instant between 1970 and 2099, read as a number, is
    [10000 y + 100 m + d] for the date of the instant. *)
Lemma key_number (ms : Z) :
  0 <= ms < 4102444800000 ->
  exists y m d,
    civilFromDays (ms / msPerDay) = (y, m, d)
    /\ String.length (yyyymmddFromUTC ms) = 8%nat
    /\ allDigits (yyyymmddFromUTC ms) = true
    /\ digitsValue (yyyymmddFromUTC ms) 0 = y * 10000 + m * 100 + d.
Proof.
  intros H.
  assert (Hdn : 0 <= ms / msPerDay < 47482)
    by (unfold msPerDay; Z.div_mod_to_equations; lia).
  destruct (civilFromDays_inverse _ Hdn) as (y & m & d & E & Hy & Hm & Hd & Hinv).
  exists y, m, d. split; [exact E|]. unfold yyyymmddFromUTC.
  destruct (Z.leb_spec (Z.abs ms) maxTime) as [_|Hbad]; [|unfold maxTime in Hbad; lia].
  rewrite E.
  pose proof (year_length y ltac:(lia)) as Ly.
  pose proof (stringOfZ_digits y ltac:(lia)) as Ny.
  destruct (two_digits m ltac:(lia)) as [Lm Nm].
  destruct (two_digits d Hd) as [Ld Nd].
  pose proof (NumberOfSlice_digits _ _ Ny) as Ay.
  pose proof (NumberOfSlice_digits _ _ Nm) as Am.
  pose proof (NumberOfSlice_digits _ _ Nd) as Ad.
  split; [now rewrite !length_append, Ly, Lm, Ld|].
  split; [now rewrite !allDigits_append, Ay, Am, Ad|].
  rewrite !digitsValue_append, (NumberOfSlice_value _ _ Ny).
  destruct (digitsValue_shift _ Am) as [_ Sm].
  destruct (digitsValue_shift _ Ad) as [_ Sd].
  rewrite Sd, Sm, Lm, Ld, (NumberOfSlice_value _ _ Nm), (NumberOfSlice_value _ _ Nd).
  change (10 ^ Z.of_nat 2) with 100. lia.
Qed.

(** Date keys are ordered as the days they name. *)
Lemma keys_compare (ms1 ms2 : Z) :
  0 <= ms1 < 4102444800000 -> 0 <= ms2 < 4102444800000 ->
  String.ltb (yyyymmddFromUTC ms1) (yyyymmddFromUTC ms2)
  = (ms1 / msPerDay <? ms2 / msPerDay).
Proof.
  intros H1 H2.
  destruct (key_number ms1 H1) as (y1 & m1 & d1 & E1 & L1 & A1 & V1).
  destruct (key_number ms2 H2) as (y2 & m2 & d2 & E2 & L2 & A2 & V2).
  unfold String.ltb.
  rewrite (compare_digit_strings _ _ 0 (eq_trans L1 (eq_sym L2)) A1 A2), V1, V2.
  assert (Hd1 : 0 <= ms1 / msPerDay < 47482)
    by (unfold msPerDay; Z.div_mod_to_equations; lia).
  assert (Hd2 : 0 <= ms2 / msPerDay < 47482)
    by (unfold msPerDay; Z.div_mod_to_equations; lia).
  destruct (Z.lt_trichotomy (ms1 / msPerDay) (ms2 / msPerDay)) as [Hlt|[Heq|Hgt]].
  - pose proof (civilFromDays_order _ _ _ _ _ _ _ _ (proj1 Hd1) Hlt (proj2 Hd2) E1 E2)
      as Hn.
    apply Z.compare_lt_iff in Hn. rewrite Hn. symmetry. now apply Z.ltb_lt.
  - rewrite Heq, E2 in E1. injection E1 as <- <- <-.
    rewrite Z.compare_refl, Heq. symmetry. apply Z.ltb_irrefl.
  - pose proof (civilFromDays_order _ _ _ _ _ _ _ _ (proj1 Hd2) Hgt (proj2 Hd1) E2 E1)
      as Hn.
    apply Z.compare_gt_iff in Hn. rewrite Hn. symmetry. apply Z.ltb_ge. lia.
Qed.

(** The cutoff key of the purge names the day two days before today (UTC). *)
Lemma cutoffKey_day (now : Z) :
  2 * msPerDay <= now < 4102444800000 ->
  PurgeTs.cutoffKey now = yyyymmddFromUTC ((now / msPerDay - 2) * msPerDay).
Proof.
  intros H. unfold PurgeTs.cutoffKey, PurgeTs.cutoffUTC.
  destruct (Z.leb_spec (Z.abs now) maxTime) as [_|Hbad];
    [|unfold maxTime, msPerDay in *; lia].
  assert (Hdn : 2 <= now / msPerDay < 47482)
    by (unfold msPerDay in *; Z.div_mod_to_equations; lia).
  destruct (civilFromDays_inverse (now / msPerDay) ltac:(lia))
    as (y & m & d & E & Hy & Hm & Hd & Hinv).
  rewrite E.
  assert (Hday : daysFromCivil y m (d - 2) = now / msPerDay - 2)
    by (rewrite daysFromCivil_day in *; lia).
  rewrite DateUTC_civil; [|lia|lia|].
  - rewrite Hday. f_equal. unfold msPerHour. lia.
  - rewrite Hday. unfold msPerDay, msPerHour, maxTime in *. lia.
Qed.

(** X27. For a record whose date key was written for an instant between 1970
    and 2099, the purge counts the record as old exactly when that instant
    lies on a UTC day more than two days before today; a record of the day
    two days before today or of a later day is kept. *)
Theorem purge_cutoff_is_two_days :
  forall (now ms : Z) (coll : gmap string JsVal) (id : string) (doc : JsVal),
    2 * msPerDay <= now < 4102444800000 ->
    0 <= ms < 4102444800000 ->
    coll !! id = Some doc ->
    prop "dateKey" doc = JStr (yyyymmddFromUTC ms) ->
    PurgeTs.isOld (PurgeTs.cutoffKey now) doc
    = (ms / msPerDay <? now / msPerDay - 2)
    /\ (now / msPerDay - 2 <= ms / msPerDay ->
        PurgeTs.purgeOldMatches now coll !! id = Some doc).
Proof.
  intros now ms coll id doc Hnow Hms Hdoc Hkey.
  assert (Hold : PurgeTs.isOld (PurgeTs.cutoffKey now) doc
                 = (ms / msPerDay <? now / msPerDay - 2)).
  { unfold PurgeTs.isOld. rewrite Hkey, (cutoffKey_day now Hnow).
    assert (Hdn : 2 <= now / msPerDay < 47482)
      by (unfold msPerDay in *; Z.div_mod_to_equations; lia).
    rewrite keys_compare; [|exact Hms|unfold msPerDay in *; lia].
    now rewrite Z.div_mul by (unfold msPerDay; lia). }
  split; [exact Hold|]. intros Hrecent.
  unfold PurgeTs.purgeOldMatches. rewrite fold_delete_lookup.
  destruct (in_dec String.string_dec id
              (List.map fst (PurgeTs.oldMatches now coll))) as [Hin|]; [|exact Hdoc].
  apply List.in_map_iff in Hin as ([id' doc'] & <- & Hin).
  destruct (oldMatches_old now coll id' doc' Hin) as [Hl Ho].
  cbn [fst] in Hdoc. rewrite Hdoc in Hl. injection Hl as <-.
  rewrite Hold in Ho. apply Z.ltb_lt in Ho. lia.
Qed.

(** ** The stand-alone [submitLineup]: what it stores *)

(** X28. Whatever the stand-alone [submitLineup] stores passed its shape
    checks: the caller is signed in, the tournament exists, the captain is a
    number, the cores and the supports are arrays of the lengths the
    tournament's roles ask for (3 and 2 by default), the team card is a
    string; the stored [locked] flag is the one answered, and it tells
    whether the UTC hour has reached the lock hour (12 by default). *)
Theorem standalone_submitLineup_validates :
  forall (request : IndexTs.CallableRequest) (tournaments : gmap string TournamentDoc)
         (now : Z) (lineups lineups' : gmap string LineupDoc) (lk : bool),
    LineupTs.submitLineup request tournaments now lineups = Returns (lineups', lk) ->
    exists (uid : string) (cfg : TournamentDoc) (doc : LineupDoc),
      let d := nullish (IndexTs.data request) (JObj []) in
      let want := default LineupTs.defaultRoles (roles cfg) in
      IndexTs.auth request = Some uid
      /\ tournaments !! toStr (prop "tid" d) = Some cfg
      /\ lineups' !! (toStr (prop "tid" d) +:+ "_" +:+ uid +:+ "_"
                      +:+ toStr (prop "dateKey" d)) = Some doc
      /\ (exists n, captain doc = JNum n)
      /\ Z.of_nat (length (cores doc)) = r_cores want
      /\ Z.of_nat (length (supports doc)) = r_supports want
      /\ (exists t, teamCard doc = JStr t)
      /\ locked doc = JBool lk
      /\ lk = (getUTCHours now >=? default 12 (lockHourUTC cfg)).
Proof.
  intros request tournaments now lineups lineups' lk H.
  unfold LineupTs.submitLineup in H.
  destruct (IndexTs.auth request) as [uid|] eqn:Ha; [|discriminate].
  destruct (String.eqb uid ""); [discriminate|].
  cbv zeta in H. set (d := nullish (IndexTs.data request) (JObj [])) in *.
  destruct (negb (truthy (prop "tid" d)) || negb (truthy (prop "dateKey" d)));
    [discriminate|].
  destruct (tournaments !! toStr (prop "tid" d)) as [cfg|] eqn:Hc; [|discriminate].
  destruct (prop "captain" d) as [| |b|n|t|xs|o] eqn:Hcap; try discriminate.
  cbn [negb] in H.
  destruct (negb (isArray (prop "cores" d))
            || negb (Z.of_nat (length (arrayOr (prop "cores" d)))
                     =? r_cores (default LineupTs.defaultRoles (roles cfg))))
    eqn:Hcores; [discriminate|].
  destruct (negb (isArray (prop "supports" d))
            || negb (Z.of_nat (length (arrayOr (prop "supports" d)))
                     =? r_supports (default LineupTs.defaultRoles (roles cfg))))
    eqn:Hsups; [discriminate|].
  destruct (prop "teamCard" d) as [| |b'|n'|t|xs|o] eqn:Hteam; try discriminate.
  cbn [negb] in H. injection H as <- <-.
  apply orb_false_elim in Hcores as [_ Hcores], Hsups as [_ Hsups].
  apply negb_false_iff, Z.eqb_eq in Hcores, Hsups.
  exists uid, cfg. eexists. cbv zeta.
  split; [reflexivity|]. split; [exact Hc|].
  split; [apply lookup_insert_eq|].
  cbn [captain cores supports teamCard locked].
  repeat split; eauto.
Qed.

(** ** What the stored record keeps for the team card *)












(** ** What the cached record of [index.ts] keeps for the scoring *)




(** ** Instances of the further results *)

(** Team 11 is the radiant team of the sample match, as a number and as the
    string of that number. *)
Lemma isRadiantForTeam_number_or_string_witness :
  isRadiantForTeam (gameDoc 1 500 1 true [] tenRows) (JNum 11)
  = isRadiantForTeam (gameDoc 1 500 1 true [] tenRows) (JStr (toStr (JNum 11))).
Proof.
  apply (isRadiantForTeam_number_or_string (gameDoc 1 500 1 true [] tenRows) 11).
  discriminate.
Defined.

(** The upsert of the complete payload of match 7 into an empty cache leaves
    every other id without a record. *)
Lemma upsert_merges_fields_witness :
  exists coll' r,
    IndexTs.upsertMatchDoc "ti2025" rawComplete JNull ∅ = Some (coll', r)
    /\ forall id, id <> stringOfZ (u_match_id r) -> coll' !! id = (∅ : gmap string JsVal) !! id.
Proof.
  destruct (IndexTs.upsertMatchDoc "ti2025" rawComplete JNull ∅) as [[coll' r]|] eqn:E.
  - exists coll', r. split; [reflexivity|].
    exact (proj2 (proj2 (upsert_merges_fields "ti2025" rawComplete JNull ∅ coll' r E))).
  - apply (f_equal (fun o => bool_decide (is_Some o))) in E.
    vm_compute in E. discriminate.
Defined.



(** Once the provider named player 101, a later call answers the same name
    although the provider fails. *)
Lemma getPlayerDisplay_answers_from_cache_witness :
  PlayersTs.getPlayerDisplay (fun _ => None) 101 afterMatch
    (snd (PlayersTs.getPlayerDisplay (fun _ => Some providerProfile) 101 lockInstant ∅))
  = PlayersTs.getPlayerDisplay (fun _ => Some providerProfile) 101 lockInstant ∅.
Proof.
  apply (getPlayerDisplay_answers_from_cache
           (fun _ => Some providerProfile) (fun _ => None) 101 lockInstant afterMatch ∅).
  reflexivity.
Defined.

(** The poller meets match 7 for the first time, complete: it marks day
    20250911, and the cache holds a complete record of that day. *)
Lemma poller_marks_newly_completed_days_witness :
  "20250911" ∈ completedDates
                 (IndexTs.pollRow (fun _ => Some rawComplete) "ti2025" afterMatch JNull
                    (mkPoll ∅ ∅) listedRow)
  /\ exists id doc,
       matchesColl (IndexTs.pollRow (fun _ => Some rawComplete) "ti2025" afterMatch JNull
                      (mkPoll ∅ ∅) listedRow) !! id = Some doc
       /\ prop "complete" doc = JBool true
       /\ prop "dateKey" doc = JStr "20250911"
       /\ prop "tid" doc = JStr "ti2025".
Proof.
  assert (Hin : "20250911" ∈ completedDates
                  (IndexTs.pollRow (fun _ => Some rawComplete) "ti2025" afterMatch JNull
                     (mkPoll ∅ ∅) listedRow)).
  { refine (bool_decide_unpack _ _). vm_compute. exact I. }
  assert (Hout : "20250911" ∉ completedDates (mkPoll ∅ ∅)).
  { apply not_elem_of_empty. }
  split; [exact Hin|].
  exact (proj1 (poller_marks_newly_completed_days (fun _ => Some rawComplete) "ti2025"
                  afterMatch JNull (mkPoll ∅ ∅) listedRow "20250911" Hin Hout)).
Defined.

(** Manager [u1] submits one second before the lock; the admin reads the
    lineup back. *)
Lemma admin_reads_submitted_lineup_witness :
  exists lineups' docId,
    IndexTs.submitLineup lineupRequest ti2025 (lockInstant - 1000) JNull ∅
    = Returns (lineups', docId)
    /\ match AdminTs.adminGetLineup (fun _ => None) (fun _ => None)
               (AdminTs.mkRequest (Some adminCaller)
                  (JObj [ ("tid", JStr "ti2025"); ("dateKey", JStr "20250911");
                          ("user", JStr "u1") ]))
               ti2025 lockInstant lineups' with
       | Returns (Some view) =>
           AdminTs.v_captain view = JStr "101" /\ AdminTs.v_locked view = true
       | _ => False
       end.
Proof.
  destruct (IndexTs.submitLineup lineupRequest ti2025 (lockInstant - 1000) JNull ∅)
    as [[lineups' docId]| |] eqn:E.
  - exists lineups', docId. split; [reflexivity|].
    assert (Hu : "u1" <> "") by discriminate.
    pose proof (proj2 (admin_reads_submitted_lineup "u1" (IndexTs.data lineupRequest)
                         JNull ti2025 (lockInstant - 1000) lockInstant ∅ lineups' docId
                         (fun _ => None) (fun _ => None) adminCaller E Hu eq_refl eq_refl))
      as Hr.
    change (prop "tid" (IndexTs.data lineupRequest)) with (JStr "ti2025") in Hr.
    change (prop "dateKey" (IndexTs.data lineupRequest)) with (JStr "20250911") in Hr.
    rewrite Hr. split; reflexivity.
  - apply (f_equal (fun o => bool_decide (is_Some (returned o)))) in E.
    vm_compute in E. discriminate.
  - apply (f_equal (fun o => bool_decide (is_Some (returned o)))) in E.
    vm_compute in E. discriminate.
Defined.

(** An admin's write at the lock instant, with the override, is accepted. *)
Lemma admin_write_records_the_lock_witness :
  exists lineups' msg,
    AdminTs.adminSetLineup adminWrite ti2025 lockInstant JNull ∅ = Returns (lineups', msg)
    /\ AdminTs.isAdmin (AdminTs.auth adminWrite) = true.
Proof.
  destruct (AdminTs.adminSetLineup adminWrite ti2025 lockInstant JNull ∅)
    as [[lineups' msg]| |] eqn:E.
  - exists lineups', msg. split; [reflexivity|].
    exact (proj1 (admin_write_records_the_lock adminWrite ti2025 lockInstant JNull ∅
                    lineups' msg E)).
  - apply (f_equal (fun o => bool_decide (is_Some (returned o)))) in E.
    vm_compute in E. discriminate.
  - apply (f_equal (fun o => bool_decide (is_Some (returned o)))) in E.
    vm_compute in E. discriminate.
Defined.

(** A best-of-three that ends 2-1 pays no sweep bonus. *)
Lemma no_bonus_without_clean_sweep_witness :
  IndexTs.addSweepBonuses lineupRadiant bo3_2_1 = mkSweeps ∅ 0.
Proof.
  apply (no_bonus_without_clean_sweep IndexTs.SCORING lineupRadiant bo3_2_1).
  vm_compute. reflexivity.
Defined.

(** The key of 2025-09-11T08:40:00Z locks at 08:00 of that day. *)
Lemma date_key_round_trip_witness :
  isDateKey (yyyymmddFromUTC 1757580000000) = true
  /\ lockTimestamp (yyyymmddFromUTC 1757580000000) 8
     = Some (1757580000000 / msPerDay * msPerDay + 8 * msPerHour).
Proof.
  apply (date_key_round_trip 1757580000000 8); lia.
Defined.

(** The day of a match that starts at 2025-09-11T08:40:00Z. *)
Lemma day_range_contains_its_matches_witness :
  PipelineTs.dayRangeUTC (yyyymmddFromUTC (1757580000 * 1000))
  = Some (1757580000 / 86400 * 86400, 1757580000 / 86400 * 86400 + 86399).
Proof.
  apply (day_range_contains_its_matches 1757580000). lia.
Defined.

(** At 10:00 UTC of an active day the job leaves the unlocked lineup alone. *)
Lemma lock_job_waits_for_the_lock_hour_witness :
  LockJobTs.lockLineupsHourly tenOClock JNull beforeLock = beforeLock.
Proof.
  apply (lock_job_waits_for_the_lock_hour tenOClock JNull beforeLock).
  - unfold tenOClock, msPerHour. lia.
  - vm_compute. reflexivity.
Defined.

(** Manager [u1] is refused at the lock instant of 2025-09-11 and accepted
    one second before it. *)
Lemma index_submitLineup_lock_gate_witness :
  IndexTs.submitLineup lineupRequest ti2025 lockInstant JNull ∅
  = ThrowsHttps failed_precondition "Lineups for this day are locked."
  /\ exists coll,
       IndexTs.submitLineup lineupRequest ti2025 (lockInstant - 1000) JNull ∅
       = Returns (coll, "ti2025" +:+ "_" +:+ "20250911" +:+ "_" +:+ "u1")
       /\ is_Some (coll !! ("ti2025" +:+ "_" +:+ "20250911" +:+ "_" +:+ "u1")).
Proof.
  assert (Hne : "ti2025" <> "") by discriminate.
  assert (Hlock : lockTimestamp "20250911" (IndexTs.lockHourOf (ti2025 !! "ti2025"))
                  = Some lockInstant) by (vm_compute; reflexivity).
  destruct (index_submitLineup_lock_gate "u1" "ti2025" "20250911"
              (IndexTs.data lineupRequest) JNull ti2025 lockInstant lockInstant ∅
              eq_refl eq_refl Hne eq_refl eq_refl Hlock) as [Hlate _].
  destruct (index_submitLineup_lock_gate "u1" "ti2025" "20250911"
              (IndexTs.data lineupRequest) JNull ti2025 (lockInstant - 1000) lockInstant ∅
              eq_refl eq_refl Hne eq_refl eq_refl Hlock) as [_ Hearly].
  split.
  - apply Hlate. apply Z.le_refl.
  - apply Hearly. unfold lockInstant. lia.
Defined.

(** Match 7, of 2025-09-11, is in the cache on the same day: it is not old,
    and the purge keeps it. *)
Lemma purge_cutoff_is_two_days_witness :
  PurgeTs.isOld (PurgeTs.cutoffKey afterMatch) (JObj (IndexTs.matchDoc "ti2025" rawComplete JNull))
  = (1757580000000 / msPerDay <? afterMatch / msPerDay - 2)
  /\ (afterMatch / msPerDay - 2 <= 1757580000000 / msPerDay ->
      PurgeTs.purgeOldMatches afterMatch cachedMatch7 !! "7"
      = Some (JObj (IndexTs.matchDoc "ti2025" rawComplete JNull))).
Proof.
  apply (purge_cutoff_is_two_days afterMatch 1757580000000 cachedMatch7 "7"
           (JObj (IndexTs.matchDoc "ti2025" rawComplete JNull))).
  - unfold afterMatch, msPerDay. lia.
  - lia.
  - reflexivity.
  - reflexivity.
Defined.

(** The lineup of manager [u1] passes the checks of the stand-alone
    callable. *)
Lemma standalone_submitLineup_validates_witness :
  exists lineups' lk,
    LineupTs.submitLineup lineupRequest ti2025 lockInstant ∅ = Returns (lineups', lk)
    /\ exists cfg doc,
         ti2025 !! "ti2025" = Some cfg
         /\ lineups' !! "ti2025_u1_20250911" = Some doc
         /\ Z.of_nat (length (cores doc)) = 3.
Proof.
  destruct (LineupTs.submitLineup lineupRequest ti2025 lockInstant ∅)
    as [[lineups' lk]| |] eqn:E.
  - exists lineups', lk. split; [reflexivity|].
    destruct (standalone_submitLineup_validates lineupRequest ti2025 lockInstant ∅
                lineups' lk E)
      as (uid & cfg & doc & Ha & Hc & Hd & _ & Hcores & _).
    injection Ha as <-.
    exists cfg, doc. split; [exact Hc|]. split; [exact Hd|].
    rewrite Hcores.
    change (ti2025 !! "ti2025") with (Some (mkTournament (Some "TI 2025") (Some [18324]) (Some 8) None)) in Hc.
    injection Hc as <-. reflexivity.
  - apply (f_equal (fun o => bool_decide (is_Some (returned o)))) in E.
    vm_compute in E. discriminate.
  - apply (f_equal (fun o => bool_decide (is_Some (returned o)))) in E.
    vm_compute in E. discriminate.
Defined.


